(** * The local pseudo plugin of libstoragemgmt: request routing over backends

    A shallow embedding of [plugin/local_plugin/local.py]: the [LocalPlugin]
    class that discovers the hardware-specific backends (megaraid, hpsa,
    arcconf, nfs), opens one connection per backend and routes every storage
    management request to the connection(s) concerned.

    Layout: data model, the outside world (backends and host), the
    state-and-exception monad the methods run in, the methods of
    [LocalPlugin] in source order, then the theorems. *)

From Stdlib Require Import ZArith String List Lia.
From stdpp Require Import base option list strings gmap.

Open Scope string_scope.
Open Scope list_scope.

(** ** Errors *)

(** The members of [lsm.ErrorNumber] that [local.py] names; every other code a
    backend may raise is an [OTHER_ERROR]. *)
Inductive ErrorNumber :=
| PLUGIN_BUG
| INVALID_ARGUMENT
| NO_SUPPORT
| NOT_FOUND_SYSTEM
| OTHER_ERROR (n : nat).

(** A Python exception: the domain error [LsmError(code, msg)], or any other
    [Exception], of which only [str(exception)] is ever used. *)
Inductive exn :=
| LsmError (code : ErrorNumber) (msg : string)
| Exception (msg : string).

Inductive result (A : Type) :=
| Ok (a : A)
| Raise (e : exn).
Arguments Ok {A} a.
Arguments Raise {A} e.

Definition is_LsmError (e : exn) : bool :=
  match e with LsmError _ _ => true | Exception _ => false end.

Definition is_NO_SUPPORT (e : exn) : bool :=
  match e with LsmError NO_SUPPORT _ => true | _ => false end.

(** ** Data model *)

(** Modelled from the spec: the [lsm.System] class is not part of this file;
    a storage system is an identifier plus attributes. *)
Record System := { sys_id : string; sys_name : string }.

(** Modelled from the spec: the [lsm] data classes (Disk, Pool, Volume,
    Battery, FileSystem) are not part of this file; each carries its own
    identifier, the identifier of the system that owns it, and further
    attributes by name. *)
Record LsmObj := {
  obj_id : string;
  obj_system_id : string;
  obj_attrs : list (string * string)
}.

(** Argument and return values that the router only passes through. *)
Inductive PyVal :=
| PNone
| PInt (z : Z)
| PStr (s : string)
| PSystem (s : System)
| PObj (o : LsmObj)
| PObjs (l : list LsmObj)
| PStrs (l : list string).

Definition PyOpt (o : option string) : PyVal :=
  match o with Some s => PStr s | None => PNone end.

(** A backend connection is a Python object; the model names it by a
    handle, so that [conns], [sys_con_map] and [nfs_conn] alias the same
    connection exactly as the references in the source do. *)
Abbreviation conn := nat.

(** What the router asks of a connection. *)
Inductive Call :=
| Systems                                        (* conn.systems() *)
| Query (query_func_name : string) (flags : Z)   (* getattr(conn, name)(flags=flags) *)
| Method (func_name : string) (args : list PyVal) (kwargs : list (string * PyVal))
| PluginUnregister                               (* conn.plugin_unregister() *)
| TimeOutSet (ms flags : Z).                     (* conn.time_out_set(ms, flags) *)

Definition ret_type (k : Call) : Type :=
  match k with
  | Systems => list System
  | Query _ _ => list LsmObj
  | Method _ _ _ => PyVal
  | PluginUnregister => unit
  | TimeOutSet _ _ => unit
  end.

(** Every interaction with the outside of the router, in the order made. *)
Inductive Event :=
| EvOpen (plugin_uri : string) (timeout flags : Z)   (* Client(uri, None, timeout, flags) *)
| EvCall (c : conn) (k : Call).

(** ** The outside world

    Everything [local.py] imports or probes.  Backends are stateful: what
    they answer may depend on the whole history of interactions so far.
    They keep the contract of [lsm.Client]: [systems()] returns a list of
    systems and a collection query a list of entries, or they raise. *)
Record Host := {
  geteuid : Z;                                   (* os.geteuid() *)
  listdir_sys_module : list string;              (* os.listdir("/sys/module/") *)
  find_arcconf : bool;                           (* truth of Arcconf.find_arcconf() *)
  find_sacli : bool;                             (* truth of SmartArray.find_sacli() *)
  (* uri_parse(uri).get("parameters", {}), or the exception of uri_parse *)
  uri_parse : string -> result (list (string * string));
  (* the order in which this process iterates over a set: Python leaves it
     unspecified, any enumeration without repetition is possible *)
  set_iter : gset string -> list string;
  set_iter_perm : forall X : gset string, set_iter X ≡ₚ elements X;
  VERSION : string;                              (* lsm.VERSION *)
  (* Client(plugin_uri, None, timeout, flags): None when the open succeeds *)
  client_open : list Event -> string -> Z -> Z -> option exn;
  backend : list Event -> conn -> forall k : Call, result (ret_type k)
}.

(** ** The router object and the monad of its methods *)

Record LocalPlugin := mkLocalPlugin {
  _tmo_ms : Z;
  conns : list conn;
  syss : list System;
  sys_con_map : gmap string conn;
  unregistered : bool;
  nfs_conn : option conn
}.

(** [LocalPlugin.__init__] *)
Definition __init__ : LocalPlugin :=
  {| _tmo_ms := 3000%Z; conns := []; syss := []; sys_con_map := ∅;
     unregistered := false; nfs_conn := None |}.

(** The router object together with the history of backend interactions. *)
Definition State : Type := LocalPlugin * list Event.

(** A method body: it returns or raises, and the mutations made before a
    raise stay. *)
Definition M (A : Type) : Type := State -> result A * State.

#[global] Instance M_ret : MRet M := fun A a s => (Ok a, s).
#[global] Instance M_bind : MBind M := fun A B f m s =>
  match m s with
  | (Ok a, s') => f a s'
  | (Raise e, s') => (Raise e, s')
  end.

Definition raise {A} (e : exn) : M A := fun s => (Raise e, s).

Definition lift {A} (r : result A) : M A := fun s => (r, s).

Definition get_self : M LocalPlugin := fun s => (Ok (fst s), s).

Definition modify_self (f : LocalPlugin -> LocalPlugin) : M unit :=
  fun s => (Ok tt, (f (fst s), snd s)).

(** [try: body / except LsmError as lsm_err: handler]; any other exception
    passes through. *)
Definition try_except_LsmError {A} (body : M A) (handler : exn -> M A) : M A :=
  fun s =>
    match body s with
    | (Raise (LsmError code msg), s') => handler (LsmError code msg) s'
    | r => r
    end.

Fixpoint for_each {A} (l : list A) (body : A -> M unit) : M unit :=
  match l with
  | [] => mret tt
  | x :: l' => body x;; for_each l' body
  end.

Definition set__tmo_ms (ms : Z) (p : LocalPlugin) : LocalPlugin :=
  {| _tmo_ms := ms; conns := conns p; syss := syss p;
     sys_con_map := sys_con_map p; unregistered := unregistered p;
     nfs_conn := nfs_conn p |}.

Definition conns_append (c : conn) (p : LocalPlugin) : LocalPlugin :=
  {| _tmo_ms := _tmo_ms p; conns := conns p ++ [c]; syss := syss p;
     sys_con_map := sys_con_map p; unregistered := unregistered p;
     nfs_conn := nfs_conn p |}.

Definition set_nfs_conn (c : conn) (p : LocalPlugin) : LocalPlugin :=
  {| _tmo_ms := _tmo_ms p; conns := conns p; syss := syss p;
     sys_con_map := sys_con_map p; unregistered := unregistered p;
     nfs_conn := Some c |}.

(** [self.sys_con_map[sys.id] = conn; self.syss.append(sys)] *)
Definition record_system (c : conn) (p : LocalPlugin) (sys : System) : LocalPlugin :=
  {| _tmo_ms := _tmo_ms p; conns := conns p; syss := syss p ++ [sys];
     sys_con_map := <[sys_id sys := c]> (sys_con_map p);
     unregistered := unregistered p; nfs_conn := nfs_conn p |}.

Definition set_unregistered (b : bool) (p : LocalPlugin) : LocalPlugin :=
  {| _tmo_ms := _tmo_ms p; conns := conns p; syss := syss p;
     sys_con_map := sys_con_map p; unregistered := b;
     nfs_conn := nfs_conn p |}.

(** ** [search_property] *)

Fixpoint assoc (key : string) (d : list (string * string)) : option string :=
  match d with
  | [] => None
  | (k, v) :: d' => if bool_decide (k = key) then Some v else assoc key d'
  end.

Definition default_of {A} (o : option A) (d : A) : A :=
  match o with Some a => a | None => d end.

Definition obj_getattr (o : LsmObj) (name : string) : option string :=
  if bool_decide (name = "id") then Some (obj_id o)
  else if bool_decide (name = "system_id") then Some (obj_system_id o)
  else assoc name (obj_attrs o).

(** Modelled from the spec: [lsm.search_property] is imported, not defined
    in this file.  It keeps only the entries whose attribute named by the
    search key equals the search value, and is a no-op when the key is
    unset. *)
Definition search_property (lsm_objs : list LsmObj)
    (search_key search_value : option string) : list LsmObj :=
  match search_key with
  | None => lsm_objs
  | Some key =>
      filter (fun o => is_Some search_value /\ obj_getattr o key = search_value) lsm_objs
  end.

Section Router.

Variable host : Host.

(** [Client(plugin_uri, None, timeout, flags)]: the new connection's handle
    is the position of its open in the history, hence fresh. *)
Definition Client (plugin_uri : string) (timeout flags : Z) : M conn :=
  fun s =>
    let log := snd s in
    let s' := (fst s, log ++ [EvOpen plugin_uri timeout flags]) in
    match client_open host log plugin_uri timeout flags with
    | None => (Ok (length log), s')
    | Some e => (Raise e, s')
    end.

(** A method call on a connection. *)
Definition call (c : conn) (k : Call) : M (ret_type k) :=
  fun s => (backend host (snd s) c k, (fst s, snd s ++ [EvCall c k])).

(** ** [_handle_errors] *)

Definition _handle_errors {A} (method : M A) : M A :=
  fun s =>
    match method s with
    | (Raise (Exception common_error), s') =>
        (Raise (LsmError PLUGIN_BUG ("Got unexpected error " +:+ common_error)), s')
    | r => r
    end.

(** ** [LocalPlugin._query] *)

(** One turn of the fan-out loop: the connection's entries are appended, a
    NO_SUPPORT error is swallowed, every other error is re-raised. *)
Definition _query_visit (query_func_name : string) (flags : Z)
    (lsm_objs : list LsmObj) (c : conn) : M (list LsmObj) :=
  try_except_LsmError
    (r ← call c (Query query_func_name flags); mret (lsm_objs ++ r))
    (fun lsm_err => if is_NO_SUPPORT lsm_err then mret lsm_objs else raise lsm_err).

Fixpoint _query_loop (query_func_name : string) (flags : Z)
    (cs : list conn) (lsm_objs : list LsmObj) : M (list LsmObj) :=
  match cs with
  | [] => mret lsm_objs
  | c :: cs' =>
      lsm_objs' ← _query_visit query_func_name flags lsm_objs c;
      _query_loop query_func_name flags cs' lsm_objs'
  end.

Definition _query (query_func_name : string)
    (search_key search_value : option string) (flags : Z) : M (list LsmObj) :=
  self ← get_self;
  if bool_decide (search_key = Some "system_id") then
    match search_value ≫= (fun v => sys_con_map self !! v) with
    | None => mret []
    | Some c => call c (Query query_func_name flags)
    end
  else
    lsm_objs ← _query_loop query_func_name flags (conns self) [];
    mret (search_property lsm_objs search_key search_value).

(** ** [LocalPlugin._exec] *)

Definition _exec (sys_id func_name : string)
    (parameters : list (string * PyVal)) : M PyVal :=
  self ← get_self;
  match sys_con_map self !! sys_id with
  | None => raise (LsmError NOT_FOUND_SYSTEM "System not found")
  | Some c => call c (Method func_name [] parameters)
  end.

(** ** [LocalPlugin.plugin_register] *)

Definition _KMOD_PLUGIN_MAP : list (string * string) :=
  [("megaraid_sas", "megaraid"); ("hpsa", "hpsa");
   ("aacraid", "arcconf"); ("nfsd", "nfs")].

(** [dict.get(key, default)] *)
Definition dict_get (d : list (string * string)) (key default : string) : string :=
  default_of (assoc key d) default.

(** Truth value of a Python string. *)
Definition py_bool (s : string) : bool := negb (String.eqb s "").

(** Lines 99-108: the parameters [<plugin>_<key>=<value>] of the URI, per
    plugin, with the prefix stripped. *)
Definition sub_uri_paras_add (key value : string)
    (sub_uri_paras : gmap string (list string)) (plugin_name : string)
    : gmap string (list string) :=
  let pre := plugin_name +:+ "_" in
  if String.prefix pre key then
    <[plugin_name :=
        (sub_uri_paras !!! plugin_name) ++
        [substring (String.length pre) (String.length key - String.length pre) key
           +:+ "=" +:+ value]]> sub_uri_paras
  else sub_uri_paras.

Definition build_sub_uri_paras (supported_plugins : gset string)
    (uri_vars : list (string * string)) : gmap string (list string) :=
  let names := set_iter host supported_plugins in
  let sub_uri_paras := foldl (fun m plugin_name => <[plugin_name := []]> m) ∅ names in
  foldl (fun m kv => foldl (sub_uri_paras_add (fst kv) (snd kv)) m names)
        sub_uri_paras uri_vars.

(** Lines 119-138: the plugins the loaded kernel modules ask for. *)
Definition probe_kmods (cur_kmods : list string) : list string :=
  foldl (fun requested_plugins kp =>
           if bool_decide (fst kp ∈ cur_kmods)
           then requested_plugins ++ [snd kp] else requested_plugins)
        [] _KMOD_PLUGIN_MAP.

Definition probe_plugins : list string :=
  let cur_kmods := listdir_sys_module host in
  let requested_plugins := probe_kmods cur_kmods in
  let requested_plugins :=
    if bool_decide ("smartpqi" ∈ cur_kmods) then
      if find_arcconf host then requested_plugins ++ ["arcconf"]
      else if find_sacli host then requested_plugins ++ ["hpsa"]
      else requested_plugins ++ ["arcconf"]
    else requested_plugins in
  set_iter host (list_to_set requested_plugins).

(** Lines 145-147; the lookup [sub_uri_paras[plugin_name]] raises KeyError on
    a missing key. *)
Definition plugin_uri_of (sub_uri_paras : gmap string (list string))
    (plugin_name : string) : result string :=
  match sub_uri_paras !! plugin_name with
  | None => Raise (Exception ("'" +:+ plugin_name +:+ "'"))
  | Some [] => Ok (plugin_name +:+ "://")
  | Some paras => Ok (plugin_name +:+ "://" +:+ "?" +:+ String.concat "&" paras)
  end.

(** Lines 145-158: one turn of the activation loop. *)
Definition activate (ignore_init_error : bool)
    (sub_uri_paras : gmap string (list string)) (timeout flags : Z)
    (plugin_name : string) : M unit :=
  plugin_uri ← lift (plugin_uri_of sub_uri_paras plugin_name);
  try_except_LsmError
    (c ← Client plugin_uri timeout flags;
     modify_self (conns_append c);;
     if bool_decide (plugin_name = "nfs") then modify_self (set_nfs_conn c)
     else mret tt)
    (fun lsm_err => if ignore_init_error then mret tt else raise lsm_err).

(** Lines 160-162: one turn of the loop that builds the routing table. *)
Definition discover_systems (c : conn) : M unit :=
  systems ← call c Systems;
  modify_self (fun self => foldl (record_system c) self systems).

(** Lines 144-158: the activation loop. *)
Definition open_connections (ignore_init_error : bool)
    (sub_uri_paras : gmap string (list string)) (timeout flags : Z)
    (requested_plugins : list string) : M unit :=
  for_each requested_plugins (activate ignore_init_error sub_uri_paras timeout flags).

(** Lines 159-165: the routing table and the list of systems. *)
Definition build_routing_table : M unit :=
  self ← get_self;
  for_each (conns self) discover_systems;;
  self ← get_self;
  if bool_decide (sys_con_map self = ∅) then
    raise (LsmError NO_SUPPORT "No supported systems found")
  else mret tt.

Definition plugin_register (uri : string) (password : option string)
    (timeout flags : Z) : M unit :=
  _handle_errors (
    modify_self (set__tmo_ms timeout);;
    let supported_plugins : gset string := list_to_set (snd <$> _KMOD_PLUGIN_MAP) in
    (if bool_decide (geteuid host ≠ 0%Z) then
       raise (LsmError INVALID_ARGUMENT
                "This plugin requires root privilege both daemon and client")
     else mret tt);;
    uri_vars ← lift (uri_parse host uri);
    let ignore_init_error := py_bool (dict_get uri_vars "ignore_init_error" "false") in
    let sub_uri_paras := build_sub_uri_paras supported_plugins uri_vars in
    let only_plugin := dict_get uri_vars "only" "" in
    (if py_bool only_plugin && negb (bool_decide (only_plugin ∈ supported_plugins)) then
       raise (LsmError INVALID_ARGUMENT
                ("Plugin defined in only=" +:+ only_plugin +:+ " is not supported"))
     else mret tt);;
    let requested_plugins :=
      if py_bool only_plugin then [only_plugin] else probe_plugins in
    (match requested_plugins with
     | [] => raise (LsmError NO_SUPPORT "No supported hardware found")
     | _ => mret tt
     end);;
    open_connections ignore_init_error sub_uri_paras timeout flags requested_plugins;;
    build_routing_table).

(** ** The other public methods, in source order *)

Definition plugin_unregister (flags : Z) : M unit :=
  _handle_errors (
    self ← get_self;
    for_each (conns self) (fun c => call c PluginUnregister);;
    modify_self (set_unregistered true)).

(** [__del__]: an exception raised inside a finalizer is reported by the
    interpreter and dropped. *)
Definition __del__ : M unit :=
  fun s =>
    if unregistered (fst s) then (Ok tt, s)
    else (Ok tt, snd (plugin_unregister 0 s)).

Definition job_status (job_id : string) (flags : Z) : M PyVal :=
  _handle_errors (raise (LsmError NO_SUPPORT "Not supported yet")).

Definition job_free (job_id : string) (flags : Z) : M PyVal :=
  _handle_errors (raise (LsmError NO_SUPPORT "Not supported yet")).

Definition plugin_info (flags : Z) : M (string * string) :=
  _handle_errors (mret ("Local Pseudo Plugin", VERSION host)).

Definition time_out_set (ms flags : Z) : M unit :=
  _handle_errors (
    modify_self (set__tmo_ms ms);;
    self ← get_self;
    for_each (conns self) (fun c => call c (TimeOutSet ms flags))).

Definition time_out_get (flags : Z) : M Z :=
  _handle_errors (self ← get_self; mret (_tmo_ms self)).

Definition capabilities (system : System) (flags : Z) : M PyVal :=
  _handle_errors (
    _exec (sys_id system) "capabilities"
      [("system", PSystem system); ("flags", PInt flags)]).

Definition systems (flags : Z) : M (list System) :=
  _handle_errors (self ← get_self; mret (syss self)).

Definition disks (search_key search_value : option string) (flags : Z) :=
  _handle_errors (_query "disks" search_key search_value flags).

Definition pools (search_key search_value : option string) (flags : Z) :=
  _handle_errors (_query "pools" search_key search_value flags).

Definition volumes (search_key search_value : option string) (flags : Z) :=
  _handle_errors (_query "volumes" search_key search_value flags).

Definition batteries (search_key search_value : option string) (flags : Z) :=
  _handle_errors (_query "batteries" search_key search_value flags).

Definition volume_raid_info (volume : LsmObj) (flags : Z) : M PyVal :=
  _handle_errors (
    _exec (obj_system_id volume) "volume_raid_info"
      [("volume", PObj volume); ("flags", PInt flags)]).

Definition pool_member_info (pool : LsmObj) (flags : Z) : M PyVal :=
  _handle_errors (
    _exec (obj_system_id pool) "pool_member_info"
      [("pool", PObj pool); ("flags", PInt flags)]).

Definition volume_raid_create_cap_get (system : System) (flags : Z) : M PyVal :=
  _handle_errors (
    _exec (sys_id system) "volume_raid_create_cap_get"
      [("system", PSystem system); ("flags", PInt flags)]).

Definition volume_raid_create (name : string) (raid_type : Z)
    (disks : list LsmObj) (strip_size flags : Z) : M PyVal :=
  _handle_errors (
    match disks with
    | [] => raise (LsmError INVALID_ARGUMENT "No disk defined")
    | disk0 :: _ =>
        _exec (obj_system_id disk0) "volume_raid_create"
          [("name", PStr name); ("raid_type", PInt raid_type);
           ("disks", PObjs disks); ("strip_size", PInt strip_size);
           ("flags", PInt flags)]
    end).

Definition volume_cache_info (volume : LsmObj) (flags : Z) : M PyVal :=
  _handle_errors (
    _exec (obj_system_id volume) "volume_cache_info"
      [("volume", PObj volume); ("flags", PInt flags)]).

Definition volume_physical_disk_cache_update (volume : LsmObj) (pdc flags : Z)
    : M PyVal :=
  _handle_errors (
    _exec (obj_system_id volume) "volume_physical_disk_cache_update"
      [("volume", PObj volume); ("pdc", PInt pdc); ("flags", PInt flags)]).

Definition volume_write_cache_policy_update (volume : LsmObj) (wcp flags : Z)
    : M PyVal :=
  _handle_errors (
    _exec (obj_system_id volume) "volume_write_cache_policy_update"
      [("volume", PObj volume); ("wcp", PInt wcp); ("flags", PInt flags)]).

Definition volume_read_cache_policy_update (volume : LsmObj) (rcp flags : Z)
    : M PyVal :=
  _handle_errors (
    _exec (obj_system_id volume) "volume_read_cache_policy_update"
      [("volume", PObj volume); ("rcp", PInt rcp); ("flags", PInt flags)]).

Definition volume_delete (volume : LsmObj) (flags : Z) : M PyVal :=
  _handle_errors (
    _exec (obj_system_id volume) "volume_delete"
      [("volume", PObj volume); ("flags", PInt flags)]).

Definition fs (search_key search_value : option string) (flags : Z) :=
  _handle_errors (_query "fs" search_key search_value flags).

(** The export operations go to the nfs connection, if there is one. *)
Definition nfs_forward (func_name : string) (args : list PyVal)
    (kwargs : list (string * PyVal)) (verb : string) : M PyVal :=
  self ← get_self;
  match nfs_conn self with
  | Some c => call c (Method func_name args kwargs)
  | None =>
      raise (LsmError NO_SUPPORT
               ("NFS plugin is not loaded, please " +:+ verb +:+
                " nfsd kernel module and related services"))
  end.

Definition exports (search_key search_value : option string) (flags : Z) : M PyVal :=
  _handle_errors (
    nfs_forward "exports" [PyOpt search_key; PyOpt search_value; PInt flags] []
      "start").

Definition export_fs (fs_id export_path : string)
    (root_list rw_list ro_list : list string) (anon_uid anon_gid : Z)
    (auth_type options : option string) (flags : Z) : M PyVal :=
  _handle_errors (
    nfs_forward "export_fs"
      [PStr fs_id; PStr export_path; PStrs root_list; PStrs rw_list;
       PStrs ro_list; PInt anon_uid; PInt anon_gid; PyOpt auth_type;
       PyOpt options; PInt flags] [] "load").

Definition export_remove (export : LsmObj) (flags : Z) : M PyVal :=
  _handle_errors (nfs_forward "export_remove" [PObj export; PInt flags] [] "load").

(** [export_auth] carries no [@_handle_errors] decorator in the source. *)
Definition export_auth (flags : Z) : M PyVal :=
  nfs_forward "export_auth" [] [("flags", PInt flags)] "load".

End Router.


(** * Vocabulary of the statements *)

(** What [_handle_errors] does to an exception on its way out. *)
Definition rewrap (e : exn) : exn :=
  match e with
  | LsmError code msg => LsmError code msg
  | Exception msg => LsmError PLUGIN_BUG ("Got unexpected error " +:+ msg)
  end.

Definition rewrap_result {A} (r : result A) : result A :=
  match r with Ok a => Ok a | Raise e => Raise (rewrap e) end.

(** The five collection queries. *)
Inductive CollectionKind := Disks | Pools | Volumes | Batteries | Fs.

Definition kind_name (kind : CollectionKind) : string :=
  match kind with
  | Disks => "disks" | Pools => "pools" | Volumes => "volumes"
  | Batteries => "batteries" | Fs => "fs"
  end.

Definition collection_query (host : Host) (kind : CollectionKind)
    : option string -> option string -> Z -> M (list LsmObj) :=
  match kind with
  | Disks => disks host | Pools => pools host | Volumes => volumes host
  | Batteries => batteries host | Fs => fs host
  end.

(** The system-scoped operations with their operands; the disk list of a
    RAID creation is given as its first disk and the rest. *)
Inductive ScopedOp :=
| Capabilities (system : System)
| VolumeRaidInfo (volume : LsmObj)
| PoolMemberInfo (pool : LsmObj)
| VolumeRaidCreateCapGet (system : System)
| VolumeRaidCreate (name : string) (raid_type : Z) (disk0 : LsmObj)
    (more_disks : list LsmObj) (strip_size : Z)
| VolumeCacheInfo (volume : LsmObj)
| VolumePhysicalDiskCacheUpdate (volume : LsmObj) (pdc : Z)
| VolumeWriteCachePolicyUpdate (volume : LsmObj) (wcp : Z)
| VolumeReadCachePolicyUpdate (volume : LsmObj) (rcp : Z)
| VolumeDelete (volume : LsmObj).

(** The system identifier embedded in the operand. *)
Definition operand_system_id (op : ScopedOp) : string :=
  match op with
  | Capabilities system | VolumeRaidCreateCapGet system => sys_id system
  | VolumeRaidCreate _ _ disk0 _ _ => obj_system_id disk0
  | VolumeRaidInfo o | PoolMemberInfo o | VolumeCacheInfo o
  | VolumePhysicalDiskCacheUpdate o _ | VolumeWriteCachePolicyUpdate o _
  | VolumeReadCachePolicyUpdate o _ | VolumeDelete o => obj_system_id o
  end.

Definition run_scoped (host : Host) (op : ScopedOp) (flags : Z) : M PyVal :=
  match op with
  | Capabilities system => capabilities host system flags
  | VolumeRaidInfo volume => volume_raid_info host volume flags
  | PoolMemberInfo pool => pool_member_info host pool flags
  | VolumeRaidCreateCapGet system => volume_raid_create_cap_get host system flags
  | VolumeRaidCreate name raid_type disk0 more_disks strip_size =>
      volume_raid_create host name raid_type (disk0 :: more_disks) strip_size flags
  | VolumeCacheInfo volume => volume_cache_info host volume flags
  | VolumePhysicalDiskCacheUpdate volume pdc =>
      volume_physical_disk_cache_update host volume pdc flags
  | VolumeWriteCachePolicyUpdate volume wcp =>
      volume_write_cache_policy_update host volume wcp flags
  | VolumeReadCachePolicyUpdate volume rcp =>
      volume_read_cache_policy_update host volume rcp flags
  | VolumeDelete volume => volume_delete host volume flags
  end.

(** The history when the [i]-th connection of [cs] is reached by a loop that
    makes the call [k] on each connection of [cs] in turn, from [log]. *)
Definition history_at (log : list Event) (k : Call) (cs : list conn) (i : nat)
    : list Event :=
  log ++ ((fun c => EvCall c k) <$> take i cs).

(** ** Scripted hosts for the concrete runs *)

(** A host whose backends answer by the plugin URI they were opened with. *)
Record Script := {
  sc_kmods : list string;
  sc_find_arcconf : bool;
  sc_find_sacli : bool;
  sc_uri_vars : list (string * string);
  sc_open : string -> option exn;
  sc_systems : string -> result (list System);
  sc_query : string -> string -> result (list LsmObj);
  sc_method : string -> string -> result PyVal;
  sc_unregister : string -> result unit;
  sc_time_out_set : string -> Z -> result unit
}.

Definition uri_of_conn (log : list Event) (c : conn) : string :=
  match log !! c with
  | Some (EvOpen plugin_uri _ _) => plugin_uri
  | _ => ""
  end.

Definition scripted_backend (sc : Script) (log : list Event) (c : conn)
    (k : Call) : result (ret_type k) :=
  match k as k0 return result (ret_type k0) with
  | Systems => sc_systems sc (uri_of_conn log c)
  | Query query_func_name _ => sc_query sc (uri_of_conn log c) query_func_name
  | Method func_name _ _ => sc_method sc (uri_of_conn log c) func_name
  | PluginUnregister => sc_unregister sc (uri_of_conn log c)
  | TimeOutSet ms _ => sc_time_out_set sc (uri_of_conn log c) ms
  end.

Definition scripted_host (sc : Script) : Host :=
  {| geteuid := 0;
     listdir_sys_module := sc_kmods sc;
     find_arcconf := sc_find_arcconf sc;
     find_sacli := sc_find_sacli sc;
     uri_parse := fun _ => Ok (sc_uri_vars sc);
     set_iter := elements;
     set_iter_perm := fun X => reflexivity (elements X);
     VERSION := "1.8.0";
     client_open := fun _ plugin_uri _ _ => sc_open sc plugin_uri;
     backend := scripted_backend sc |}.

(** A quiet script: no hardware, every open and every call succeeds and
    returns nothing. *)
Definition quiet : Script :=
  {| sc_kmods := []; sc_find_arcconf := false; sc_find_sacli := false;
     sc_uri_vars := [];
     sc_open := fun _ => None;
     sc_systems := fun _ => Ok [];
     sc_query := fun _ _ => Ok [];
     sc_method := fun _ _ => Ok PNone;
     sc_unregister := fun _ => Ok tt;
     sc_time_out_set := fun _ _ => Ok tt |}.

Definition sysA : System := {| sys_id := "hpsa-1"; sys_name := "Smart Array P440" |}.
Definition sysB : System := {| sys_id := "mega-0"; sys_name := "MegaRAID 9361" |}.

Definition volume_of (vol_id system_id : string) : LsmObj :=
  {| obj_id := vol_id; obj_system_id := system_id;
     obj_attrs := [("name", vol_id)] |}.

(** A router as registration leaves it with an hpsa connection (handle 0,
    system [sysA]) and a megaraid connection (handle 1, system [sysB]). *)
Definition two_conns_log : list Event :=
  [EvOpen "hpsa://" 3000 0; EvOpen "megaraid://" 3000 0;
   EvCall 0%nat Systems; EvCall 1%nat Systems].

Definition two_conns : LocalPlugin :=
  {| _tmo_ms := 3000; conns := [0; 1]%nat; syss := [sysA; sysB];
     sys_con_map := <["mega-0" := 1%nat]> (<["hpsa-1" := 0%nat]> ∅);
     unregistered := false; nfs_conn := None |}.

(** A router whose nfs connection (handle 0) fails inside [export_auth] with
    an exception that is not an [LsmError]. *)
Definition nfs_broken : Script :=
  {| sc_kmods := ["nfsd"]; sc_find_arcconf := false; sc_find_sacli := false;
     sc_uri_vars := [];
     sc_open := fun _ => None;
     sc_systems := fun _ => Ok [{| sys_id := "nfs-localhost"; sys_name := "NFS" |}];
     sc_query := fun _ _ => Ok [];
     sc_method := fun _ func_name =>
       if bool_decide (func_name = "export_auth")
       then Raise (Exception "[Errno 2] No such file or directory")
       else Ok PNone;
     sc_unregister := fun _ => Ok tt;
     sc_time_out_set := fun _ _ => Ok tt |}.

Definition nfs_router : State :=
  ({| _tmo_ms := 3000; conns := [0%nat];
      syss := [{| sys_id := "nfs-localhost"; sys_name := "NFS" |}];
      sys_con_map := <["nfs-localhost" := 0%nat]> ∅;
      unregistered := false; nfs_conn := Some 0%nat |},
   [EvOpen "nfs://" 3000 0; EvCall 0%nat Systems]).

(** An hpsa connection that manages two controllers and lists the volumes
    of both. *)
Definition two_controllers : Script :=
  {| sc_kmods := ["hpsa"]; sc_find_arcconf := false; sc_find_sacli := false;
     sc_uri_vars := [];
     sc_open := fun _ => None;
     sc_systems := fun _ =>
       Ok [sysA; {| sys_id := "hpsa-2"; sys_name := "Smart Array P840" |}];
     sc_query := fun _ _ => Ok [volume_of "v1" "hpsa-1"; volume_of "v2" "hpsa-2"];
     sc_method := fun _ _ => Ok PNone;
     sc_unregister := fun _ => Ok tt;
     sc_time_out_set := fun _ _ => Ok tt |}.

(** The megaraid backend refuses every new timeout. *)
Definition strict_timeout : Script :=
  {| sc_kmods := ["hpsa"; "megaraid_sas"];
     sc_find_arcconf := false; sc_find_sacli := false;
     sc_uri_vars := [];
     sc_open := fun _ => None;
     sc_systems := fun _ => Ok [];
     sc_query := fun _ _ => Ok [];
     sc_method := fun _ _ => Ok PNone;
     sc_unregister := fun _ => Ok tt;
     sc_time_out_set := fun plugin_uri _ =>
       if bool_decide (plugin_uri = "megaraid://")
       then Raise (LsmError INVALID_ARGUMENT "Invalid timeout")
       else Ok tt |}.

(** What a connection's answer adds to a fan-out query, and whether the
    fan-out goes on after it. *)
Definition contribution (r : result (list LsmObj)) : list LsmObj :=
  match r with Ok l => l | Raise _ => [] end.

Definition tolerated (r : result (list LsmObj)) : bool :=
  match r with Ok _ => true | Raise e => is_NO_SUPPORT e end.

(** The entries the connections [cs] contribute to a fan-out query, in
    order, each answer taken at the history in which its call is made. *)
Definition contributions (host : Host) (query_func_name : string) (flags : Z)
    (log : list Event) (cs : list conn) : list LsmObj :=
  concat (imap (fun i c =>
                  contribution
                    (backend host
                       (history_at log (Query query_func_name flags) cs i) c
                       (Query query_func_name flags))) cs).

(** The hpsa backend fails on disks and has no battery support; the
    megaraid backend answers every query. *)
Definition mixed : Script :=
  {| sc_kmods := ["hpsa"; "megaraid_sas"];
     sc_find_arcconf := false; sc_find_sacli := false;
     sc_uri_vars := [];
     sc_open := fun _ => None;
     sc_systems := fun plugin_uri =>
       if bool_decide (plugin_uri = "hpsa://") then Ok [sysA] else Ok [sysB];
     sc_query := fun plugin_uri query_func_name =>
       if bool_decide (plugin_uri = "hpsa://") then
         if bool_decide (query_func_name = "batteries")
         then Raise (LsmError NO_SUPPORT "Not supported")
         else if bool_decide (query_func_name = "disks")
         then Raise (LsmError (OTHER_ERROR 11) "hpssacli timed out")
         else Ok [volume_of (query_func_name +:+ "-h") "hpsa-1"]
       else Ok [volume_of (query_func_name +:+ "-m") "mega-0"];
     sc_method := fun _ _ => Ok PNone;
     sc_unregister := fun _ => Ok tt;
     sc_time_out_set := fun _ _ => Ok tt |}.

(** ** Backend selection *)

(** The plugins selected by probing are those the kernel module table asks
    for, and [plugin_name]. *)
Definition arbitration_selects (host : Host) (plugin_name : string) : Prop :=
  forall name : string,
    name ∈ probe_plugins host <->
    name ∈ probe_kmods (listdir_sys_module host) \/ name = plugin_name.

Definition smartpqi_only (arcconf sacli : bool) : Script :=
  {| sc_kmods := ["smartpqi"];
     sc_find_arcconf := arcconf; sc_find_sacli := sacli;
     sc_uri_vars := [];
     sc_open := fun _ => None;
     sc_systems := fun _ => Ok [];
     sc_query := fun _ _ => Ok [];
     sc_method := fun _ _ => Ok PNone;
     sc_unregister := fun _ => Ok tt;
     sc_time_out_set := fun _ _ => Ok tt |}.

(** ** Registration *)

Definition supported_plugins : gset string :=
  list_to_set (snd <$> _KMOD_PLUGIN_MAP).

(** What [plugin_register] reads off the URI parameters. *)
Definition only_of (uri_vars : list (string * string)) : string :=
  dict_get uri_vars "only" "".

Definition ignore_init_error_of (uri_vars : list (string * string)) : bool :=
  py_bool (dict_get uri_vars "ignore_init_error" "false").

Definition requested_of (host : Host) (uri_vars : list (string * string))
    : list string :=
  if py_bool (only_of uri_vars) then [only_of uri_vars] else probe_plugins host.

(** The checks of [plugin_register] that come before the first open. *)
Definition reaches_activation (host : Host) (uri : string)
    (uri_vars : list (string * string)) : Prop :=
  geteuid host = 0%Z /\
  uri_parse host uri = Ok uri_vars /\
  (only_of uri_vars = "" \/ only_of uri_vars ∈ supported_plugins) /\
  requested_of host uri_vars ≠ [].

Definition plugin_uri_or_empty (sub_uri_paras : gmap string (list string))
    (plugin_name : string) : string :=
  match plugin_uri_of sub_uri_paras plugin_name with
  | Ok plugin_uri => plugin_uri
  | Raise _ => ""
  end.

(** The connection targets of a registration, in activation order. *)
Definition uris_of (host : Host) (uri_vars : list (string * string))
    : list string :=
  plugin_uri_or_empty (build_sub_uri_paras host supported_plugins uri_vars)
    <$> requested_of host uri_vars.

(** The history when the [i]-th target of [uris] is about to be opened. *)
Definition open_history (log : list Event) (timeout flags : Z)
    (uris : list string) (i : nat) : list Event :=
  log ++ ((fun plugin_uri => EvOpen plugin_uri timeout flags) <$> take i uris).

(** The router object after a successful open for [plugin_name]. *)
Definition opened (plugin_name : string) (c : conn) (p : LocalPlugin)
    : LocalPlugin :=
  if bool_decide (plugin_name = "nfs") then set_nfs_conn c (conns_append c p)
  else conns_append c p.

(** [p'] is [p] with the connections [cs] added (and possibly the nfs
    connection designated). *)
Definition kept (p p' : LocalPlugin) (cs : list conn) : Prop :=
  conns p' = conns p ++ cs /\ syss p' = syss p /\
  sys_con_map p' = sys_con_map p /\ _tmo_ms p' = _tmo_ms p /\
  unregistered p' = unregistered p.

(** The systems the [i]-th connection of [cs] reports when the connections
    are asked in order from the history [log]. *)
Definition systems_answer (host : Host) (log : list Event) (cs : list conn)
    (i : nat) (c : conn) : list System :=
  match backend host (history_at log Systems cs i) c Systems with
  | Ok l => l
  | Raise _ => []
  end.

Definition reported (host : Host) (log : list Event) (cs : list conn)
    : list (list System) :=
  imap (systems_answer host log cs) cs.

(** Every reported system with the connection that reported it, in the
    order of the reports. *)
Definition bindings (host : Host) (log : list Event) (cs : list conn)
    : list (conn * System) :=
  concat (imap (fun i c => pair c <$> systems_answer host log cs i c) cs).

Definition record_systems (p : LocalPlugin) (b : list (conn * System))
    : LocalPlugin :=
  foldl (fun p cs => record_system (fst cs) p (snd cs)) p b.

(** The owner of a system identifier under last-write-wins. *)
Definition last_owner (b : list (conn * System)) (sid : string) : option conn :=
  fst <$> last (filter (fun cs => sys_id (snd cs) = sid) b).

(** The union of the reported systems as C4 words it: on an identifier
    reported more than once, only the last report stays. *)
Fixpoint last_write_wins (l : list System) : list System :=
  match l with
  | [] => []
  | s :: l' =>
      if bool_decide (sys_id s ∈ sys_id <$> l') then last_write_wins l'
      else s :: last_write_wins l'
  end.

(** Two backends that report a controller under the same identifier. *)
Definition clash : Script :=
  {| sc_kmods := ["hpsa"; "megaraid_sas"];
     sc_find_arcconf := false; sc_find_sacli := false;
     sc_uri_vars := [];
     sc_open := fun _ => None;
     sc_systems := fun plugin_uri =>
       if bool_decide (plugin_uri = "hpsa://")
       then Ok [{| sys_id := "ctrl-0"; sys_name := "Smart Array P440" |}]
       else Ok [{| sys_id := "ctrl-0"; sys_name := "MegaRAID 9361" |}];
     sc_query := fun _ _ => Ok [];
     sc_method := fun _ _ => Ok PNone;
     sc_unregister := fun _ => Ok tt;
     sc_time_out_set := fun _ _ => Ok tt |}.

(** Both kernel modules are loaded, the hpsa tool is missing so that the
    hpsa open fails; the megaraid backend opens and reports [mega_systems]. *)
Definition hpsa_fails (uri_vars : list (string * string))
    (mega_systems : list System) : Script :=
  {| sc_kmods := ["hpsa"; "megaraid_sas"];
     sc_find_arcconf := false; sc_find_sacli := false;
     sc_uri_vars := uri_vars;
     sc_open := fun plugin_uri =>
       if bool_decide (plugin_uri = "hpsa://")
       then Some (LsmError INVALID_ARGUMENT "hpssacli is not installed correctly")
       else None;
     sc_systems := fun _ => Ok mega_systems;
     sc_query := fun _ _ => Ok [];
     sc_method := fun _ _ => Ok PNone;
     sc_unregister := fun _ => Ok tt;
     sc_time_out_set := fun _ _ => Ok tt |}.

(** ** Every public method *)

(** A call of a public method of [LocalPlugin], with its arguments. *)
Inductive PublicOp :=
| OpPluginRegister (uri : string) (password : option string) (timeout flags : Z)
| OpPluginUnregister (flags : Z)
| OpJobStatus (job_id : string) (flags : Z)
| OpJobFree (job_id : string) (flags : Z)
| OpPluginInfo (flags : Z)
| OpTimeOutSet (ms flags : Z)
| OpTimeOutGet (flags : Z)
| OpSystems (flags : Z)
| OpCollection (kind : CollectionKind) (search_key search_value : option string)
    (flags : Z)
| OpScoped (op : ScopedOp) (flags : Z)
| OpVolumeRaidCreate (name : string) (raid_type : Z) (disks : list LsmObj)
    (strip_size flags : Z)
| OpExports (search_key search_value : option string) (flags : Z)
| OpExportFs (fs_id export_path : string) (root_list rw_list ro_list : list string)
    (anon_uid anon_gid : Z) (auth_type options : option string) (flags : Z)
| OpExportRemove (export : LsmObj) (flags : Z)
| OpExportAuth (flags : Z).

(** What a caller sees of a run when the returned value is left aside: the
    exception raised, if any, and the state left behind. *)
Definition outcome {A} (m : M A) (s : State) : option exn * State :=
  (match fst (m s) with Ok _ => None | Raise e => Some e end, snd (m s)).

Definition run_public (host : Host) (op : PublicOp) : State -> option exn * State :=
  match op with
  | OpPluginRegister uri password timeout flags =>
      outcome (plugin_register host uri password timeout flags)
  | OpPluginUnregister flags => outcome (plugin_unregister host flags)
  | OpJobStatus job_id flags => outcome (job_status job_id flags)
  | OpJobFree job_id flags => outcome (job_free job_id flags)
  | OpPluginInfo flags => outcome (plugin_info host flags)
  | OpTimeOutSet ms flags => outcome (time_out_set host ms flags)
  | OpTimeOutGet flags => outcome (time_out_get flags)
  | OpSystems flags => outcome (systems flags)
  | OpCollection kind search_key search_value flags =>
      outcome (collection_query host kind search_key search_value flags)
  | OpScoped op flags => outcome (run_scoped host op flags)
  | OpVolumeRaidCreate name raid_type disks strip_size flags =>
      outcome (volume_raid_create host name raid_type disks strip_size flags)
  | OpExports search_key search_value flags =>
      outcome (exports host search_key search_value flags)
  | OpExportFs fs_id export_path root_list rw_list ro_list anon_uid anon_gid
      auth_type options flags =>
      outcome (export_fs host fs_id export_path root_list rw_list ro_list
                 anon_uid anon_gid auth_type options flags)
  | OpExportRemove export flags => outcome (export_remove host export flags)
  | OpExportAuth flags => outcome (export_auth host flags)
  end.

(** The methods that carry the [@_handle_errors] decorator: all but
    [export_auth]. *)
Definition decorated (op : PublicOp) : bool :=
  match op with OpExportAuth _ => false | _ => true end.

(** The references the router object holds point into its connection set,
    and the routing table knows exactly the identifiers of the systems
    listed. *)
Definition routed (p : LocalPlugin) : Prop :=
  (forall sid c, sys_con_map p !! sid = Some c -> c ∈ conns p) /\
  (forall c, nfs_conn p = Some c -> c ∈ conns p) /\
  (forall sid, is_Some (sys_con_map p !! sid) <-> sid ∈ sys_id <$> syss p).

(** The backend method a system-scoped method forwards to. *)
Definition scoped_name (op : ScopedOp) : string :=
  match op with
  | Capabilities _ => "capabilities"
  | VolumeRaidInfo _ => "volume_raid_info"
  | PoolMemberInfo _ => "pool_member_info"
  | VolumeRaidCreateCapGet _ => "volume_raid_create_cap_get"
  | VolumeRaidCreate _ _ _ _ _ => "volume_raid_create"
  | VolumeCacheInfo _ => "volume_cache_info"
  | VolumePhysicalDiskCacheUpdate _ _ => "volume_physical_disk_cache_update"
  | VolumeWriteCachePolicyUpdate _ _ => "volume_write_cache_policy_update"
  | VolumeReadCachePolicyUpdate _ _ => "volume_read_cache_policy_update"
  | VolumeDelete _ => "volume_delete"
  end.

(** The operand as the backend receives it. *)
Definition scoped_operand (op : ScopedOp) : string * PyVal :=
  match op with
  | Capabilities system | VolumeRaidCreateCapGet system => ("system", PSystem system)
  | VolumeRaidCreate _ _ disk0 more_disks _ => ("disks", PObjs (disk0 :: more_disks))
  | PoolMemberInfo pool => ("pool", PObj pool)
  | VolumeRaidInfo o | VolumeCacheInfo o
  | VolumePhysicalDiskCacheUpdate o _ | VolumeWriteCachePolicyUpdate o _
  | VolumeReadCachePolicyUpdate o _ | VolumeDelete o => ("volume", PObj o)
  end.

(** The four export methods. *)
Inductive ExportOp :=
| Exports (search_key search_value : option string)
| ExportFs (fs_id export_path : string) (root_list rw_list ro_list : list string)
    (anon_uid anon_gid : Z) (auth_type options : option string)
| ExportRemove (export : LsmObj)
| ExportAuth.

Definition run_export (host : Host) (op : ExportOp) (flags : Z) : M PyVal :=
  match op with
  | Exports search_key search_value => exports host search_key search_value flags
  | ExportFs fs_id export_path root_list rw_list ro_list anon_uid anon_gid
      auth_type options =>
      export_fs host fs_id export_path root_list rw_list ro_list anon_uid
        anon_gid auth_type options flags
  | ExportRemove export => export_remove host export flags
  | ExportAuth => export_auth host flags
  end.

Definition export_name (op : ExportOp) : string :=
  match op with
  | Exports _ _ => "exports"
  | ExportFs _ _ _ _ _ _ _ _ _ => "export_fs"
  | ExportRemove _ => "export_remove"
  | ExportAuth => "export_auth"
  end.

(** ** Sub-parameters of the URI *)

(** What the URI parameter [kv] contributes to the connection target of
    [plugin_name]: its key without the prefix [<plugin_name>_], and its
    value. *)
Definition sub_para (plugin_name : string) (kv : string * string) : option string :=
  let pre := plugin_name +:+ "_" in
  if String.prefix pre (fst kv) then
    Some (substring (String.length pre)
            (String.length (fst kv) - String.length pre) (fst kv)
          +:+ "=" +:+ snd kv)
  else None.

(** The kernel modules [plugin_register] looks for. *)
Definition known_kmods : list string :=
  "smartpqi" :: (fst <$> _KMOD_PLUGIN_MAP).

(** ** More scripted hosts *)

(** A host like [scripted_host] that runs without root privilege. *)
Definition unprivileged (h : Host) : Host :=
  {| geteuid := 1000;
     listdir_sys_module := listdir_sys_module h;
     find_arcconf := find_arcconf h;
     find_sacli := find_sacli h;
     uri_parse := uri_parse h;
     set_iter := set_iter h;
     set_iter_perm := set_iter_perm h;
     VERSION := VERSION h;
     client_open := client_open h;
     backend := backend h |}.

Definition with_uri_vars (uri_vars : list (string * string)) (sc : Script) : Script :=
  {| sc_kmods := sc_kmods sc; sc_find_arcconf := sc_find_arcconf sc;
     sc_find_sacli := sc_find_sacli sc; sc_uri_vars := uri_vars;
     sc_open := sc_open sc; sc_systems := sc_systems sc;
     sc_query := sc_query sc; sc_method := sc_method sc;
     sc_unregister := sc_unregister sc;
     sc_time_out_set := sc_time_out_set sc |}.

(** The URI [local://?hpsa_sacli=/opt/sacli&only=hpsa&megaraid_x=1&hpsa_b=2]. *)
Definition hpsa_tuned : list (string * string) :=
  [("hpsa_sacli", "/opt/sacli"); ("only", "hpsa"); ("megaraid_x", "1");
   ("hpsa_b", "2")].

Definition is_register (op : PublicOp) : bool :=
  match op with OpPluginRegister _ _ _ _ => true | _ => false end.

(** The connection targets [plugin_register] works through for [uri]:
    none when the URI does not parse. *)
Definition targets (host : Host) (uri : string) : list string :=
  match uri_parse host uri with
  | Ok uri_vars => uris_of host uri_vars
  | Raise _ => []
  end.

(** The nfs reference after activation: as before, or one of the new
    connections. *)
Definition nfs_kept (p p' : LocalPlugin) (cs : list conn) : Prop :=
  nfs_conn p' = nfs_conn p \/ exists c, c ∈ cs /\ nfs_conn p' = Some c.


(** A sequence of public method calls, one after the other; an exception
    ends a call, not the sequence. *)
Definition run_ops (host : Host) (ops : list PublicOp) (s : State) : State :=
  foldl (fun s op => snd (run_public host op s)) s ops.

(** Backends whose queries crash with an exception that is not a domain
    error. *)
Definition crashing : Script :=
  {| sc_kmods := ["hpsa"; "megaraid_sas"];
     sc_find_arcconf := false; sc_find_sacli := false;
     sc_uri_vars := [];
     sc_open := fun _ => None;
     sc_systems := fun _ => Ok [];
     sc_query := fun _ _ => Raise (Exception "list index out of range");
     sc_method := fun _ _ => Raise (Exception "list index out of range");
     sc_unregister := fun _ => Raise (LsmError (OTHER_ERROR 12) "Daemon not running");
     sc_time_out_set := fun _ _ => Ok tt |}.

(** The megaraid backend has no support for batteries; its volumes are
    listed. *)
Definition mega_only : LocalPlugin :=
  {| _tmo_ms := 3000; conns := [0%nat]; syss := [sysB];
     sys_con_map := <["mega-0" := 0%nat]> ∅;
     unregistered := false; nfs_conn := None |}.

Definition mega_no_batteries : Script :=
  {| sc_kmods := ["megaraid_sas"];
     sc_find_arcconf := false; sc_find_sacli := false;
     sc_uri_vars := [];
     sc_open := fun _ => None;
     sc_systems := fun _ => Ok [sysB];
     sc_query := fun _ query_func_name =>
       if bool_decide (query_func_name = "batteries")
       then Raise (LsmError NO_SUPPORT "Not supported")
       else Ok [volume_of "v1" "mega-0"];
     sc_method := fun _ _ => Ok PNone;
     sc_unregister := fun _ => Ok tt;
     sc_time_out_set := fun _ _ => Ok tt |}.

(** The hpsa tool crashes when the connection is opened. *)
Definition hpsa_crashes (uri_vars : list (string * string)) : Script :=
  {| sc_kmods := ["hpsa"; "megaraid_sas"];
     sc_find_arcconf := false; sc_find_sacli := false;
     sc_uri_vars := uri_vars;
     sc_open := fun plugin_uri =>
       if bool_decide (plugin_uri = "hpsa://")
       then Some (Exception "[Errno 13] Permission denied")
       else None;
     sc_systems := fun _ => Ok [sysB];
     sc_query := fun _ _ => Ok [];
     sc_method := fun _ _ => Ok PNone;
     sc_unregister := fun _ => Ok tt;
     sc_time_out_set := fun _ _ => Ok tt |}.

(** * Theorems *)

(** ** Running the monad *)

Lemma run_bind {A B} (m : M A) (f : A -> M B) (s : State) :
  (m ≫= f) s =
  match m s with
  | (Ok a, s') => f a s'
  | (Raise e, s') => (Raise e, s')
  end.
Proof. reflexivity. Qed.

Lemma run_handle_errors {A} (m : M A) (s : State) :
  _handle_errors m s = (rewrap_result (fst (m s)), snd (m s)).
Proof.
  unfold _handle_errors. destruct (m s) as [[a|[code msg|msg]] s']; reflexivity.
Qed.

Lemma rewrap_is_LsmError (e : exn) : is_LsmError (rewrap e) = true.
Proof. destruct e; reflexivity. Qed.

Lemma rewrap_LsmError (e : exn) : is_LsmError e = true -> rewrap e = e.
Proof. destruct e; [reflexivity | discriminate]. Qed.

(** ** System-scoped operations: [_exec] *)

Lemma _exec_spec (host : Host) (sid func_name : string)
    (parameters : list (string * PyVal)) (p : LocalPlugin) (log : list Event) :
  _exec host sid func_name parameters (p, log) =
  match sys_con_map p !! sid with
  | None => (Raise (LsmError NOT_FOUND_SYSTEM "System not found"), (p, log))
  | Some c =>
      (backend host log c (Method func_name [] parameters),
       (p, log ++ [EvCall c (Method func_name [] parameters)]))
  end.
Proof.
  unfold _exec. rewrite run_bind. cbn.
  destruct (sys_con_map p !! sid); reflexivity.
Qed.

(** C7. A system-scoped operation whose operand names a system that is not
    in the routing table fails with NOT_FOUND_SYSTEM, and the history of
    backend interactions is unchanged: no connection is called. *)
Theorem exec_unknown_system (host : Host) (op : ScopedOp) (flags : Z)
    (p : LocalPlugin) (log : list Event) :
  sys_con_map p !! operand_system_id op = None ->
  run_scoped host op flags (p, log) =
  (Raise (LsmError NOT_FOUND_SYSTEM "System not found"), (p, log)).
Proof.
  intros Hmiss.
  destruct op; cbn [run_scoped operand_system_id] in *;
    unfold capabilities, volume_raid_info, pool_member_info,
      volume_raid_create_cap_get, volume_raid_create, volume_cache_info,
      volume_physical_disk_cache_update, volume_write_cache_policy_update,
      volume_read_cache_policy_update, volume_delete;
    rewrite run_handle_errors, _exec_spec, Hmiss; reflexivity.
Qed.

Lemma exec_unknown_system_witness :
  sys_con_map two_conns !! operand_system_id (VolumeDelete (volume_of "v9" "gone")) = None /\
  run_scoped (scripted_host quiet) (VolumeDelete (volume_of "v9" "gone")) 0
    (two_conns, two_conns_log) =
  (Raise (LsmError NOT_FOUND_SYSTEM "System not found"), (two_conns, two_conns_log)).
Proof.
  split; [reflexivity | apply exec_unknown_system; reflexivity].
Defined.

(** ** Collection queries filtered by system identifier *)

Lemma _query_system_id (host : Host) (query_func_name : string)
    (search_value : option string) (flags : Z) (p : LocalPlugin)
    (log : list Event) :
  _query host query_func_name (Some "system_id") search_value flags (p, log) =
  match search_value ≫= (fun v => sys_con_map p !! v) with
  | None => (Ok [], (p, log))
  | Some c =>
      (backend host log c (Query query_func_name flags),
       (p, log ++ [EvCall c (Query query_func_name flags)]))
  end.
Proof.
  unfold _query. rewrite run_bind. cbn.
  destruct (search_value ≫= _); reflexivity.
Qed.

Lemma collection_query_unfold (host : Host) (kind : CollectionKind)
    (search_key search_value : option string) (flags : Z) :
  collection_query host kind search_key search_value flags =
  _handle_errors (_query host (kind_name kind) search_key search_value flags).
Proof. destruct kind; reflexivity. Qed.

(** C5. A collection query whose search key is "system_id": when the search
    value is not in the routing table the result is the empty list and the
    history is unchanged (no connection is queried); when it is, the history
    grows by exactly one call, the query on the owning connection, whose
    answer is the result (a non-domain exception rewrapped at the boundary). *)
Theorem query_by_system_id (host : Host) (kind : CollectionKind)
    (search_value : option string) (flags : Z) (p : LocalPlugin)
    (log : list Event) :
  collection_query host kind (Some "system_id") search_value flags (p, log) =
  match search_value ≫= (fun v => sys_con_map p !! v) with
  | None => (Ok [], (p, log))
  | Some c =>
      (rewrap_result (backend host log c (Query (kind_name kind) flags)),
       (p, log ++ [EvCall c (Query (kind_name kind) flags)]))
  end.
Proof.
  rewrite collection_query_unfold, run_handle_errors, _query_system_id.
  destruct (search_value ≫= _); reflexivity.
Qed.

Lemma query_by_system_id_witness :
  collection_query (scripted_host mixed) Volumes (Some "system_id")
    (Some "no-such-system") 0 (two_conns, two_conns_log) =
    (Ok [], (two_conns, two_conns_log)) /\
  collection_query (scripted_host mixed) Volumes (Some "system_id")
    (Some "mega-0") 0 (two_conns, two_conns_log) =
    (Ok [volume_of "volumes-m" "mega-0"],
     (two_conns, two_conns_log ++ [EvCall 1%nat (Query "volumes" 0)])).
Proof.
  split.
  - exact (query_by_system_id (scripted_host mixed) Volumes
             (Some "no-such-system") 0 two_conns two_conns_log).
  - exact (query_by_system_id (scripted_host mixed) Volumes
             (Some "mega-0") 0 two_conns two_conns_log).
Defined.

(** C9. With search key "system_id" and a search value the routing table
    knows, the result is everything the owning connection returns: no
    post-filter runs, so the entries of the other systems that connection
    manages are part of the result. *)
Theorem query_by_system_id_unfiltered (host : Host) (kind : CollectionKind)
    (v : string) (flags : Z) (p : LocalPlugin) (log : list Event) (c : conn)
    (objs : list LsmObj) :
  sys_con_map p !! v = Some c ->
  backend host log c (Query (kind_name kind) flags) = Ok objs ->
  fst (collection_query host kind (Some "system_id") (Some v) flags (p, log)) = Ok objs.
Proof.
  intros Hown Hans.
  rewrite collection_query_unfold, run_handle_errors, _query_system_id.
  cbn. rewrite Hown. cbn. rewrite Hans. reflexivity.
Qed.

Lemma query_by_system_id_unfiltered_witness :
  let s := ({| _tmo_ms := 3000; conns := [0%nat];
               syss := [sysA; {| sys_id := "hpsa-2"; sys_name := "Smart Array P840" |}];
               sys_con_map := <["hpsa-2" := 0%nat]> (<["hpsa-1" := 0%nat]> ∅);
               unregistered := false; nfs_conn := None |},
            [EvOpen "hpsa://" 3000 0; EvCall 0%nat Systems]) in
  let res := [volume_of "v1" "hpsa-1"; volume_of "v2" "hpsa-2"] in
  fst (collection_query (scripted_host two_controllers) Volumes
         (Some "system_id") (Some "hpsa-1") 0 s) = Ok res /\
  volume_of "v2" "hpsa-2" ∈ res /\
  obj_system_id (volume_of "v2" "hpsa-2") ≠ "hpsa-1".
Proof.
  cbv zeta. split; [| split].
  - apply (query_by_system_id_unfiltered _ _ _ _ _ _ 0%nat); reflexivity.
  - apply list_elem_of_In. right. left. reflexivity.
  - discriminate.
Defined.

(** ** The error boundary *)

(** Behind [_handle_errors] only domain errors come out, and a domain error
    comes out as it went in. *)
Lemma handle_errors_boundary {A} (m : M A) (s : State) (e : exn) :
  fst (_handle_errors m s) = Raise e ->
  is_LsmError e = true /\
  exists e0, fst (m s) = Raise e0 /\ e = rewrap e0.
Proof.
  rewrite run_handle_errors. cbn.
  destruct (fst (m s)) as [a|e0]; cbn; [discriminate |].
  intros [= <-]. split; [apply rewrap_is_LsmError | eauto].
Qed.

(** C2, at the input where the code departs from it: [export_auth] has no
    error boundary, so the exception of the nfs backend reaches the caller
    as it is, not as a PLUGIN_BUG error; behind [_handle_errors], where
    every other public method stands, the same failure is rewrapped. *)
Theorem export_auth_leaks_exception :
  fst (export_auth (scripted_host nfs_broken) 0 nfs_router) =
    Raise (Exception "[Errno 2] No such file or directory") /\
  fst (_handle_errors (export_auth (scripted_host nfs_broken) 0) nfs_router) =
    Raise (LsmError PLUGIN_BUG
             "Got unexpected error [Errno 2] No such file or directory").
Proof. split; reflexivity. Qed.

(** ** Loops that make one call on every connection *)

Lemma history_at_0 (log : list Event) (k : Call) (cs : list conn) :
  history_at log k cs 0 = log.
Proof. unfold history_at. rewrite take_0. apply app_nil_r. Qed.

Lemma history_at_cons (log : list Event) (k : Call) (c : conn)
    (cs : list conn) (i : nat) :
  history_at log k (c :: cs) (S i) = history_at (log ++ [EvCall c k]) k cs i.
Proof. unfold history_at. cbn. rewrite <- app_assoc. reflexivity. Qed.

Lemma history_at_all (log : list Event) (k : Call) (cs : list conn) :
  history_at log k cs (length cs) = log ++ ((fun c => EvCall c k) <$> cs).
Proof. unfold history_at. rewrite firstn_all. reflexivity. Qed.

Section LoggedLoop.

Variable k : Call.
Variable body : conn -> M unit.
Variable out : list Event -> conn -> result unit.

(** The body makes the call [k] on its connection and touches nothing else. *)
Hypothesis body_spec : forall c p log,
  body c (p, log) = (out log c, (p, log ++ [EvCall c k])).

Lemma for_each_all_ok (cs : list conn) (p : LocalPlugin) (log : list Event) :
  (forall i c, cs !! i = Some c -> out (history_at log k cs i) c = Ok tt) ->
  for_each cs body (p, log) = (Ok tt, (p, history_at log k cs (length cs))).
Proof.
  revert log. induction cs as [|c cs IH]; intros log Hok.
  - cbn. rewrite history_at_0. reflexivity.
  - cbn [for_each]. rewrite run_bind, body_spec.
    rewrite <- (history_at_0 log k (c :: cs)), (Hok 0%nat c eq_refl).
    rewrite history_at_0. cbn [length]. rewrite history_at_cons.
    apply IH. intros i c' Hi. rewrite <- history_at_cons. apply (Hok (S i)), Hi.
Qed.

Lemma for_each_first_raise (cs : list conn) (p : LocalPlugin)
    (log : list Event) (j : nat) (c : conn) (e : exn) :
  cs !! j = Some c ->
  (forall i c', (i < j)%nat -> cs !! i = Some c' ->
     out (history_at log k cs i) c' = Ok tt) ->
  out (history_at log k cs j) c = Raise e ->
  for_each cs body (p, log) = (Raise e, (p, history_at log k cs (S j))).
Proof.
  revert log j. induction cs as [|c0 cs IH]; intros log j Hj Hbefore Hraise.
  - discriminate.
  - cbn [for_each]. rewrite run_bind, body_spec. destruct j as [|j].
    + injection Hj as ->. rewrite history_at_0 in Hraise. rewrite Hraise.
      rewrite history_at_cons, history_at_0. reflexivity.
    + rewrite <- (history_at_0 log k (c0 :: cs)), (Hbefore 0%nat c0); [| lia | reflexivity].
      rewrite history_at_0, history_at_cons. apply IH.
      * exact Hj.
      * intros i c' Hi Hc'. rewrite <- history_at_cons.
        apply Hbefore; [lia | exact Hc'].
      * rewrite <- history_at_cons. exact Hraise.
Qed.

(** Whatever the connections answer, the loop leaves the router object
    alone and has called a prefix of the connections, in order: the whole
    list when it returns, at least the first connection in any case. *)
Lemma for_each_prefix (cs : list conn) (p : LocalPlugin) (log : list Event) :
  exists n : nat,
    (n <= length cs)%nat /\
    snd (for_each cs body (p, log)) = (p, history_at log k cs n) /\
    (cs ≠ [] -> (0 < n)%nat) /\
    (fst (for_each cs body (p, log)) = Ok tt -> n = length cs).
Proof.
  revert log. induction cs as [|c cs IH]; intros log.
  - exists 0%nat. cbn. rewrite history_at_0. repeat split; [lia | congruence].
  - cbn [for_each]. rewrite run_bind, body_spec.
    destruct (out log c) as [[]|e].
    + destruct (IH (log ++ [EvCall c k])) as (n & Hn & Hsnd & _ & Hall).
      exists (S n). rewrite history_at_cons. cbn [length].
      repeat split; [lia | exact Hsnd | lia |].
      intros Hok. rewrite (Hall Hok). reflexivity.
    + exists 1%nat. rewrite history_at_cons, history_at_0. cbn.
      repeat split; [lia | lia | discriminate].
Qed.

End LoggedLoop.

(** ** Timeouts *)

Lemma time_out_get_spec (flags : Z) (s : State) :
  time_out_get flags s = (Ok (_tmo_ms (fst s)), s).
Proof. reflexivity. Qed.

Lemma call_spec (host : Host) (c : conn) (k : Call) (p : LocalPlugin)
    (log : list Event) :
  call host c k (p, log) = (backend host log c k, (p, log ++ [EvCall c k])).
Proof. reflexivity. Qed.

Lemma time_out_set_unfold (host : Host) (ms flags : Z) (p : LocalPlugin)
    (log : list Event) :
  time_out_set host ms flags (p, log) =
  let run := for_each (conns p) (fun c => call host c (TimeOutSet ms flags))
               (set__tmo_ms ms p, log) in
  (rewrap_result (fst run), snd run).
Proof.
  unfold time_out_set. rewrite run_handle_errors. reflexivity.
Qed.

(** The stored timeout is the new value whatever the connections answer. *)
Lemma time_out_get_after_set (host : Host) (ms flags flags' : Z) (s : State) :
  fst (time_out_get flags' (snd (time_out_set host ms flags s))) = Ok ms.
Proof.
  destruct s as [p log]. rewrite time_out_set_unfold, time_out_get_spec.
  cbv zeta. cbn [fst snd].
  destruct (for_each_prefix (TimeOutSet ms flags)
              (fun c => call host c (TimeOutSet ms flags))
              (fun log c => backend host log c (TimeOutSet ms flags))
              (fun c p log => call_spec host c (TimeOutSet ms flags) p log)
              (conns p) (set__tmo_ms ms p) log) as (n & _ & Hsnd & _).
  change (conns p) with (conns (set__tmo_ms ms p)) in Hsnd at 1.
  cbn [conns set__tmo_ms] in Hsnd. rewrite Hsnd. reflexivity.
Qed.

(** C10. [time_out_set] stores the new value before it pushes it to the
    connections: when the connections before the [j]-th accept it and the
    [j]-th rejects it with [e], the call fails with [e] (rewrapped if it is
    not a domain error), the connections after the [j]-th are not reached,
    and [time_out_get] afterwards returns the rejected value. *)
Theorem time_out_set_not_atomic (host : Host) (ms flags flags' : Z)
    (p : LocalPlugin) (log : list Event) (j : nat) (c : conn) (e : exn) :
  conns p !! j = Some c ->
  (forall i c', (i < j)%nat -> conns p !! i = Some c' ->
     backend host (history_at log (TimeOutSet ms flags) (conns p) i) c'
       (TimeOutSet ms flags) = Ok tt) ->
  backend host (history_at log (TimeOutSet ms flags) (conns p) j) c
    (TimeOutSet ms flags) = Raise e ->
  time_out_set host ms flags (p, log) =
    (Raise (rewrap e),
     (set__tmo_ms ms p, history_at log (TimeOutSet ms flags) (conns p) (S j))) /\
  fst (time_out_get flags'
         (snd (time_out_set host ms flags (p, log)))) = Ok ms.
Proof.
  intros Hj Hbefore Hraise. split; [| apply time_out_get_after_set].
  rewrite time_out_set_unfold.
  rewrite (for_each_first_raise (TimeOutSet ms flags)
             (fun c => call host c (TimeOutSet ms flags))
             (fun log c => backend host log c (TimeOutSet ms flags))
             (fun c p log => call_spec host c (TimeOutSet ms flags) p log)
             (conns p) (set__tmo_ms ms p) log j c e Hj Hbefore Hraise).
  reflexivity.
Qed.

Lemma time_out_set_not_atomic_witness :
  fst (time_out_get 0 (two_conns, two_conns_log)) =
    Ok 3000%Z /\
  time_out_set (scripted_host strict_timeout) 10000 0 (two_conns, two_conns_log) =
    (Raise (LsmError INVALID_ARGUMENT "Invalid timeout"),
     (set__tmo_ms 10000 two_conns,
      two_conns_log ++ [EvCall 0%nat (TimeOutSet 10000 0);
                        EvCall 1%nat (TimeOutSet 10000 0)])) /\
  fst (time_out_get 0
         (snd (time_out_set (scripted_host strict_timeout) 10000 0
                 (two_conns, two_conns_log)))) = Ok 10000%Z.
Proof.
  split; [reflexivity |].
  apply (time_out_set_not_atomic (scripted_host strict_timeout) 10000 0 0
           two_conns two_conns_log 1 1%nat
           (LsmError INVALID_ARGUMENT "Invalid timeout")).
  - reflexivity.
  - intros [|i] c' Hi Hc'; [| lia]. injection Hc' as <-. reflexivity.
  - reflexivity.
Defined.

(** ** [plugin_unregister] *)

Lemma plugin_unregister_unfold (host : Host) (flags : Z) (p : LocalPlugin)
    (log : list Event) :
  plugin_unregister host flags (p, log) =
  let run := for_each (conns p) (fun c => call host c PluginUnregister) (p, log) in
  match fst run with
  | Ok _ => (Ok tt, (set_unregistered true (fst (snd run)), snd (snd run)))
  | Raise e => (Raise (rewrap e), snd run)
  end.
Proof.
  unfold plugin_unregister. rewrite run_handle_errors.
  rewrite (run_bind get_self). cbn [get_self fst snd]. rewrite run_bind. cbv zeta.
  destruct (for_each _ _ _) as [[[]|e] [p' log']]; reflexivity.
Qed.

Lemma teardown_prefix (host : Host) (p : LocalPlugin) (log : list Event) :
  exists n : nat,
    (n <= length (conns p))%nat /\
    snd (for_each (conns p) (fun c => call host c PluginUnregister) (p, log)) =
      (p, history_at log PluginUnregister (conns p) n) /\
    (conns p ≠ [] -> (0 < n)%nat) /\
    (fst (for_each (conns p) (fun c => call host c PluginUnregister) (p, log)) = Ok tt ->
     n = length (conns p)).
Proof.
  apply (for_each_prefix PluginUnregister
           (fun c => call host c PluginUnregister)
           (fun log c => backend host log c PluginUnregister)
           (fun c p log => call_spec host c PluginUnregister p log)).
Qed.

(** C3, as the code has it. After a [plugin_unregister] that returned, the
    router is marked unregistered, with the teardown of every connection in
    the history, and the finalizer [__del__] does nothing.  A second
    [plugin_unregister] leaves the router object as it is but makes the
    teardown calls again, in connection order: on every connection if it
    returns, on the first one at least. *)
Theorem unregister_again (host : Host) (flags flags' : Z) (p : LocalPlugin)
    (log : list Event) :
  fst (plugin_unregister host flags (p, log)) = Ok tt ->
  let s1 := snd (plugin_unregister host flags (p, log)) in
  let run2 := plugin_unregister host flags' s1 in
  s1 = (set_unregistered true p,
        history_at log PluginUnregister (conns p) (length (conns p))) /\
  __del__ host s1 = (Ok tt, s1) /\
  fst (snd run2) = fst s1 /\
  exists n : nat,
    (n <= length (conns p))%nat /\
    (conns p ≠ [] -> (0 < n)%nat) /\
    (fst run2 = Ok tt -> n = length (conns p)) /\
    snd (snd run2) = history_at (snd s1) PluginUnregister (conns p) n.
Proof.
  intros Hok. cbv zeta.
  assert (Hs1 : snd (plugin_unregister host flags (p, log)) =
                (set_unregistered true p,
                 history_at log PluginUnregister (conns p) (length (conns p)))).
  { revert Hok. rewrite plugin_unregister_unfold. cbv zeta.
    destruct (teardown_prefix host p log) as (n & _ & Hsnd & _ & Hall).
    destruct (for_each _ _ _) as [[[]|e] s']; cbn in *; [| discriminate].
    intros _. subst s'. rewrite (Hall eq_refl). reflexivity. }
  rewrite Hs1. split; [reflexivity |]. split; [reflexivity |].
  rewrite plugin_unregister_unfold. cbv zeta.
  destruct (teardown_prefix host (set_unregistered true p)
              (history_at log PluginUnregister (conns p) (length (conns p))))
    as (n & Hn & Hsnd & Hpos & Hall).
  cbn [conns set_unregistered] in *.
  destruct (for_each _ _ _) as [[[]|e] s']; cbn in *; subst s'; cbn.
  - split; [reflexivity |]. exists n. repeat split; auto.
  - split; [reflexivity |]. exists n. repeat split; auto. discriminate.
Qed.

Lemma unregister_again_witness :
  fst (plugin_unregister (scripted_host quiet) 0 (two_conns, two_conns_log)) = Ok tt /\
  let s1 := snd (plugin_unregister (scripted_host quiet) 0 (two_conns, two_conns_log)) in
  let run2 := plugin_unregister (scripted_host quiet) 0 s1 in
  s1 = (set_unregistered true two_conns,
        history_at two_conns_log PluginUnregister (conns two_conns)
          (length (conns two_conns))) /\
  __del__ (scripted_host quiet) s1 = (Ok tt, s1) /\
  fst (snd run2) = fst s1 /\
  exists n : nat,
    (n <= length (conns two_conns))%nat /\
    (conns two_conns ≠ [] -> (0 < n)%nat) /\
    (fst run2 = Ok tt -> n = length (conns two_conns)) /\
    snd (snd run2) = history_at (snd s1) PluginUnregister (conns two_conns) n.
Proof.
  split; [reflexivity |].
  apply (unregister_again (scripted_host quiet) 0 0 two_conns two_conns_log).
  reflexivity.
Defined.

(** C3 as stated fails: the second call is not a no-op, it tears the two
    connections down a second time. *)
Lemma unregister_twice_repeats_teardown :
  let s1 := snd (plugin_unregister (scripted_host quiet) 0 (two_conns, two_conns_log)) in
  let s2 := snd (plugin_unregister (scripted_host quiet) 0 s1) in
  s2 ≠ s1 /\
  snd s2 = snd s1 ++ [EvCall 0%nat PluginUnregister; EvCall 1%nat PluginUnregister].
Proof.
  cbv zeta. split; [| reflexivity].
  intros Heq. apply (f_equal (fun s : State => length (snd s))) in Heq.
  vm_compute in Heq. discriminate.
Qed.

(** ** Fan-out queries *)

Section FanOut.

Variable host : Host.
Variable query_func_name : string.
Variable flags : Z.

Local Abbreviation K := (Query query_func_name flags).

Lemma _query_visit_spec (lsm_objs : list LsmObj) (c : conn) (p : LocalPlugin)
    (log : list Event) :
  _query_visit host query_func_name flags lsm_objs c (p, log) =
  (match backend host log c K with
   | Ok r => Ok (lsm_objs ++ r)
   | Raise e => if is_NO_SUPPORT e then Ok lsm_objs else Raise e
   end, (p, log ++ [EvCall c K])).
Proof.
  unfold _query_visit, try_except_LsmError. rewrite run_bind, call_spec.
  destruct (backend host log c K) as [r|[[]|]]; reflexivity.
Qed.

Lemma contributions_cons (log : list Event) (c : conn) (cs : list conn) :
  contributions host query_func_name flags log (c :: cs) =
  contribution (backend host log c K) ++
  contributions host query_func_name flags (log ++ [EvCall c K]) cs.
Proof.
  unfold contributions. rewrite imap_cons. cbn [concat].
  rewrite history_at_0. f_equal. f_equal. apply imap_ext.
  intros i c' _. cbn. rewrite history_at_cons. reflexivity.
Qed.

Lemma _query_loop_all_tolerated (cs : list conn) (lsm_objs : list LsmObj)
    (p : LocalPlugin) (log : list Event) :
  (forall i c, cs !! i = Some c ->
     tolerated (backend host (history_at log K cs i) c K) = true) ->
  _query_loop host query_func_name flags cs lsm_objs (p, log) =
  (Ok (lsm_objs ++ contributions host query_func_name flags log cs),
   (p, history_at log K cs (length cs))).
Proof.
  revert lsm_objs log. induction cs as [|c cs IH]; intros lsm_objs log Htol.
  - cbn. rewrite history_at_0, app_nil_r. reflexivity.
  - cbn [_query_loop]. rewrite run_bind, _query_visit_spec.
    specialize (Htol 0%nat c eq_refl) as H0. rewrite history_at_0 in H0.
    rewrite contributions_cons. cbn [length]. rewrite history_at_cons.
    assert (Hrest : forall i c', cs !! i = Some c' ->
              tolerated (backend host (history_at (log ++ [EvCall c K]) K cs i) c' K) = true).
    { intros i c' Hi. rewrite <- history_at_cons. apply (Htol (S i)), Hi. }
    destruct (backend host log c K) as [r|e]; cbn in H0 |- *.
    + rewrite (IH _ _ Hrest), app_assoc. reflexivity.
    + rewrite H0. rewrite (IH _ _ Hrest). reflexivity.
Qed.

Lemma _query_loop_first_abort (cs : list conn) (lsm_objs : list LsmObj)
    (p : LocalPlugin) (log : list Event) (j : nat) (c : conn) (e : exn) :
  cs !! j = Some c ->
  (forall i c', (i < j)%nat -> cs !! i = Some c' ->
     tolerated (backend host (history_at log K cs i) c' K) = true) ->
  backend host (history_at log K cs j) c K = Raise e ->
  is_NO_SUPPORT e = false ->
  _query_loop host query_func_name flags cs lsm_objs (p, log) =
  (Raise e, (p, history_at log K cs (S j))).
Proof.
  revert lsm_objs log j.
  induction cs as [|c0 cs IH]; intros lsm_objs log j Hj Hbefore Hraise Hno.
  - discriminate.
  - cbn [_query_loop]. rewrite run_bind, _query_visit_spec. destruct j as [|j].
    + injection Hj as ->. rewrite history_at_0 in Hraise. rewrite Hraise, Hno.
      rewrite history_at_cons, history_at_0. reflexivity.
    + specialize (Hbefore 0%nat c0 ltac:(lia) eq_refl) as H0.
      rewrite history_at_0 in H0. rewrite history_at_cons.
      assert (Hgo : forall acc, _query_loop host query_func_name flags cs acc
                      (p, log ++ [EvCall c0 K]) =
                    (Raise e, (p, history_at (log ++ [EvCall c0 K]) K cs (S j)))).
      { intros acc. apply IH.
        - exact Hj.
        - intros i c' Hi Hc'. rewrite <- history_at_cons.
          apply Hbefore; [lia | exact Hc'].
        - rewrite <- history_at_cons. exact Hraise.
        - exact Hno. }
      destruct (backend host log c0 K) as [r|e0]; cbn in H0 |- *.
      * apply Hgo.
      * rewrite H0. apply Hgo.
Qed.

Lemma _query_fan_out (search_key search_value : option string)
    (p : LocalPlugin) (log : list Event) :
  search_key ≠ Some "system_id" ->
  _query host query_func_name search_key search_value flags (p, log) =
  match _query_loop host query_func_name flags (conns p) [] (p, log) with
  | (Ok lsm_objs, s') => (Ok (search_property lsm_objs search_key search_value), s')
  | (Raise e, s') => (Raise e, s')
  end.
Proof.
  intros Hkey. unfold _query. rewrite run_bind. cbn [get_self fst snd].
  rewrite bool_decide_eq_false_2 by exact Hkey. rewrite run_bind.
  destruct (_query_loop _ _ _ _ _ _) as [[l|e] s']; reflexivity.
Qed.

End FanOut.

Lemma search_property_unset (lsm_objs : list LsmObj) (search_value : option string) :
  search_property lsm_objs None search_value = lsm_objs.
Proof. reflexivity. Qed.

(** C6. A collection query whose search key is not "system_id" calls the
    connections in connection-set order.  (1) When every answer is a list or
    a NO_SUPPORT error, every connection is called and the result is the
    concatenation, in that order, of the lists returned, passed through
    [search_property].  (2) When the [j]-th answer is the first other error,
    the call stops there, the later connections are not called, and the
    error comes out (rewrapped if it is not a domain error).  (3) With the
    search key unset the post-filter changes nothing. *)
Theorem query_fan_out (host : Host) (kind : CollectionKind)
    (search_key search_value : option string) (flags : Z) (p : LocalPlugin)
    (log : list Event) :
  search_key ≠ Some "system_id" ->
  let K := Query (kind_name kind) flags in
  let run := collection_query host kind search_key search_value flags (p, log) in
  ((forall i c, conns p !! i = Some c ->
      tolerated (backend host (history_at log K (conns p) i) c K) = true) ->
   run = (Ok (search_property
                (contributions host (kind_name kind) flags log (conns p))
                search_key search_value),
          (p, history_at log K (conns p) (length (conns p))))) /\
  (forall j c e,
     conns p !! j = Some c ->
     (forall i c', (i < j)%nat -> conns p !! i = Some c' ->
        tolerated (backend host (history_at log K (conns p) i) c' K) = true) ->
     backend host (history_at log K (conns p) j) c K = Raise e ->
     is_NO_SUPPORT e = false ->
     run = (Raise (rewrap e), (p, history_at log K (conns p) (S j)))) /\
  (forall lsm_objs, search_property lsm_objs None search_value = lsm_objs).
Proof.
  intros Hkey. cbv zeta.
  rewrite collection_query_unfold, run_handle_errors, (_query_fan_out _ _ _ _ _ _ _ Hkey).
  split; [| split].
  - intros Htol. rewrite (_query_loop_all_tolerated _ _ _ _ _ _ _ Htol). reflexivity.
  - intros j c e Hj Hbefore Hraise Hno.
    rewrite (_query_loop_first_abort _ _ _ _ _ _ _ _ _ _ Hj Hbefore Hraise Hno).
    reflexivity.
  - intros lsm_objs. reflexivity.
Qed.

Lemma query_fan_out_witness :
  (None : option string) ≠ Some "system_id" /\
  collection_query (scripted_host mixed) Batteries None None 0
    (two_conns, two_conns_log) =
  (Ok [volume_of "batteries-m" "mega-0"],
   (two_conns, two_conns_log ++ [EvCall 0%nat (Query "batteries" 0);
                                 EvCall 1%nat (Query "batteries" 0)])) /\
  collection_query (scripted_host mixed) Disks None None 0
    (two_conns, two_conns_log) =
  (Raise (LsmError (OTHER_ERROR 11) "hpssacli timed out"),
   (two_conns, two_conns_log ++ [EvCall 0%nat (Query "disks" 0)])).
Proof.
  split; [discriminate |]. split.
  - apply (proj1 (query_fan_out (scripted_host mixed) Batteries None None 0
                    two_conns two_conns_log ltac:(discriminate))).
    intros [|[|i]] c Hi; inversion Hi; reflexivity.
  - apply (proj1 (proj2 (query_fan_out (scripted_host mixed) Disks None None 0
                           two_conns two_conns_log ltac:(discriminate)))
             0%nat 0%nat (LsmError (OTHER_ERROR 11) "hpssacli timed out")).
    + reflexivity.
    + intros i c' Hi. lia.
    + reflexivity.
    + reflexivity.
Defined.

(** ** Backend selection *)

Lemma elem_of_set_iter (host : Host) (X : gset string) (name : string) :
  name ∈ set_iter host X <-> name ∈ X.
Proof. rewrite (set_iter_perm host X). apply elem_of_elements. Qed.

Lemma elem_of_probe_plugins (host : Host) (name : string) :
  "smartpqi" ∈ listdir_sys_module host ->
  name ∈ probe_plugins host <->
  name ∈ probe_kmods (listdir_sys_module host) \/
  name = (if find_arcconf host then "arcconf"
          else if find_sacli host then "hpsa" else "arcconf").
Proof.
  intros Hpqi. unfold probe_plugins. cbv zeta.
  rewrite bool_decide_eq_true_2 by exact Hpqi.
  rewrite elem_of_set_iter, elem_of_list_to_set.
  destruct (find_arcconf host), (find_sacli host);
    rewrite elem_of_app, list_elem_of_singleton; reflexivity.
Qed.

(** C8. When the smartpqi module is loaded, the probe adds exactly one
    plugin to those of the kernel module table: arcconf if the arcconf tool
    is found; else hpsa if the hpsa tool is found; else arcconf again. *)
Theorem smartpqi_arbitration (host : Host) :
  "smartpqi" ∈ listdir_sys_module host ->
  (find_arcconf host = true -> arbitration_selects host "arcconf") /\
  (find_arcconf host = false -> find_sacli host = true ->
   arbitration_selects host "hpsa") /\
  (find_arcconf host = false -> find_sacli host = false ->
   arbitration_selects host "arcconf").
Proof.
  intros Hpqi. unfold arbitration_selects.
  split; [| split]; intros; rewrite (elem_of_probe_plugins host name Hpqi).
  all: repeat match goal with H : _ = _ |- _ => rewrite H; clear H end.
  all: reflexivity.
Qed.

Lemma smartpqi_arbitration_witness :
  "smartpqi" ∈ listdir_sys_module (scripted_host (smartpqi_only false true)) /\
  arbitration_selects (scripted_host (smartpqi_only true true)) "arcconf" /\
  arbitration_selects (scripted_host (smartpqi_only false true)) "hpsa" /\
  arbitration_selects (scripted_host (smartpqi_only false false)) "arcconf".
Proof.
  assert (Hin : forall a b,
            "smartpqi" ∈ listdir_sys_module (scripted_host (smartpqi_only a b))).
  { intros a b. apply list_elem_of_In. left. reflexivity. }
  split; [apply Hin |]. split; [| split].
  - apply (proj1 (smartpqi_arbitration _ (Hin true true))). reflexivity.
  - apply (proj1 (proj2 (smartpqi_arbitration _ (Hin false true)))); reflexivity.
  - apply (proj2 (proj2 (smartpqi_arbitration _ (Hin false false)))); reflexivity.
Defined.

(** ** Building the routing table *)

Lemma record_systems_app (p : LocalPlugin) (b1 b2 : list (conn * System)) :
  record_systems p (b1 ++ b2) = record_systems (record_systems p b1) b2.
Proof. apply foldl_app. Qed.

Lemma record_systems_fmap (c : conn) (p : LocalPlugin) (l : list System) :
  foldl (record_system c) p l = record_systems p (pair c <$> l).
Proof.
  revert p. induction l as [|s l IH]; intros p; [reflexivity |]. cbn. apply IH.
Qed.

Lemma record_systems_fields (p : LocalPlugin) (b : list (conn * System)) :
  _tmo_ms (record_systems p b) = _tmo_ms p /\
  conns (record_systems p b) = conns p /\
  syss (record_systems p b) = syss p ++ (snd <$> b) /\
  unregistered (record_systems p b) = unregistered p /\
  nfs_conn (record_systems p b) = nfs_conn p.
Proof.
  revert p. induction b as [|[c s] b IH]; intros p.
  - cbn. rewrite app_nil_r. auto.
  - change (record_systems p ((c, s) :: b))
      with (record_systems (record_system c p s) b).
    destruct (IH (record_system c p s)) as (H1 & H2 & H3 & H4 & H5).
    rewrite H1, H2, H3, H4, H5. cbn. rewrite <- app_assoc. auto.
Qed.

(** The routing table after recording: the last binding of an identifier
    wins, and identifiers without a binding keep their owner. *)
Lemma record_systems_lookup (p : LocalPlugin) (b : list (conn * System))
    (sid : string) :
  sys_con_map (record_systems p b) !! sid =
  match last_owner b sid with
  | Some c => Some c
  | None => sys_con_map p !! sid
  end.
Proof.
  unfold last_owner. induction b as [|[c s] b IH] using rev_ind.
  - reflexivity.
  - rewrite record_systems_app. cbn [record_systems foldl fst snd].
    rewrite filter_app, filter_cons, filter_nil. cbn [record_system sys_con_map snd].
    destruct (decide (sys_id s = sid)) as [->|Hne].
    + rewrite last_snoc, lookup_insert_eq. reflexivity.
    + rewrite app_nil_r, lookup_insert_ne by exact Hne. exact IH.
Qed.

Lemma record_systems_empty (p : LocalPlugin) (b : list (conn * System)) :
  sys_con_map (record_systems p b) = ∅ <-> sys_con_map p = ∅ /\ b = [].
Proof.
  split.
  - destruct b as [|[c s] b _] using rev_ind; [auto |].
    rewrite record_systems_app. cbn. intros H.
    apply (f_equal (fun m : gmap string conn => m !! sys_id s)) in H.
    rewrite lookup_insert_eq, lookup_empty in H. discriminate.
  - intros [H ->]. exact H.
Qed.

Section Discover.

Variable host : Host.

Lemma discover_systems_spec (c : conn) (p : LocalPlugin) (log : list Event) :
  discover_systems host c (p, log) =
  match backend host log c Systems with
  | Ok l => (Ok tt, (record_systems p (pair c <$> l), log ++ [EvCall c Systems]))
  | Raise e => (Raise e, (p, log ++ [EvCall c Systems]))
  end.
Proof.
  unfold discover_systems. rewrite run_bind, call_spec.
  destruct (backend host log c Systems) as [l|e]; [| reflexivity].
  rewrite <- record_systems_fmap. reflexivity.
Qed.

Lemma bindings_cons (log : list Event) (c : conn) (cs : list conn) :
  bindings host log (c :: cs) =
  (pair c <$> match backend host log c Systems with Ok l => l | Raise _ => [] end)
  ++ bindings host (log ++ [EvCall c Systems]) cs.
Proof.
  unfold bindings. rewrite imap_cons. cbn [concat].
  unfold systems_answer at 1. rewrite history_at_0. f_equal. f_equal.
  apply imap_ext. intros i c' _. cbn. unfold systems_answer.
  rewrite history_at_cons. reflexivity.
Qed.

Lemma bindings_reported (log : list Event) (cs : list conn) :
  snd <$> bindings host log cs = concat (reported host log cs).
Proof.
  unfold bindings, reported. generalize (systems_answer host log cs).
  induction cs as [|c cs IH]; intros f; [reflexivity |].
  rewrite !imap_cons. cbn [concat]. rewrite fmap_app. f_equal.
  - rewrite <- list_fmap_compose. apply list_fmap_id.
  - exact (IH (f ∘ S)).
Qed.

(** The loop either gets a list from every connection and records them
    all, or stops at the first connection whose [systems()] raises. *)
Lemma discover_loop_cases (cs : list conn) (p : LocalPlugin) (log : list Event) :
  ((forall i c, cs !! i = Some c ->
      exists l, backend host (history_at log Systems cs i) c Systems = Ok l) /\
   for_each cs (discover_systems host) (p, log) =
   (Ok tt, (record_systems p (bindings host log cs),
            history_at log Systems cs (length cs)))) \/
  (exists j c e,
     cs !! j = Some c /\
     backend host (history_at log Systems cs j) c Systems = Raise e /\
     fst (for_each cs (discover_systems host) (p, log)) = Raise e).
Proof.
  revert p log. induction cs as [|c cs IH]; intros p log.
  - left. split; [intros i c Hi; discriminate |].
    cbn. rewrite history_at_0. reflexivity.
  - cbn [for_each]. rewrite run_bind, discover_systems_spec, bindings_cons.
    destruct (backend host log c Systems) as [l|e] eqn:Hc.
    + destruct (IH (record_systems p (pair c <$> l)) (log ++ [EvCall c Systems]))
        as [[Hall Hrun] | (j & c' & e & Hj & Hraise & Hrun)].
      * left. split.
        -- intros [|i] c' Hi.
           ++ injection Hi as <-. rewrite history_at_0. eauto.
           ++ rewrite history_at_cons. apply Hall, Hi.
        -- rewrite Hrun, record_systems_app. cbn [length].
           rewrite history_at_cons. reflexivity.
      * right. exists (S j), c', e. rewrite history_at_cons. auto.
    + right. exists 0%nat, c, e. rewrite history_at_0. auto.
Qed.

End Discover.

(** ** Opening the connections *)

Lemma open_history_0 (log : list Event) (timeout flags : Z) (uris : list string) :
  open_history log timeout flags uris 0 = log.
Proof. unfold open_history. rewrite take_0. apply app_nil_r. Qed.

Lemma open_history_cons (log : list Event) (timeout flags : Z) (u : string)
    (uris : list string) (i : nat) :
  open_history log timeout flags (u :: uris) (S i) =
  open_history (log ++ [EvOpen u timeout flags]) timeout flags uris i.
Proof. unfold open_history. cbn. rewrite <- app_assoc. reflexivity. Qed.

Lemma kept_refl (p : LocalPlugin) : kept p p [].
Proof. unfold kept. rewrite app_nil_r. auto. Qed.

Lemma kept_opened (plugin_name : string) (c : conn) (p : LocalPlugin) :
  kept p (opened plugin_name c p) [c].
Proof. unfold kept, opened. case_bool_decide; cbn; auto. Qed.

Lemma kept_trans (p p1 p2 : LocalPlugin) (cs1 cs2 : list conn) :
  kept p p1 cs1 -> kept p1 p2 cs2 -> kept p p2 (cs1 ++ cs2).
Proof.
  unfold kept. intros (H1 & H2 & H3 & H4 & H5) (G1 & G2 & G3 & G4 & G5).
  rewrite G1, G2, G3, G4, G5, H1, app_assoc. auto.
Qed.

Section Activation.

Variable host : Host.
Variable ignore_init_error : bool.
Variable sub_uri_paras : gmap string (list string).
Variables timeout flags : Z.

Lemma activate_spec (plugin_name u : string) (p : LocalPlugin) (log : list Event) :
  plugin_uri_of sub_uri_paras plugin_name = Ok u ->
  activate host ignore_init_error sub_uri_paras timeout flags plugin_name (p, log) =
  match client_open host log u timeout flags with
  | None => (Ok tt, (opened plugin_name (length log) p,
                     log ++ [EvOpen u timeout flags]))
  | Some e => (if is_LsmError e && ignore_init_error then Ok tt else Raise e,
               (p, log ++ [EvOpen u timeout flags]))
  end.
Proof.
  intros Hu. unfold activate, lift, try_except_LsmError, Client, opened.
  rewrite run_bind, Hu, run_bind. cbn [fst snd].
  destruct (client_open host log u timeout flags) as [[code msg|msg]|].
  - destruct ignore_init_error; reflexivity.
  - reflexivity.
  - rewrite !run_bind. cbn. case_bool_decide; reflexivity.
Qed.

Lemma activate_KeyError (plugin_name : string) (e : exn) (s : State) :
  plugin_uri_of sub_uri_paras plugin_name = Raise e ->
  activate host ignore_init_error sub_uri_paras timeout flags plugin_name s =
  (Raise e, s).
Proof.
  intros Hu. unfold activate, lift. rewrite run_bind, Hu. reflexivity.
Qed.

(** The activation loop only ever adds connections to the router object. *)
Lemma open_connections_kept (requested : list string) (p : LocalPlugin)
    (log : list Event) :
  exists cs,
    kept p (fst (snd (open_connections host ignore_init_error sub_uri_paras
                        timeout flags requested (p, log)))) cs.
Proof.
  unfold open_connections. revert p log.
  induction requested as [|name requested IH]; intros p log.
  - exists []. apply kept_refl.
  - cbn [for_each]. rewrite run_bind.
    destruct (plugin_uri_of sub_uri_paras name) as [u|e] eqn:Hu.
    + rewrite (activate_spec name u p log Hu).
      destruct (client_open host log u timeout flags) as [e|].
      * destruct (is_LsmError e && ignore_init_error).
        -- apply IH.
        -- exists []. apply kept_refl.
      * destruct (IH (opened name (length log) p) (log ++ [EvOpen u timeout flags]))
          as [cs Hcs].
        exists ([length log] ++ cs). eapply kept_trans; [apply kept_opened | exact Hcs].
    + rewrite (activate_KeyError name e (p, log) Hu). exists []. apply kept_refl.
Qed.

Local Abbreviation uris_for requested :=
  (plugin_uri_or_empty sub_uri_paras <$> requested).

Lemma open_all_succeed (requested : list string) (p : LocalPlugin)
    (log : list Event) :
  (forall name, name ∈ requested ->
     plugin_uri_of sub_uri_paras name = Ok (plugin_uri_or_empty sub_uri_paras name)) ->
  (forall i u, uris_for requested !! i = Some u ->
     client_open host (open_history log timeout flags (uris_for requested) i) u
       timeout flags = None) ->
  exists p',
    open_connections host ignore_init_error sub_uri_paras timeout flags
      requested (p, log) =
    (Ok tt, (p', open_history log timeout flags (uris_for requested)
                   (length requested))) /\
    kept p p' (seq (length log) (length requested)).
Proof.
  unfold open_connections. revert p log.
  induction requested as [|name req IH]; intros p log Huri Hopen.
  - exists p. cbn. rewrite open_history_0. split; [reflexivity | apply kept_refl].
  - cbn [for_each fmap list_fmap]. rewrite run_bind.
    rewrite (activate_spec name _ p log (Huri name ltac:(left))).
    specialize (Hopen 0%nat _ eq_refl) as H0. rewrite open_history_0 in H0.
    rewrite H0.
    destruct (IH (opened name (length log) p)
                (log ++ [EvOpen (plugin_uri_or_empty sub_uri_paras name) timeout flags]))
      as (p' & Hrun & Hkept).
    + intros n Hn. apply Huri. right. exact Hn.
    + intros i u Hi. rewrite <- open_history_cons. apply (Hopen (S i)), Hi.
    + exists p'. cbn [length]. rewrite open_history_cons. split; [exact Hrun |].
      rewrite length_app in Hkept. cbn [length] in Hkept.
      replace (length log + 1)%nat with (S (length log)) in Hkept by lia.
      apply (kept_trans _ _ _ [length log] _ (kept_opened name (length log) p) Hkept).
Qed.

(** Stop at the first open that raises, unless it is a domain error and
    [ignore_init_error] holds. *)
Lemma open_abort (requested : list string) (p : LocalPlugin) (log : list Event)
    (j : nat) (u : string) (e : exn) :
  (forall name, name ∈ requested ->
     plugin_uri_of sub_uri_paras name = Ok (plugin_uri_or_empty sub_uri_paras name)) ->
  uris_for requested !! j = Some u ->
  (forall i u', (i < j)%nat -> uris_for requested !! i = Some u' ->
     client_open host (open_history log timeout flags (uris_for requested) i) u'
       timeout flags = None) ->
  client_open host (open_history log timeout flags (uris_for requested) j) u
    timeout flags = Some e ->
  is_LsmError e && ignore_init_error = false ->
  exists p',
    open_connections host ignore_init_error sub_uri_paras timeout flags
      requested (p, log) =
    (Raise e, (p', open_history log timeout flags (uris_for requested) (S j))) /\
    kept p p' (seq (length log) j).
Proof.
  unfold open_connections. revert p log j.
  induction requested as [|name req IH]; intros p log j Huri Hj Hbefore Hfail Hflag.
  - discriminate.
  - cbn [for_each fmap list_fmap]. rewrite run_bind.
    rewrite (activate_spec name _ p log (Huri name ltac:(left))).
    destruct j as [|j].
    + injection Hj as <-. rewrite open_history_0 in Hfail. rewrite Hfail, Hflag.
      exists p. rewrite open_history_cons, open_history_0.
      split; [reflexivity | apply kept_refl].
    + specialize (Hbefore 0%nat _ ltac:(lia) eq_refl) as H0.
      rewrite open_history_0 in H0. rewrite H0.
      destruct (IH (opened name (length log) p)
                  (log ++ [EvOpen (plugin_uri_or_empty sub_uri_paras name) timeout flags])
                  j)
        as (p' & Hrun & Hkept).
      * intros n Hn. apply Huri. right. exact Hn.
      * exact Hj.
      * intros i u' Hi Hu'. rewrite <- open_history_cons.
        apply Hbefore; [lia | exact Hu'].
      * rewrite <- open_history_cons. exact Hfail.
      * exact Hflag.
      * exists p'. rewrite open_history_cons. split; [exact Hrun |].
        rewrite length_app in Hkept. cbn [length] in Hkept.
        replace (length log + 1)%nat with (S (length log)) in Hkept by lia.
        apply (kept_trans _ _ _ [length log] _ (kept_opened name (length log) p) Hkept).
Qed.

(** With [ignore_init_error], the one open that fails with a domain error is
    passed over and every other target is opened. *)
Lemma open_skip (requested : list string) (p : LocalPlugin) (log : list Event)
    (j : nat) (u : string) (code : ErrorNumber) (msg : string) :
  ignore_init_error = true ->
  (forall name, name ∈ requested ->
     plugin_uri_of sub_uri_paras name = Ok (plugin_uri_or_empty sub_uri_paras name)) ->
  uris_for requested !! j = Some u ->
  (forall i u', i ≠ j -> uris_for requested !! i = Some u' ->
     client_open host (open_history log timeout flags (uris_for requested) i) u'
       timeout flags = None) ->
  client_open host (open_history log timeout flags (uris_for requested) j) u
    timeout flags = Some (LsmError code msg) ->
  exists p',
    open_connections host ignore_init_error sub_uri_paras timeout flags
      requested (p, log) =
    (Ok tt, (p', open_history log timeout flags (uris_for requested)
                   (length requested))) /\
    kept p p' (seq (length log) j ++
               seq (length log + S j) (length requested - S j)).
Proof.
  intros Hflag. revert p log j.
  induction requested as [|name req IH]; intros p log j Huri Hj Hothers Hfail.
  - discriminate.
  - destruct j as [|j].
    + injection Hj as <-. rewrite open_history_0 in Hfail.
      destruct (open_all_succeed req p
                  (log ++ [EvOpen (plugin_uri_or_empty sub_uri_paras name) timeout flags]))
        as (p' & Hrun & Hkept).
      * intros n Hn. apply Huri. right. exact Hn.
      * intros i u' Hi. rewrite <- open_history_cons.
        apply (Hothers (S i)); [lia | exact Hi].
      * exists p'. unfold open_connections in *.
        cbn [for_each fmap list_fmap]. rewrite run_bind.
        rewrite (activate_spec name _ p log (Huri name ltac:(left))).
        rewrite Hfail.
        replace (is_LsmError (LsmError code msg) && ignore_init_error) with true
          by (rewrite Hflag; reflexivity).
        cbn [length]. rewrite open_history_cons. split; [exact Hrun |].
        rewrite length_app in Hkept. cbn [length seq app] in Hkept |- *.
        replace (length log + 1)%nat with (S (length log)) in * by lia.
        replace (S (length req) - 1)%nat with (length req) by lia. exact Hkept.
    + destruct (IH (opened name (length log) p)
                  (log ++ [EvOpen (plugin_uri_or_empty sub_uri_paras name) timeout flags])
                  j)
        as (p' & Hrun & Hkept).
      * intros n Hn. apply Huri. right. exact Hn.
      * exact Hj.
      * intros i u' Hi Hu'. rewrite <- open_history_cons.
        apply (Hothers (S i)); [lia | exact Hu'].
      * rewrite <- open_history_cons. exact Hfail.
      * exists p'. unfold open_connections in *.
        cbn [for_each fmap list_fmap]. rewrite run_bind.
        rewrite (activate_spec name _ p log (Huri name ltac:(left))).
        specialize (Hothers 0%nat _ ltac:(lia) eq_refl) as H0.
        rewrite open_history_0 in H0. rewrite H0.
        cbn [length]. rewrite open_history_cons. split; [exact Hrun |].
        rewrite length_app in Hkept. cbn [length] in Hkept.
        replace (length log + 1)%nat with (S (length log)) in Hkept by lia.
        replace (S (length log) + S j)%nat with (length log + S (S j))%nat in Hkept by lia.
        replace (S (length req) - S (S j))%nat with (length req - S j)%nat by lia.
        apply (kept_trans _ _ _ [length log] _ (kept_opened name (length log) p) Hkept).
Qed.

End Activation.

(** ** The stages of [plugin_register] *)

Lemma py_bool_true (s : string) : py_bool s = true <-> s ≠ "".
Proof.
  unfold py_bool. rewrite negb_true_iff. apply String.eqb_neq.
Qed.

Lemma py_bool_false (s : string) : py_bool s = false <-> s = "".
Proof.
  unfold py_bool. rewrite negb_false_iff. apply String.eqb_eq.
Qed.

Lemma plugin_register_cases (host : Host) (uri : string)
    (password : option string) (timeout flags : Z) (p : LocalPlugin)
    (log : list Event) :
  (exists uri_vars,
     reaches_activation host uri uri_vars /\
     plugin_register host uri password timeout flags (p, log) =
     _handle_errors
       (open_connections host (ignore_init_error_of uri_vars)
          (build_sub_uri_paras host supported_plugins uri_vars) timeout flags
          (requested_of host uri_vars);;
        build_routing_table host)
       (set__tmo_ms timeout p, log)) \/
  ((forall uri_vars, ~ reaches_activation host uri uri_vars) /\
   exists e,
     plugin_register host uri password timeout flags (p, log) =
     (Raise e, (set__tmo_ms timeout p, log))).
Proof.
  unfold plugin_register. rewrite !run_handle_errors.
  rewrite (run_bind (modify_self _)). cbn [modify_self fst snd]. cbv zeta.
  rewrite (run_bind (if bool_decide _ then _ else _)).
  case_bool_decide as Heuid.
  { right. split; [| eexists; reflexivity].
    intros uri_vars (Heuid' & _). contradiction. }
  cbn [mret M_ret].
  rewrite (run_bind (lift _)). unfold lift.
  destruct (uri_parse host uri) as [uri_vars|e] eqn:Hparse; cbv beta iota.
  2: { right. split; [| eexists; reflexivity].
       intros uri_vars (_ & Hparse' & _). congruence. }
  fold supported_plugins. fold (only_of uri_vars).
  fold (ignore_init_error_of uri_vars). fold (requested_of host uri_vars).
  rewrite (run_bind (if _ && _ then _ else _)).
  destruct (py_bool (only_of uri_vars) &&
            negb (bool_decide (only_of uri_vars ∈ supported_plugins))) eqn:Honly.
  { right. split; [| eexists; reflexivity].
    intros uri_vars' (_ & Hparse' & Honly' & _).
    assert (uri_vars' = uri_vars) as -> by congruence.
    apply andb_true_iff in Honly as [Hset Hout].
    apply py_bool_true in Hset. apply negb_true_iff, bool_decide_eq_false in Hout.
    destruct Honly'; contradiction. }
  cbn [mret M_ret].
  rewrite (run_bind (match requested_of host uri_vars with [] => _ | _ => _ end)).
  destruct (requested_of host uri_vars) as [|name requested] eqn:Hreq.
  { right. split; [| eexists; reflexivity].
    intros uri_vars' (_ & Hparse' & _ & Hreq').
    assert (uri_vars' = uri_vars) as -> by congruence.
    contradiction. }
  left. exists uri_vars.
  split; [| rewrite Hreq, run_handle_errors; reflexivity].
  unfold reaches_activation.
  split; [exact Heuid |]. split; [exact Hparse |].
  split; [| rewrite Hreq; discriminate].
  apply andb_false_iff in Honly as [Hempty | Hin].
  - left. apply py_bool_false, Hempty.
  - right. apply negb_false_iff, bool_decide_eq_true in Hin. exact Hin.
Qed.

Lemma plugin_register_run (host : Host) (uri : string)
    (password : option string) (timeout flags : Z) (p : LocalPlugin)
    (log : list Event) (uri_vars : list (string * string)) :
  reaches_activation host uri uri_vars ->
  plugin_register host uri password timeout flags (p, log) =
  _handle_errors
    (open_connections host (ignore_init_error_of uri_vars)
       (build_sub_uri_paras host supported_plugins uri_vars) timeout flags
       (requested_of host uri_vars);;
     build_routing_table host)
    (set__tmo_ms timeout p, log).
Proof.
  intros Hreach.
  destruct (plugin_register_cases host uri password timeout flags p log)
    as [(uri_vars' & (_ & Hparse' & _) & Hrun) | [Hnot _]].
  - destruct Hreach as (_ & Hparse & _).
    rewrite Hparse in Hparse'. injection Hparse' as <-. exact Hrun.
  - destruct (Hnot uri_vars Hreach).
Qed.

Lemma build_routing_table_spec (host : Host) (p : LocalPlugin) (log : list Event) :
  build_routing_table host (p, log) =
  match for_each (conns p) (discover_systems host) (p, log) with
  | (Ok _, (p', log')) =>
      if bool_decide (sys_con_map p' = ∅)
      then (Raise (LsmError NO_SUPPORT "No supported systems found"), (p', log'))
      else (Ok tt, (p', log'))
  | (Raise e, s') => (Raise e, s')
  end.
Proof.
  unfold build_routing_table. rewrite (run_bind get_self). cbn [get_self fst snd].
  rewrite run_bind.
  destruct (for_each _ _ _) as [[[]|e] [p' log']]; [| reflexivity].
  rewrite (run_bind get_self). cbn [get_self fst snd].
  case_bool_decide; reflexivity.
Qed.

(** ** No KeyError: every requested plugin has its list of sub-parameters *)

Lemma foldl_preserves_keys {A} (f : gmap string (list string) -> A ->
                                     gmap string (list string))
    (l : list A) (m : gmap string (list string)) (name : string) :
  (forall m a, is_Some (m !! name) -> is_Some (f m a !! name)) ->
  is_Some (m !! name) -> is_Some (foldl f m l !! name).
Proof.
  intros Hf. revert m. induction l as [|a l IH]; intros m Hm; [exact Hm |].
  cbn. apply IH, Hf, Hm.
Qed.

Lemma sub_uri_paras_add_keys (key value : string)
    (m : gmap string (list string)) (plugin_name name : string) :
  is_Some (m !! name) ->
  is_Some (sub_uri_paras_add key value m plugin_name !! name).
Proof.
  intros Hm. unfold sub_uri_paras_add. destruct (String.prefix _ _); [| exact Hm].
  apply lookup_insert_is_Some'. right. exact Hm.
Qed.

Lemma build_sub_uri_paras_keys (host : Host) (X : gset string)
    (uri_vars : list (string * string)) (name : string) :
  name ∈ X -> is_Some (build_sub_uri_paras host X uri_vars !! name).
Proof.
  intros Hin. unfold build_sub_uri_paras. cbv zeta.
  apply foldl_preserves_keys.
  { intros m kv Hm. apply foldl_preserves_keys; [| exact Hm].
    intros m' plugin_name. apply sub_uri_paras_add_keys. }
  apply (elem_of_set_iter host) in Hin. revert Hin.
  generalize (∅ : gmap string (list string)).
  induction (set_iter host X) as [|n names IH]; intros m Hin.
  - inversion Hin.
  - cbn. apply elem_of_cons in Hin as [-> | Hin].
    + apply foldl_preserves_keys.
      * intros m' a Hm'. apply lookup_insert_is_Some'. right. exact Hm'.
      * rewrite lookup_insert_eq. eauto.
    + apply IH, Hin.
Qed.

Lemma plugin_uri_of_keys (sub_uri_paras : gmap string (list string))
    (name : string) :
  is_Some (sub_uri_paras !! name) ->
  plugin_uri_of sub_uri_paras name = Ok (plugin_uri_or_empty sub_uri_paras name).
Proof.
  intros [paras Hp]. unfold plugin_uri_or_empty, plugin_uri_of. rewrite Hp.
  destruct paras; reflexivity.
Qed.

Lemma probe_kmods_supported (cur_kmods : list string) (name : string) :
  name ∈ probe_kmods cur_kmods -> name ∈ supported_plugins.
Proof.
  unfold probe_kmods, supported_plugins, _KMOD_PLUGIN_MAP.
  rewrite elem_of_list_to_set, !list_elem_of_In. cbn.
  repeat match goal with
         | |- context [bool_decide ?P] => destruct (bool_decide P)
         end; cbn; tauto.
Qed.

Lemma requested_supported (host : Host) (uri_vars : list (string * string))
    (name : string) :
  only_of uri_vars = "" \/ only_of uri_vars ∈ supported_plugins ->
  name ∈ requested_of host uri_vars -> name ∈ supported_plugins.
Proof.
  intros Honly. unfold requested_of.
  destruct (py_bool (only_of uri_vars)) eqn:Hset.
  - apply py_bool_true in Hset. intros ->%list_elem_of_singleton.
    destruct Honly; [contradiction | assumption].
  - unfold probe_plugins. cbv zeta. rewrite elem_of_set_iter, elem_of_list_to_set.
    assert (Ha : "arcconf" ∈ supported_plugins).
    { apply elem_of_list_to_set, list_elem_of_In. cbn. tauto. }
    assert (Hh : "hpsa" ∈ supported_plugins).
    { apply elem_of_list_to_set, list_elem_of_In. cbn. tauto. }
    assert (Hk : forall l, name ∈ probe_kmods (listdir_sys_module host) ++ l ->
                   (forall n, n ∈ l -> n ∈ supported_plugins) ->
                   name ∈ supported_plugins).
    { intros l [Hl | Hl]%elem_of_app Hsub;
        [eapply probe_kmods_supported, Hl | apply Hsub, Hl]. }
    destruct (bool_decide _), (find_arcconf host), (find_sacli host); intros Hin.
    all: try (eapply Hk; [exact Hin |]; intros n ->%list_elem_of_singleton; assumption).
    all: eapply probe_kmods_supported, Hin.
Qed.

Lemma plugin_uri_of_requested (host : Host) (uri_vars : list (string * string))
    (name : string) :
  only_of uri_vars = "" \/ only_of uri_vars ∈ supported_plugins ->
  name ∈ requested_of host uri_vars ->
  plugin_uri_of (build_sub_uri_paras host supported_plugins uri_vars) name =
  Ok (plugin_uri_or_empty (build_sub_uri_paras host supported_plugins uri_vars) name).
Proof.
  intros Honly Hin.
  apply plugin_uri_of_keys, build_sub_uri_paras_keys.
  apply (requested_supported host uri_vars name Honly Hin).
Qed.

(** ** [systems] after registration *)

Lemma systems_spec (flags : Z) (s : State) :
  systems flags s = (Ok (syss (fst s)), s).
Proof. reflexivity. Qed.

Lemma rewrap_result_Ok {A} (r : result A) (a : A) :
  rewrap_result r = Ok a -> r = Ok a.
Proof. destruct r; [auto | discriminate]. Qed.

(** C4, as the code has it. After a successful registration of a fresh
    router, every connection of the connection set has been asked for its
    systems once, in order, and has answered with a list; [systems()]
    returns the plain concatenation of those lists in connection order,
    every report kept, also when an identifier is reported twice.  Only the
    routing table is last-write-wins: an identifier is routed to the last
    connection that reported it. *)
Theorem systems_after_register (host : Host) (uri : string)
    (password : option string) (timeout flags flags' : Z) (log : list Event)
    (p' : LocalPlugin) (log' : list Event) :
  plugin_register host uri password timeout flags (__init__, log) =
    (Ok tt, (p', log')) ->
  exists L : list Event,
    log' = history_at L Systems (conns p') (length (conns p')) /\
    (forall i c, conns p' !! i = Some c ->
       exists l, backend host (history_at L Systems (conns p') i) c Systems = Ok l) /\
    systems flags' (p', log') =
      (Ok (concat (reported host L (conns p'))), (p', log')) /\
    (forall sid, sys_con_map p' !! sid =
                 last_owner (bindings host L (conns p')) sid).
Proof.
  intros Hrun.
  destruct (plugin_register_cases host uri password timeout flags __init__ log)
    as [(uri_vars & _ & Heq) | [_ [e Heq]]]; rewrite Heq in Hrun; [| discriminate].
  clear Heq. rewrite run_handle_errors in Hrun.
  injection Hrun as Hres Hstate. apply rewrap_result_Ok in Hres.
  rewrite run_bind in Hres, Hstate.
  destruct (open_connections_kept host (ignore_init_error_of uri_vars)
              (build_sub_uri_paras host supported_plugins uri_vars) timeout flags
              (requested_of host uri_vars) (set__tmo_ms timeout __init__) log)
    as (cs & Hconns & Hsyss & Hmap & _).
  destruct (open_connections _ _ _ _ _ _ _) as [[[]|e] [p1 L]];
    [| discriminate].
  cbn [fst snd set__tmo_ms __init__ conns syss sys_con_map] in *.
  rewrite build_routing_table_spec in Hres, Hstate.
  destruct (discover_loop_cases host (conns p1) p1 L)
    as [[Hall Hloop] | (j & c & e & _ & _ & Hraise)].
  2: { destruct (for_each _ _ _) as [[[]|e'] [p2 L2]]; discriminate. }
  rewrite Hloop in Hres, Hstate.
  destruct (record_systems_fields p1 (bindings host L (conns p1)))
    as (_ & Hc & Hs & _).
  case_bool_decide as Hempty; [discriminate |].
  injection Hstate as <- <-. rewrite Hc. exists L.
  split; [reflexivity |]. split; [exact Hall |]. split.
  - rewrite systems_spec. cbn [fst]. rewrite Hs, Hsyss, bindings_reported.
    reflexivity.
  - intros sid. rewrite record_systems_lookup, Hmap, lookup_empty.
    destruct (last_owner _ _); reflexivity.
Qed.

Lemma systems_after_register_witness :
  let host := scripted_host clash in
  let p' := {| _tmo_ms := 3000; conns := [0; 1]%nat;
               syss := [{| sys_id := "ctrl-0"; sys_name := "MegaRAID 9361" |};
                        {| sys_id := "ctrl-0"; sys_name := "Smart Array P440" |}];
               sys_con_map := <["ctrl-0" := 1%nat]> ∅;
               unregistered := false; nfs_conn := None |} in
  let log' := [EvOpen "megaraid://" 3000 0; EvOpen "hpsa://" 3000 0;
               EvCall 0%nat Systems; EvCall 1%nat Systems] in
  plugin_register host "local://" None 3000 0 (__init__, []) = (Ok tt, (p', log')) /\
  exists L : list Event,
    log' = history_at L Systems (conns p') (length (conns p')) /\
    (forall i c, conns p' !! i = Some c ->
       exists l, backend host (history_at L Systems (conns p') i) c Systems = Ok l) /\
    systems 0 (p', log') =
      (Ok (concat (reported host L (conns p'))), (p', log')) /\
    (forall sid, sys_con_map p' !! sid =
                 last_owner (bindings host L (conns p')) sid).
Proof.
  cbv zeta.
  assert (Hrun : plugin_register (scripted_host clash) "local://" None 3000 0
                   (__init__, []) =
                 (Ok tt,
                  ({| _tmo_ms := 3000; conns := [0; 1]%nat;
                      syss := [{| sys_id := "ctrl-0"; sys_name := "MegaRAID 9361" |};
                               {| sys_id := "ctrl-0"; sys_name := "Smart Array P440" |}];
                      sys_con_map := <["ctrl-0" := 1%nat]> ∅;
                      unregistered := false; nfs_conn := None |},
                   [EvOpen "megaraid://" 3000 0; EvOpen "hpsa://" 3000 0;
                    EvCall 0%nat Systems; EvCall 1%nat Systems])))
    by (vm_compute; reflexivity).
  split; [exact Hrun |].
  exact (systems_after_register (scripted_host clash) "local://" None 3000 0 0
           [] _ _ Hrun).
Defined.

(** C4 as stated fails: two connections report the identifier "ctrl-0", and
    [systems()] returns both reports, the earlier connection's as well; it
    is not the union with the later report overwriting the earlier. *)
Lemma systems_keeps_overwritten_report :
  let s := snd (plugin_register (scripted_host clash) "local://" None 3000 0
                  (__init__, [])) in
  let both := [{| sys_id := "ctrl-0"; sys_name := "MegaRAID 9361" |};
               {| sys_id := "ctrl-0"; sys_name := "Smart Array P440" |}] in
  fst (plugin_register (scripted_host clash) "local://" None 3000 0
         (__init__, [])) = Ok tt /\
  fst (systems 0 s) = Ok both /\
  last_write_wins both = [{| sys_id := "ctrl-0"; sys_name := "Smart Array P440" |}] /\
  fst (systems 0 s) ≠ Ok (last_write_wins both) /\
  sys_con_map (fst s) !! "ctrl-0" = Some 1%nat.
Proof.
  cbv zeta. split; [vm_compute; reflexivity |].
  split; [vm_compute; reflexivity |].
  split; [vm_compute; reflexivity |].
  split; [vm_compute; discriminate | vm_compute; reflexivity].
Qed.

(** ** A failing open during registration *)

Lemma discover_loop_conns (host : Host) (cs : list conn) (p : LocalPlugin)
    (log : list Event) :
  conns (fst (snd (for_each cs (discover_systems host) (p, log)))) = conns p.
Proof.
  revert p log. induction cs as [|c cs IH]; intros p log; [reflexivity |].
  cbn [for_each]. rewrite run_bind, discover_systems_spec.
  destruct (backend host log c Systems) as [l|e]; [| reflexivity].
  rewrite IH. apply record_systems_fields.
Qed.

Lemma build_routing_table_conns (host : Host) (p : LocalPlugin) (log : list Event) :
  conns (fst (snd (build_routing_table host (p, log)))) = conns p.
Proof.
  rewrite build_routing_table_spec.
  pose proof (discover_loop_conns host (conns p) p log) as Hc.
  destruct (for_each _ _ _) as [[[]|e] [p' log']]; cbn in Hc |- *;
    [case_bool_decide |]; exact Hc.
Qed.

(** C1, as the code has it.  A registration of a fresh router reaches the
    activation loop, and exactly one open, the [j]-th, fails, with a domain
    error.  (1) When the flag computed from the [ignore_init_error]
    parameter is false, [plugin_register] raises that error at once; the
    connections opened before stay in the connection set and no teardown is
    made: the history holds the opens up to the failed one and nothing
    else.  (2) When the flag is true, every other target is opened and the
    connection set holds exactly their connections, in activation order;
    provided their [systems()] calls return, registration succeeds when they
    report at least one system and fails with NO_SUPPORT when they report
    none. *)
Theorem register_open_failure (host : Host) (uri : string)
    (password : option string) (timeout flags : Z) (log : list Event)
    (uri_vars : list (string * string)) (j : nat) (u : string)
    (code : ErrorNumber) (msg : string) :
  reaches_activation host uri uri_vars ->
  let uris := uris_of host uri_vars in
  uris !! j = Some u ->
  (forall i u', i ≠ j -> uris !! i = Some u' ->
     client_open host (open_history log timeout flags uris i) u' timeout flags = None) ->
  client_open host (open_history log timeout flags uris j) u timeout flags =
    Some (LsmError code msg) ->
  let run := plugin_register host uri password timeout flags (__init__, log) in
  (ignore_init_error_of uri_vars = false ->
   fst run = Raise (LsmError code msg) /\
   conns (fst (snd run)) = seq (length log) j /\
   snd (snd run) = open_history log timeout flags uris (S j)) /\
  (ignore_init_error_of uri_vars = true ->
   let cs := seq (length log) j ++ seq (length log + S j) (length uris - S j) in
   let L := open_history log timeout flags uris (length uris) in
   conns (fst (snd run)) = cs /\
   ((forall i c, cs !! i = Some c ->
       exists l, backend host (history_at L Systems cs i) c Systems = Ok l) ->
    snd (snd run) = history_at L Systems cs (length cs) /\
    (concat (reported host L cs) ≠ [] -> fst run = Ok tt) /\
    (concat (reported host L cs) = [] ->
     fst run = Raise (LsmError NO_SUPPORT "No supported systems found")))).
Proof.
  intros Hreach uris Hj Hothers Hfail run. subst run uris.
  rewrite (plugin_register_run host uri password timeout flags __init__ log
             uri_vars Hreach).
  rewrite run_handle_errors, run_bind. unfold uris_of in *.
  rewrite length_fmap.
  assert (Huri : forall name, name ∈ requested_of host uri_vars ->
            plugin_uri_of (build_sub_uri_paras host supported_plugins uri_vars) name =
            Ok (plugin_uri_or_empty
                  (build_sub_uri_paras host supported_plugins uri_vars) name)).
  { intros name. apply plugin_uri_of_requested. apply Hreach. }
  split.
  - intros Hflag.
    destruct (open_abort host (ignore_init_error_of uri_vars) _ timeout flags
                (requested_of host uri_vars) (set__tmo_ms timeout __init__) log
                j u (LsmError code msg) Huri Hj) as (p1 & Hrun & Hkept & _).
    + intros i u' Hi. apply Hothers. lia.
    + exact Hfail.
    + rewrite Hflag. reflexivity.
    + rewrite Hrun. cbn [fst snd rewrap_result rewrap]. rewrite Hkept.
      repeat split.
  - intros Hflag. cbv zeta.
    destruct (open_skip host (ignore_init_error_of uri_vars) _ timeout flags
                (requested_of host uri_vars) (set__tmo_ms timeout __init__) log
                j u code msg Hflag Huri Hj Hothers Hfail)
      as (p1 & Hrun & Hconns & Hsyss & Hmap & _).
    rewrite Hrun. cbv beta iota. cbn [fst snd].
    cbn [conns syss sys_con_map set__tmo_ms __init__ app] in *.
    split.
    + rewrite build_routing_table_conns. exact Hconns.
    + rewrite <- Hconns. intros Hall.
      rewrite build_routing_table_spec.
      destruct (discover_loop_cases host (conns p1) p1
                  (open_history log timeout flags
                     (plugin_uri_or_empty
                        (build_sub_uri_paras host supported_plugins uri_vars)
                        <$> requested_of host uri_vars)
                     (length (requested_of host uri_vars))))
        as [[_ Hloop] | (i & c & e & Hi & Hraise & _)].
      2: { destruct (Hall i c Hi) as [l Hl]. congruence. }
      rewrite Hloop.
      pose proof (record_systems_empty p1 (bindings host
                    (open_history log timeout flags
                       (plugin_uri_or_empty
                          (build_sub_uri_paras host supported_plugins uri_vars)
                          <$> requested_of host uri_vars)
                       (length (requested_of host uri_vars))) (conns p1)))
        as Hempty.
      rewrite <- bindings_reported.
      case_bool_decide as Hdec; cbn [fst snd rewrap_result rewrap].
      * apply Hempty in Hdec as [_ ->].
        split; [reflexivity |]. split; [intros H; destruct (H eq_refl) | reflexivity].
      * split; [reflexivity |]. split; [reflexivity |].
        intros Hnil%fmap_nil_inv. destruct Hdec. apply Hempty. auto.
Qed.

Lemma register_open_failure_witness :
  (let host := scripted_host (hpsa_fails [("ignore_init_error", "")] [sysB]) in
   let run := plugin_register host "local://?ignore_init_error=" None 3000 0
                (__init__, []) in
   ignore_init_error_of [("ignore_init_error", "")] = false /\
   fst run = Raise (LsmError INVALID_ARGUMENT "hpssacli is not installed correctly") /\
   conns (fst (snd run)) = [0%nat] /\
   snd (snd run) = [EvOpen "megaraid://" 3000 0; EvOpen "hpsa://" 3000 0]) /\
  (let host := scripted_host (hpsa_fails [("ignore_init_error", "true")] [sysB]) in
   let run := plugin_register host "local://?ignore_init_error=true" None 3000 0
                (__init__, []) in
   ignore_init_error_of [("ignore_init_error", "true")] = true /\
   conns (fst (snd run)) = [0%nat] /\
   snd (snd run) = [EvOpen "megaraid://" 3000 0; EvOpen "hpsa://" 3000 0;
                    EvCall 0%nat Systems] /\
   fst run = Ok tt).
Proof.
  assert (Hreach : forall v uri,
            reaches_activation
              (scripted_host (hpsa_fails [("ignore_init_error", v)] [sysB]))
              uri [("ignore_init_error", v)]).
  { intros v uri. repeat split; [left; reflexivity | vm_compute; discriminate]. }
  assert (Huris : forall v,
            uris_of (scripted_host (hpsa_fails [("ignore_init_error", v)] [sysB]))
              [("ignore_init_error", v)] = ["megaraid://"; "hpsa://"]).
  { intros v. unfold uris_of, requested_of.
    change (only_of [("ignore_init_error", v)]) with "".
    vm_compute. reflexivity. }
  assert (Hothers : forall v (i : nat) (u' : string), i ≠ 1%nat ->
            ["megaraid://"; "hpsa://"] !! i = Some u' ->
            client_open
              (scripted_host (hpsa_fails [("ignore_init_error", v)] [sysB]))
              (open_history [] 3000 0 ["megaraid://"; "hpsa://"] i) u' 3000 0 = None).
  { intros v [|[|i]] u' Hi Hu'; [injection Hu' as <-; reflexivity | lia | discriminate]. }
  split; cbv zeta.
  - split; [reflexivity |].
    pose proof (register_open_failure
                  (scripted_host (hpsa_fails [("ignore_init_error", "")] [sysB]))
                  "local://?ignore_init_error=" None 3000 0 []
                  [("ignore_init_error", "")] 1 "hpsa://" INVALID_ARGUMENT
                  "hpssacli is not installed correctly" (Hreach "" _)) as H.
    cbv zeta in H. rewrite Huris in H.
    exact (proj1 (H eq_refl (Hothers "") eq_refl) eq_refl).
  - split; [reflexivity |].
    pose proof (register_open_failure
                  (scripted_host (hpsa_fails [("ignore_init_error", "true")] [sysB]))
                  "local://?ignore_init_error=true" None 3000 0 []
                  [("ignore_init_error", "true")] 1 "hpsa://" INVALID_ARGUMENT
                  "hpssacli is not installed correctly" (Hreach "true" _)) as H.
    cbv zeta in H. rewrite Huris in H.
    destruct (proj2 (H eq_refl (Hothers "true") eq_refl) eq_refl) as [Hconns Hrest].
    split; [exact Hconns |].
    destruct Hrest as (Hlog & Hok & _).
    + intros [|i] c Hi; [injection Hi as <-; eexists; reflexivity | discriminate].
    + split; [exact Hlog | apply Hok; discriminate].
Defined.

(** The flag is the truth value of a string: only the empty string is
    false, so an absent parameter, which defaults to "false", gives true. *)
Remark ignore_init_error_default :
  ignore_init_error_of [] = true /\
  ignore_init_error_of [("ignore_init_error", "false")] = true /\
  ignore_init_error_of [("ignore_init_error", "")] = false.
Proof. repeat split. Qed.

(** C1 as stated fails.  With the option set and the hpsa open failing, the
    megaraid backend is opened alone and reports no system: registration
    does not succeed, it raises NO_SUPPORT.  And when registration aborts on
    the failed open (flag false), the megaraid connection opened before is
    still in the connection set, with no teardown in the history. *)
Lemma register_open_failure_counterexample :
  (let host := scripted_host (hpsa_fails [("ignore_init_error", "true")] []) in
   let run := plugin_register host "local://?ignore_init_error=true" None 3000 0
                (__init__, []) in
   ignore_init_error_of [("ignore_init_error", "true")] = true /\
   client_open host [EvOpen "megaraid://" 3000 0] "hpsa://" 3000 0 =
     Some (LsmError INVALID_ARGUMENT "hpssacli is not installed correctly") /\
   run = (Raise (LsmError NO_SUPPORT "No supported systems found"),
          ({| _tmo_ms := 3000; conns := [0%nat]; syss := []; sys_con_map := ∅;
              unregistered := false; nfs_conn := None |},
           [EvOpen "megaraid://" 3000 0; EvOpen "hpsa://" 3000 0;
            EvCall 0%nat Systems]))) /\
  (let host := scripted_host (hpsa_fails [("ignore_init_error", "")] [sysB]) in
   let run := plugin_register host "local://?ignore_init_error=" None 3000 0
                (__init__, []) in
   fst run = Raise (LsmError INVALID_ARGUMENT "hpssacli is not installed correctly") /\
   conns (fst (snd run)) = [0%nat] /\
   snd (snd run) = [EvOpen "megaraid://" 3000 0; EvOpen "hpsa://" 3000 0]).
Proof.
  cbv zeta. repeat split; vm_compute; reflexivity.
Qed.

(** * Further properties of the router *)

(** ** The checks of [plugin_register] before the first open *)

Lemma plugin_register_unfold (host : Host) (uri : string)
    (password : option string) (timeout flags : Z) (p : LocalPlugin)
    (log : list Event) :
  plugin_register host uri password timeout flags (p, log) =
  let s0 := (set__tmo_ms timeout p, log) in
  if bool_decide (geteuid host ≠ 0%Z) then
    (Raise (LsmError INVALID_ARGUMENT
              "This plugin requires root privilege both daemon and client"), s0)
  else
    match uri_parse host uri with
    | Raise e => (Raise (rewrap e), s0)
    | Ok uri_vars =>
        if py_bool (only_of uri_vars) &&
           negb (bool_decide (only_of uri_vars ∈ supported_plugins))
        then (Raise (LsmError INVALID_ARGUMENT
                       ("Plugin defined in only=" +:+ only_of uri_vars +:+
                        " is not supported")), s0)
        else
          match requested_of host uri_vars with
          | [] => (Raise (LsmError NO_SUPPORT "No supported hardware found"), s0)
          | _ :: _ =>
              _handle_errors
                (open_connections host (ignore_init_error_of uri_vars)
                   (build_sub_uri_paras host supported_plugins uri_vars)
                   timeout flags (requested_of host uri_vars);;
                 build_routing_table host) s0
          end
    end.
Proof.
  unfold plugin_register. rewrite !run_handle_errors.
  rewrite (run_bind (modify_self _)). cbn [modify_self fst snd]. cbv zeta.
  rewrite (run_bind (if bool_decide _ then _ else _)).
  destruct (bool_decide (geteuid host ≠ 0%Z)); [reflexivity |].
  cbn [mret M_ret].
  rewrite (run_bind (lift _)). unfold lift.
  destruct (uri_parse host uri) as [uri_vars|e]; cbv beta iota; [| reflexivity].
  fold supported_plugins. fold (only_of uri_vars).
  fold (ignore_init_error_of uri_vars). fold (requested_of host uri_vars).
  rewrite (run_bind (if _ && _ then _ else _)).
  destruct (py_bool (only_of uri_vars) &&
            negb (bool_decide (only_of uri_vars ∈ supported_plugins)));
    [reflexivity |].
  cbn [mret M_ret].
  rewrite (run_bind (match requested_of host uri_vars with [] => _ | _ => _ end)).
  destruct (requested_of host uri_vars) as [|name requested]; [reflexivity |].
  rewrite run_handle_errors. reflexivity.
Qed.

Lemma elem_of_supported_plugins (name : string) :
  name ∈ supported_plugins <-> name ∈ ["megaraid"; "hpsa"; "arcconf"; "nfs"].
Proof. unfold supported_plugins. rewrite elem_of_list_to_set. reflexivity. Qed.

(** X1. Without root privilege [plugin_register] raises INVALID_ARGUMENT
    before it parses the URI and before any open: the history is unchanged,
    whatever the URI and the hardware.  The timeout is stored all the same. *)
Theorem register_requires_root (host : Host) (uri : string)
    (password : option string) (timeout flags : Z) (p : LocalPlugin)
    (log : list Event) :
  geteuid host ≠ 0%Z ->
  plugin_register host uri password timeout flags (p, log) =
  (Raise (LsmError INVALID_ARGUMENT
            "This plugin requires root privilege both daemon and client"),
   (set__tmo_ms timeout p, log)).
Proof.
  intros Heuid. rewrite plugin_register_unfold. cbv zeta.
  rewrite bool_decide_eq_true_2 by exact Heuid. reflexivity.
Qed.

Lemma register_requires_root_witness :
  geteuid (unprivileged (scripted_host mixed)) ≠ 0%Z /\
  plugin_register (unprivileged (scripted_host mixed)) "local://" None 5000 0
    (__init__, []) =
  (Raise (LsmError INVALID_ARGUMENT
            "This plugin requires root privilege both daemon and client"),
   (set__tmo_ms 5000 __init__, [])).
Proof.
  split; [discriminate |]. apply register_requires_root. discriminate.
Defined.

(** X2. An [only=] parameter that names none of the four plugins makes
    [plugin_register] raise INVALID_ARGUMENT with the name in the message;
    the kernel modules are not looked at and nothing is opened. *)
Theorem register_only_unsupported (host : Host) (uri : string)
    (password : option string) (timeout flags : Z) (p : LocalPlugin)
    (log : list Event) (uri_vars : list (string * string)) :
  geteuid host = 0%Z ->
  uri_parse host uri = Ok uri_vars ->
  only_of uri_vars ≠ "" ->
  only_of uri_vars ∉ ["megaraid"; "hpsa"; "arcconf"; "nfs"] ->
  plugin_register host uri password timeout flags (p, log) =
  (Raise (LsmError INVALID_ARGUMENT
            ("Plugin defined in only=" +:+ only_of uri_vars +:+ " is not supported")),
   (set__tmo_ms timeout p, log)).
Proof.
  intros Heuid Hparse Hset Hout. rewrite plugin_register_unfold. cbv zeta.
  rewrite bool_decide_eq_false_2 by (intros H; apply H, Heuid).
  rewrite Hparse.
  rewrite (proj2 (py_bool_true _) Hset).
  rewrite bool_decide_eq_false_2
    by (intros H; apply Hout, elem_of_supported_plugins, H).
  reflexivity.
Qed.

Lemma register_only_unsupported_witness :
  let host := scripted_host (with_uri_vars [("only", "sim")] mixed) in
  geteuid host = 0%Z /\
  uri_parse host "local://?only=sim" = Ok [("only", "sim")] /\
  only_of [("only", "sim")] ≠ "" /\
  (only_of [("only", "sim")] ∉ ["megaraid"; "hpsa"; "arcconf"; "nfs"]) /\
  plugin_register host "local://?only=sim" None 3000 0 (__init__, []) =
  (Raise (LsmError INVALID_ARGUMENT "Plugin defined in only=sim is not supported"),
   (set__tmo_ms 3000 __init__, [])).
Proof.
  cbv zeta.
  assert (Hset : only_of [("only", "sim")] ≠ "") by discriminate.
  assert (Hout : only_of [("only", "sim")] ∉ ["megaraid"; "hpsa"; "arcconf"; "nfs"]).
  { rewrite list_elem_of_In. cbn. intros [H|[H|[H|[H|[]]]]]; discriminate. }
  split; [reflexivity |]. split; [reflexivity |].
  split; [exact Hset |]. split; [exact Hout |].
  exact (register_only_unsupported
           (scripted_host (with_uri_vars [("only", "sim")] mixed))
           "local://?only=sim" None 3000 0 __init__ [] [("only", "sim")]
           eq_refl eq_refl Hset Hout).
Defined.

(** ** Probing the kernel modules *)

Lemma elem_of_probe_fold (cur_kmods : list string) (table : list (string * string))
    (acc : list string) (name : string) :
  name ∈ foldl (fun requested_plugins kp =>
                  if bool_decide (fst kp ∈ cur_kmods)
                  then requested_plugins ++ [snd kp] else requested_plugins)
               acc table <->
  name ∈ acc \/ exists kmod, (kmod, name) ∈ table /\ kmod ∈ cur_kmods.
Proof.
  revert acc. induction table as [|[kmod0 name0] table IH]; intros acc.
  - cbn. split; [auto |]. intros [H | (kmod & H & _)]; [exact H | inversion H].
  - cbn [foldl fst snd]. rewrite IH. case_bool_decide as Hin.
    + rewrite elem_of_app, list_elem_of_singleton. split.
      * intros [[H | ->] | (kmod & H & Hk)]; [auto | |].
        -- right. exists kmod0. split; [left | exact Hin].
        -- right. exists kmod. split; [right; exact H | exact Hk].
      * intros [H | (kmod & H & Hk)]; [auto |].
        apply elem_of_cons in H as [[= -> ->] | H]; [auto |].
        right. exists kmod. auto.
    + split.
      * intros [H | (kmod & H & Hk)]; [auto |].
        right. exists kmod. split; [right; exact H | exact Hk].
      * intros [H | (kmod & H & Hk)]; [auto |].
        apply elem_of_cons in H as [[= -> ->] | H]; [contradiction |].
        right. exists kmod. auto.
Qed.

Lemma elem_of_probe_kmods (cur_kmods : list string) (name : string) :
  name ∈ probe_kmods cur_kmods <->
  exists kmod, (kmod, name) ∈ _KMOD_PLUGIN_MAP /\ kmod ∈ cur_kmods.
Proof.
  unfold probe_kmods. rewrite elem_of_probe_fold. split.
  - intros [H | H]; [inversion H | exact H].
  - auto.
Qed.

(** X3. Without the smartpqi module, probing selects exactly the plugins
    that the kernel module table gives for the modules loaded. *)
Theorem probe_without_smartpqi (host : Host) (name : string) :
  "smartpqi" ∉ listdir_sys_module host ->
  (name ∈ probe_plugins host <->
   exists kmod, (kmod, name) ∈ _KMOD_PLUGIN_MAP /\ kmod ∈ listdir_sys_module host).
Proof.
  intros Hpqi. unfold probe_plugins. cbv zeta.
  rewrite bool_decide_eq_false_2 by exact Hpqi.
  rewrite elem_of_set_iter, elem_of_list_to_set. apply elem_of_probe_kmods.
Qed.

Lemma probe_without_smartpqi_witness :
  ("smartpqi" ∉ listdir_sys_module (scripted_host mixed)) /\
  ("megaraid" ∈ probe_plugins (scripted_host mixed) <->
   exists kmod, (kmod, "megaraid") ∈ _KMOD_PLUGIN_MAP /\
                kmod ∈ listdir_sys_module (scripted_host mixed)).
Proof.
  assert (H : "smartpqi" ∉ listdir_sys_module (scripted_host mixed)).
  { rewrite list_elem_of_In. cbn. intros [H|[H|[]]]; discriminate. }
  split; [exact H | exact (probe_without_smartpqi (scripted_host mixed) "megaraid" H)].
Defined.

(** X4. No plugin is requested twice: the plugins of a registration are
    pairwise different, whichever kernel modules are loaded (aacraid and
    smartpqi together ask for arcconf once). *)
Theorem requested_NoDup (host : Host) (uri_vars : list (string * string)) :
  NoDup (requested_of host uri_vars).
Proof.
  unfold requested_of. destruct (py_bool (only_of uri_vars)).
  - apply NoDup_singleton.
  - unfold probe_plugins. cbv zeta. rewrite set_iter_perm. apply NoDup_elements.
Qed.

Lemma probe_plugins_nil (host : Host) :
  probe_plugins host = [] <->
  forall kmod, kmod ∈ known_kmods -> kmod ∉ listdir_sys_module host.
Proof.
  split.
  - intros Hnil kmod Hk Hin.
    assert (Hex : exists name, name ∈ probe_plugins host).
    { unfold probe_plugins. cbv zeta. apply elem_of_cons in Hk as [-> | Hk].
      - rewrite bool_decide_eq_true_2 by exact Hin.
        destruct (find_arcconf host), (find_sacli host);
          eexists; apply elem_of_set_iter, elem_of_list_to_set, elem_of_app;
          right; apply list_elem_of_singleton; reflexivity.
      - apply list_elem_of_fmap in Hk as ([kmod' name] & -> & Hk).
        exists name. apply elem_of_set_iter, elem_of_list_to_set.
        assert (Hp : name ∈ probe_kmods (listdir_sys_module host)).
        { apply elem_of_probe_kmods. exists kmod'. auto. }
        destruct (bool_decide _); [| exact Hp].
        destruct (find_arcconf host), (find_sacli host);
          apply elem_of_app; left; exact Hp. }
    destruct Hex as [name Hname]. rewrite Hnil in Hname. inversion Hname.
  - intros Hnone. unfold probe_plugins. cbv zeta.
    rewrite bool_decide_eq_false_2 by (apply Hnone; left).
    assert (Hk : probe_kmods (listdir_sys_module host) = []).
    { destruct (probe_kmods (listdir_sys_module host)) as [|name l] eqn:Hl;
        [reflexivity |].
      assert (Hin : name ∈ probe_kmods (listdir_sys_module host))
        by (rewrite Hl; left).
      apply elem_of_probe_kmods in Hin as (kmod & Hmap & Hin).
      destruct (Hnone kmod); [| exact Hin].
      right. apply list_elem_of_fmap. exists (kmod, name). auto. }
    rewrite Hk. apply Permutation_nil_r. rewrite set_iter_perm.
    cbn. rewrite elements_empty. reflexivity.
Qed.

(** X5. With no [only=] parameter and none of the five kernel modules
    loaded, [plugin_register] raises NO_SUPPORT "No supported hardware
    found" and opens nothing. *)
Theorem register_no_hardware (host : Host) (uri : string)
    (password : option string) (timeout flags : Z) (p : LocalPlugin)
    (log : list Event) (uri_vars : list (string * string)) :
  geteuid host = 0%Z ->
  uri_parse host uri = Ok uri_vars ->
  only_of uri_vars = "" ->
  (forall kmod, kmod ∈ ["smartpqi"; "megaraid_sas"; "hpsa"; "aacraid"; "nfsd"] ->
                kmod ∉ listdir_sys_module host) ->
  plugin_register host uri password timeout flags (p, log) =
  (Raise (LsmError NO_SUPPORT "No supported hardware found"),
   (set__tmo_ms timeout p, log)).
Proof.
  intros Heuid Hparse Honly Hnone. rewrite plugin_register_unfold. cbv zeta.
  rewrite bool_decide_eq_false_2 by (intros H; apply H, Heuid).
  rewrite Hparse. unfold requested_of.
  rewrite (proj2 (py_bool_false _) Honly). cbn [andb].
  rewrite (proj2 (probe_plugins_nil host) Hnone). reflexivity.
Qed.

Lemma register_no_hardware_witness :
  let host := scripted_host quiet in
  geteuid host = 0%Z /\
  uri_parse host "local://" = Ok [] /\
  only_of [] = "" /\
  (forall kmod, kmod ∈ ["smartpqi"; "megaraid_sas"; "hpsa"; "aacraid"; "nfsd"] ->
                kmod ∉ listdir_sys_module host) /\
  plugin_register host "local://" None 3000 0 (__init__, []) =
  (Raise (LsmError NO_SUPPORT "No supported hardware found"),
   (set__tmo_ms 3000 __init__, [])).
Proof.
  cbv zeta.
  assert (Hnone : forall kmod,
            kmod ∈ ["smartpqi"; "megaraid_sas"; "hpsa"; "aacraid"; "nfsd"] ->
            kmod ∉ listdir_sys_module (scripted_host quiet)).
  { intros kmod _ H. inversion H. }
  split; [reflexivity |]. split; [reflexivity |].
  split; [reflexivity |]. split; [exact Hnone |].
  exact (register_no_hardware (scripted_host quiet) "local://" None 3000 0
           __init__ [] [] eq_refl eq_refl eq_refl Hnone).
Defined.

(** ** Sub-parameters of the URI *)

Lemma string_app_cons (x : Ascii.ascii) (a b : string) :
  String x a +:+ b = String x (a +:+ b).
Proof. reflexivity. Qed.

Lemma string_app_assoc (a b c : string) : (a +:+ b) +:+ c = a +:+ (b +:+ c).
Proof.
  induction a as [|x a IH]; [reflexivity |].
  rewrite !string_app_cons, IH. reflexivity.
Qed.

Lemma string_prefix_app (pre rest : string) : String.prefix pre (pre +:+ rest) = true.
Proof.
  induction pre as [|x pre IH]; [destruct rest; reflexivity |].
  rewrite string_app_cons. cbn [String.prefix].
  destruct (Ascii.ascii_dec x x); [exact IH | contradiction].
Qed.

Lemma substring_all (s : string) : substring 0 (String.length s) s = s.
Proof.
  induction s as [|x s IH]; [reflexivity |].
  cbn [String.length substring]. rewrite IH. reflexivity.
Qed.

Lemma strip_app (pre rest : string) :
  substring (String.length pre)
    (String.length (pre +:+ rest) - String.length pre) (pre +:+ rest) = rest.
Proof.
  induction pre as [|x pre IH].
  - change ("" +:+ rest) with rest. cbn [String.length].
    rewrite Nat.sub_0_r. apply substring_all.
  - rewrite string_app_cons. cbn [String.length substring Nat.sub]. exact IH.
Qed.

Lemma app_strip (pre key : string) :
  String.prefix pre key = true ->
  pre +:+ substring (String.length pre)
            (String.length key - String.length pre) key = key.
Proof.
  revert key. induction pre as [|x pre IH]; intros key Hpre.
  - cbn [String.length]. rewrite Nat.sub_0_r, substring_all. reflexivity.
  - destruct key as [|y key]; [discriminate |].
    cbn [String.prefix] in Hpre.
    destruct (Ascii.ascii_dec x y) as [->|]; [| discriminate].
    cbn [String.length substring Nat.sub]. rewrite string_app_cons.
    rewrite (IH key Hpre). reflexivity.
Qed.

Lemma sub_uri_paras_add_lookup (key value : string)
    (m : gmap string (list string)) (plugin_name name : string) :
  sub_uri_paras_add key value m plugin_name !! name =
  if decide (name = plugin_name) then
    match sub_para name (key, value) with
    | Some para => Some ((m !!! name) ++ [para])
    | None => m !! name
    end
  else m !! name.
Proof.
  unfold sub_uri_paras_add, sub_para. cbn [fst snd].
  destruct (decide (name = plugin_name)) as [->|Hne].
  - destruct (String.prefix _ _); [apply lookup_insert_eq | reflexivity].
  - destruct (String.prefix _ _); [| reflexivity].
    apply lookup_insert_ne. congruence.
Qed.

Lemma sub_uri_paras_init_lookup (names : list string)
    (m : gmap string (list string)) (name : string) :
  foldl (fun m plugin_name => <[plugin_name := []]> m) m names !! name =
  if decide (name ∈ names) then Some [] else m !! name.
Proof.
  revert m. induction names as [|n names IH]; intros m.
  - cbn. destruct (decide _) as [H|]; [inversion H | reflexivity].
  - cbn [foldl]. rewrite IH.
    destruct (decide (name ∈ names)) as [Hin|Hout].
    + rewrite decide_True by (right; exact Hin). reflexivity.
    + destruct (decide (name = n)) as [->|Hne].
      * rewrite lookup_insert_eq, decide_True by left. reflexivity.
      * rewrite lookup_insert_ne by congruence.
        rewrite decide_False; [reflexivity |].
        intros [?|?]%elem_of_cons; contradiction.
Qed.

(** One URI parameter, over all plugin names: every name is visited once. *)
Lemma sub_uri_paras_turn (key value : string) (names : list string)
    (m : gmap string (list string)) (name : string) :
  NoDup names ->
  foldl (sub_uri_paras_add key value) m names !! name =
  if decide (name ∈ names) then
    match sub_para name (key, value) with
    | Some para => Some ((m !!! name) ++ [para])
    | None => m !! name
    end
  else m !! name.
Proof.
  intros Hnodup. revert m.
  induction Hnodup as [|n names Hn Hnodup IH]; intros m.
  - cbn. destruct (decide _) as [H|]; [inversion H | reflexivity].
  - cbn [foldl]. rewrite IH.
    assert (Htot : forall n', n' ≠ n ->
              sub_uri_paras_add key value m n !!! n' = m !!! n').
    { intros n' Hne. rewrite !lookup_total_alt, sub_uri_paras_add_lookup.
      rewrite decide_False by exact Hne. reflexivity. }
    destruct (decide (name ∈ names)) as [Hin|Hout].
    + assert (Hne : name ≠ n) by (intros ->; contradiction).
      rewrite decide_True by (right; exact Hin).
      rewrite (Htot name Hne), sub_uri_paras_add_lookup.
      rewrite decide_False by exact Hne. reflexivity.
    + rewrite sub_uri_paras_add_lookup.
      destruct (decide (name = n)) as [->|Hne].
      * rewrite decide_True by left. reflexivity.
      * rewrite decide_False; [reflexivity |].
        intros [?|?]%elem_of_cons; contradiction.
Qed.

Lemma build_sub_uri_paras_lookup (host : Host) (X : gset string)
    (uri_vars : list (string * string)) (name : string) :
  build_sub_uri_paras host X uri_vars !! name =
  if decide (name ∈ X) then Some (omap (sub_para name) uri_vars) else None.
Proof.
  unfold build_sub_uri_paras. cbv zeta.
  assert (Hnodup : NoDup (set_iter host X))
    by (rewrite set_iter_perm; apply NoDup_elements).
  pose proof (sub_uri_paras_init_lookup (set_iter host X) ∅ name) as Hinit.
  rewrite lookup_empty in Hinit. revert Hinit.
  generalize (foldl (fun m plugin_name => <[plugin_name := []]> m)
                (∅ : gmap string (list string)) (set_iter host X)).
  destruct (decide (name ∈ X)) as [Hin|Hout].
  - rewrite decide_True by (apply elem_of_set_iter, Hin).
    change (omap (sub_para name) uri_vars)
      with ([] ++ omap (sub_para name) uri_vars).
    generalize (@nil string).
    induction uri_vars as [|[key value] uri_vars IH]; intros l m Hm.
    + cbn. rewrite Hm, app_nil_r. reflexivity.
    + cbn [foldl fst snd omap list_omap].
      pose proof (sub_uri_paras_turn key value (set_iter host X) m name Hnodup)
        as Hturn.
      rewrite decide_True in Hturn by (apply elem_of_set_iter, Hin).
      rewrite (lookup_total_correct _ _ _ Hm) in Hturn.
      destruct (sub_para name (key, value)) as [para|].
      * rewrite (IH (l ++ [para]) _ Hturn), <- app_assoc. reflexivity.
      * rewrite (IH l _ (eq_trans Hturn Hm)). reflexivity.
  - rewrite decide_False by (intros H; apply Hout, (elem_of_set_iter host), H).
    induction uri_vars as [|[key value] uri_vars IH]; intros m Hm.
    + exact Hm.
    + cbn [foldl fst snd]. apply IH.
      rewrite (sub_uri_paras_turn key value (set_iter host X) m name Hnodup).
      rewrite decide_False by (intros H; apply Hout, (elem_of_set_iter host), H).
      exact Hm.
Qed.

(** X6. The connection target of a plugin carries exactly the URI
    parameters whose key starts with [<plugin>_], in the order of the URI,
    each as [<key without the prefix>=<value>], whatever the order in which
    the set of plugins is iterated; every other parameter is left out.  With
    no such parameter the target is [<plugin>://], else
    [<plugin>://?p1&p2...]. *)
Theorem sub_uri_paras_forwarded (host : Host)
    (uri_vars : list (string * string)) (name : string) :
  name ∈ ["megaraid"; "hpsa"; "arcconf"; "nfs"] ->
  let sub_uri_paras := build_sub_uri_paras host supported_plugins uri_vars in
  let paras := omap (sub_para name) uri_vars in
  sub_uri_paras !! name = Some paras /\
  (forall key value,
     (name +:+ "_" +:+ key, value) ∈ uri_vars -> key +:+ "=" +:+ value ∈ paras) /\
  (forall para, para ∈ paras ->
     exists key value,
       (name +:+ "_" +:+ key, value) ∈ uri_vars /\ para = key +:+ "=" +:+ value) /\
  plugin_uri_of sub_uri_paras name =
    Ok (match paras with
        | [] => name +:+ "://"
        | _ :: _ => name +:+ "://" +:+ "?" +:+ String.concat "&" paras
        end).
Proof.
  intros Hname. cbv zeta.
  assert (Hlook : build_sub_uri_paras host supported_plugins uri_vars !! name =
                  Some (omap (sub_para name) uri_vars)).
  { rewrite build_sub_uri_paras_lookup.
    rewrite decide_True by (apply elem_of_supported_plugins, Hname). reflexivity. }
  split; [exact Hlook |]. split; [| split].
  - intros key value Hin. apply list_elem_of_omap.
    exists (name +:+ "_" +:+ key, value). split; [exact Hin |].
    unfold sub_para. cbn [fst snd]. rewrite <- string_app_assoc.
    rewrite string_prefix_app, strip_app. reflexivity.
  - intros para Hpara. apply list_elem_of_omap in Hpara as ([key value] & Hin & Hsub).
    unfold sub_para in Hsub. cbn [fst snd] in Hsub.
    destruct (String.prefix (name +:+ "_") key) eqn:Hpre; [| discriminate].
    injection Hsub as <-.
    eexists _, value. split; [| reflexivity].
    rewrite <- string_app_assoc, (app_strip _ _ Hpre). exact Hin.
  - unfold plugin_uri_of. rewrite Hlook.
    destruct (omap (sub_para name) uri_vars); reflexivity.
Qed.

Lemma sub_uri_paras_forwarded_witness :
  "hpsa" ∈ ["megaraid"; "hpsa"; "arcconf"; "nfs"] /\
  build_sub_uri_paras (scripted_host quiet) supported_plugins hpsa_tuned !! "hpsa" =
    Some ["sacli=/opt/sacli"; "b=2"] /\
  plugin_uri_of (build_sub_uri_paras (scripted_host quiet) supported_plugins hpsa_tuned)
    "hpsa" = Ok "hpsa://?sacli=/opt/sacli&b=2".
Proof.
  assert (Hin : "hpsa" ∈ ["megaraid"; "hpsa"; "arcconf"; "nfs"]).
  { right. left. }
  split; [exact Hin |].
  pose proof (sub_uri_paras_forwarded (scripted_host quiet) hpsa_tuned "hpsa" Hin)
    as (H1 & _ & _ & H4).
  split; [exact H1 | exact H4].
Defined.

(** ** What the loops of [plugin_register] do in every case *)

Lemma discover_loop_any (host : Host) (cs : list conn) (p : LocalPlugin)
    (log : list Event) :
  exists b m,
    (m <= length cs)%nat /\
    snd (for_each cs (discover_systems host) (p, log)) =
      (record_systems p b, history_at log Systems cs m) /\
    (forall x, x ∈ b -> fst x ∈ cs).
Proof.
  revert p log. induction cs as [|c cs IH]; intros p log.
  - exists [], 0%nat. cbn. rewrite history_at_0.
    repeat split; [lia |]. intros x Hx. inversion Hx.
  - cbn [for_each]. rewrite run_bind, discover_systems_spec.
    destruct (backend host log c Systems) as [l|e].
    + destruct (IH (record_systems p (pair c <$> l)) (log ++ [EvCall c Systems]))
        as (b & m & Hm & Hsnd & Hb).
      exists ((pair c <$> l) ++ b), (S m). rewrite history_at_cons, record_systems_app.
      cbn [length]. split; [lia |]. split; [exact Hsnd |].
      intros x [Hx | Hx]%elem_of_app.
      * apply list_elem_of_fmap in Hx as (s & -> & _). left.
      * right. apply Hb, Hx.
    + exists [], 1%nat. rewrite history_at_cons, history_at_0. cbn.
      repeat split; [lia |]. intros x Hx. inversion Hx.
Qed.

Lemma build_routing_table_any (host : Host) (p : LocalPlugin) (log : list Event) :
  exists b m,
    (m <= length (conns p))%nat /\
    snd (build_routing_table host (p, log)) =
      (record_systems p b, history_at log Systems (conns p) m) /\
    (forall x, x ∈ b -> fst x ∈ conns p).
Proof.
  rewrite build_routing_table_spec.
  destruct (discover_loop_any host (conns p) p log) as (b & m & Hm & Hsnd & Hb).
  exists b, m. split; [exact Hm |]. split; [| exact Hb].
  destruct (for_each _ _ _) as [[[]|e] [p' log']]; cbn in Hsnd |- *;
    [case_bool_decide |]; exact Hsnd.
Qed.

Lemma open_connections_any (host : Host) (ignore_init_error : bool)
    (sub_uri_paras : gmap string (list string)) (timeout flags : Z)
    (requested : list string) (p : LocalPlugin) (log : list Event) :
  exists cs n p',
    (n <= length requested)%nat /\
    snd (open_connections host ignore_init_error sub_uri_paras timeout flags
           requested (p, log)) =
      (p', open_history log timeout flags
             (plugin_uri_or_empty sub_uri_paras <$> requested) n) /\
    kept p p' cs /\ nfs_kept p p' cs /\
    ("nfs" ∉ requested -> nfs_conn p' = nfs_conn p).
Proof.
  unfold open_connections. revert p log.
  induction requested as [|name req IH]; intros p log.
  - exists [], 0%nat, p. cbn. rewrite open_history_0.
    repeat split; [lia | apply kept_refl | left; reflexivity].
  - cbn [for_each fmap list_fmap length]. rewrite run_bind.
    assert (Hstop : forall r, exists cs n p',
              (n <= S (length req))%nat /\
              snd (A:=result unit) (r, (p, log)) =
                (p', open_history log timeout flags
                       (plugin_uri_or_empty sub_uri_paras name ::
                        (plugin_uri_or_empty sub_uri_paras <$> req)) n) /\
              kept p p' cs /\ nfs_kept p p' cs /\
              ("nfs" ∉ name :: req -> nfs_conn p' = nfs_conn p)).
    { intros r. exists [], 0%nat, p. rewrite open_history_0. cbn.
      repeat split; [lia | apply kept_refl | left; reflexivity]. }
    destruct (plugin_uri_of sub_uri_paras name) as [u|e] eqn:Hu.
    2: { rewrite (activate_KeyError host _ _ _ _ name e (p, log) Hu). apply Hstop. }
    assert (Hue : plugin_uri_or_empty sub_uri_paras name = u)
      by (unfold plugin_uri_or_empty; rewrite Hu; reflexivity).
    rewrite Hue.
    rewrite (activate_spec host _ _ _ _ name u p log Hu).
    destruct (client_open host log u timeout flags) as [e|].
    + destruct (is_LsmError e && ignore_init_error).
      * destruct (IH p (log ++ [EvOpen u timeout flags]))
          as (cs & n & p' & Hn & Hsnd & Hkept & Hnfs & Hno).
        exists cs, (S n), p'. rewrite open_history_cons.
        split; [lia |]. split; [exact Hsnd |]. split; [exact Hkept |].
        split; [exact Hnfs |]. intros Hout. apply Hno.
        intros H. apply Hout. right. exact H.
      * exists [], 1%nat, p. rewrite open_history_cons, open_history_0. cbn.
        repeat split; [lia | apply kept_refl | left; reflexivity].
    + destruct (IH (opened name (length log) p) (log ++ [EvOpen u timeout flags]))
        as (cs & n & p' & Hn & Hsnd & Hkept & Hnfs & Hno).
      exists ([length log] ++ cs), (S n), p'. rewrite open_history_cons.
      split; [lia |]. split; [exact Hsnd |].
      split; [exact (kept_trans _ _ _ _ _ (kept_opened name (length log) p) Hkept) |].
      split.
      * unfold nfs_kept in *. destruct Hnfs as [Hsame | (c & Hc & Hsome)].
        -- rewrite Hsame. unfold opened. case_bool_decide.
           ++ right. exists (length log). split; [left | reflexivity].
           ++ left. reflexivity.
        -- right. exists c. split; [right; exact Hc | exact Hsome].
      * intros Hout. rewrite Hno by (intros H; apply Hout; right; exact H).
        unfold opened. rewrite bool_decide_eq_false_2; [reflexivity |].
        intros ->. apply Hout. left.
Qed.

(** The state [plugin_register] leaves in every case: some of the targets
    opened, then some of the connections asked for their systems, and the
    systems they reported recorded. *)
Lemma plugin_register_any (host : Host) (uri : string)
    (password : option string) (timeout flags : Z) (p : LocalPlugin)
    (log : list Event) :
  exists cs b n m p1,
    snd (plugin_register host uri password timeout flags (p, log)) =
      (record_systems p1 b,
       history_at (open_history log timeout flags (targets host uri) n)
         Systems (conns p1) m) /\
    (n <= length (targets host uri))%nat /\ (m <= length (conns p1))%nat /\
    kept (set__tmo_ms timeout p) p1 cs /\
    nfs_kept (set__tmo_ms timeout p) p1 cs /\
    (forall x, x ∈ b -> fst x ∈ conns p1) /\
    (forall uri_vars, uri_parse host uri = Ok uri_vars ->
       "nfs" ∉ requested_of host uri_vars ->
       nfs_conn p1 = nfs_conn p).
Proof.
  assert (Hearly : forall r, exists cs b n m p1,
            snd (A:=result unit) (r, (set__tmo_ms timeout p, log)) =
              (record_systems p1 b,
               history_at (open_history log timeout flags (targets host uri) n)
                 Systems (conns p1) m) /\
            (n <= length (targets host uri))%nat /\ (m <= length (conns p1))%nat /\
            kept (set__tmo_ms timeout p) p1 cs /\
            nfs_kept (set__tmo_ms timeout p) p1 cs /\
            (forall x, x ∈ b -> fst x ∈ conns p1) /\
            (forall uri_vars, uri_parse host uri = Ok uri_vars ->
               "nfs" ∉ requested_of host uri_vars ->
               nfs_conn p1 = nfs_conn p)).
  { intros r. exists [], [], 0%nat, 0%nat, (set__tmo_ms timeout p).
    rewrite history_at_0, open_history_0. cbn [snd record_systems foldl].
    split; [reflexivity |]. split; [lia |]. split; [lia |].
    split; [apply kept_refl |]. split; [left; reflexivity |].
    split; [intros x Hx; inversion Hx | reflexivity]. }
  rewrite plugin_register_unfold. cbv zeta.
  destruct (bool_decide (geteuid host ≠ 0%Z)); [apply Hearly |].
  unfold targets in *.
  destruct (uri_parse host uri) as [uri_vars|e]; [| apply Hearly].
  destruct (_ && _); [apply Hearly |].
  destruct (requested_of host uri_vars) as [|name requested] eqn:Hreq;
    [apply Hearly |].
  rewrite <- Hreq. clear Hearly.
  rewrite run_handle_errors. cbn [snd]. rewrite run_bind.
  destruct (open_connections_any host (ignore_init_error_of uri_vars)
              (build_sub_uri_paras host supported_plugins uri_vars) timeout flags
              (requested_of host uri_vars) (set__tmo_ms timeout p) log)
    as (cs & n & p1 & Hn & Hsnd & Hkept & Hnfs & Hno).
  fold (uris_of host uri_vars) in Hsnd.
  assert (Hlen : length (uris_of host uri_vars) = length (requested_of host uri_vars))
    by (unfold uris_of; apply length_fmap).
  destruct (open_connections _ _ _ _ _ _ _) as [[[]|e] [p1' L]];
    cbn [snd] in Hsnd; injection Hsnd as -> ->.
  - destruct (build_routing_table_any host p1
                (open_history log timeout flags (uris_of host uri_vars) n))
      as (b & m & Hm & Hsnd & Hb).
    exists cs, b, n, m, p1. rewrite Hsnd.
    split; [reflexivity |]. split; [lia |]. split; [exact Hm |].
    split; [exact Hkept |]. split; [exact Hnfs |]. split; [exact Hb |].
    intros uri_vars' [= <-] Hout. apply Hno, Hout.
  - exists cs, [], n, 0%nat, p1. rewrite history_at_0. cbn [snd record_systems foldl].
    split; [reflexivity |]. split; [lia |]. split; [lia |].
    split; [exact Hkept |]. split; [exact Hnfs |].
    split; [intros x Hx; inversion Hx |].
    intros uri_vars' [= <-] Hout. apply Hno, Hout.
Qed.

(** X7. Whatever happens in it, [plugin_register] interacts with the
    backends in one way only: it opens the first [n] targets of the URI, in
    order, each with the timeout and flags it was given, and then asks the
    first [m] connections of the connection set for their systems.  It never
    tears a connection down and makes no other call. *)
Theorem register_history (host : Host) (uri : string)
    (password : option string) (timeout flags : Z) (p : LocalPlugin)
    (log : list Event) :
  let run := plugin_register host uri password timeout flags (p, log) in
  exists n m,
    (n <= length (targets host uri))%nat /\
    (m <= length (conns (fst (snd run))))%nat /\
    snd (snd run) =
      history_at (open_history log timeout flags (targets host uri) n)
        Systems (conns (fst (snd run))) m.
Proof.
  cbv zeta.
  destruct (plugin_register_any host uri password timeout flags p log)
    as (cs & b & n & m & p1 & Hsnd & Hn & Hm & _).
  rewrite Hsnd. cbn [fst snd].
  destruct (record_systems_fields p1 b) as (_ & -> & _).
  exists n, m. auto.
Qed.

(** X8. [plugin_register] only ever adds to the router object: in every
    case, failure included, the timeout of the call is stored, the
    connections and the systems present before are still there, in front,
    and the unregistered mark is untouched.  In particular a failed
    registration closes and forgets nothing. *)
Theorem register_only_adds (host : Host) (uri : string)
    (password : option string) (timeout flags : Z) (p : LocalPlugin)
    (log : list Event) :
  let p' := fst (snd (plugin_register host uri password timeout flags (p, log))) in
  _tmo_ms p' = timeout /\
  unregistered p' = unregistered p /\
  conns p `prefix_of` conns p' /\
  syss p `prefix_of` syss p'.
Proof.
  cbv zeta.
  destruct (plugin_register_any host uri password timeout flags p log)
    as (cs & b & n & m & p1 & Hsnd & _ & _ & Hkept & _).
  rewrite Hsnd. cbn [fst].
  destruct (record_systems_fields p1 b) as (-> & -> & -> & -> & _).
  destruct Hkept as (-> & -> & _ & -> & ->). cbn.
  repeat split.
  - exists cs. reflexivity.
  - exists (snd <$> b). reflexivity.
Qed.

(** ** The router object under the other methods *)

Lemma _query_loop_state (host : Host) (query_func_name : string) (flags : Z)
    (cs : list conn) (lsm_objs : list LsmObj) (p : LocalPlugin) (log : list Event) :
  fst (snd (_query_loop host query_func_name flags cs lsm_objs (p, log))) = p.
Proof.
  revert lsm_objs log. induction cs as [|c cs IH]; intros lsm_objs log;
    [reflexivity |].
  cbn [_query_loop]. rewrite run_bind, _query_visit_spec.
  destruct (backend host log c (Query query_func_name flags)) as [r|e].
  - apply IH.
  - destruct (is_NO_SUPPORT e); [apply IH | reflexivity].
Qed.

Lemma _query_state (host : Host) (query_func_name : string)
    (search_key search_value : option string) (flags : Z) (p : LocalPlugin)
    (log : list Event) :
  fst (snd (_query host query_func_name search_key search_value flags (p, log))) = p.
Proof.
  destruct (decide (search_key = Some "system_id")) as [->|Hkey].
  - rewrite _query_system_id. destruct (search_value ≫= _); reflexivity.
  - rewrite (_query_fan_out host _ _ _ _ _ _ Hkey).
    pose proof (_query_loop_state host query_func_name flags (conns p) [] p log) as H.
    destruct (_query_loop _ _ _ _ _ _) as [[l|e] s']; exact H.
Qed.

Lemma nfs_forward_spec (host : Host) (func_name : string) (args : list PyVal)
    (kwargs : list (string * PyVal)) (verb : string) (p : LocalPlugin)
    (log : list Event) :
  nfs_forward host func_name args kwargs verb (p, log) =
  match nfs_conn p with
  | Some c => (backend host log c (Method func_name args kwargs),
               (p, log ++ [EvCall c (Method func_name args kwargs)]))
  | None => (Raise (LsmError NO_SUPPORT
                      ("NFS plugin is not loaded, please " +:+ verb +:+
                       " nfsd kernel module and related services")), (p, log))
  end.
Proof.
  unfold nfs_forward. rewrite run_bind. cbn [get_self fst snd].
  destruct (nfs_conn p); reflexivity.
Qed.

Lemma run_scoped_unfold (host : Host) (op : ScopedOp) (flags : Z) :
  exists parameters,
    run_scoped host op flags =
    _handle_errors (_exec host (operand_system_id op) (scoped_name op) parameters) /\
    scoped_operand op ∈ parameters /\ ("flags", PInt flags) ∈ parameters.
Proof.
  destruct op; cbn [run_scoped operand_system_id scoped_name scoped_operand];
    eexists; (split; [reflexivity |]); split;
    repeat (first [left | right]).
Qed.

Lemma snd_handle_errors {A} (m : M A) (s : State) :
  snd (_handle_errors m s) = snd (m s).
Proof. rewrite run_handle_errors. reflexivity. Qed.

(** The router object after a public method other than [plugin_register]:
    as before, but for the timeout and the unregistered mark. *)
Lemma other_methods_state (host : Host) (op : PublicOp) (p : LocalPlugin)
    (log : list Event) :
  is_register op = false ->
  exists ms b,
    fst (snd (run_public host op (p, log))) =
    set_unregistered b (set__tmo_ms ms p).
Proof.
  assert (Hsame : forall p0 : LocalPlugin,
            p0 = p -> exists ms b, p0 = set_unregistered b (set__tmo_ms ms p)).
  { intros p0 ->. exists (_tmo_ms p), (unregistered p). destruct p; reflexivity. }
  intros Hop. destruct op; try discriminate Hop;
    cbn [run_public outcome fst snd].
  - (* plugin_unregister *)
    rewrite plugin_unregister_unfold. cbv zeta.
    destruct (teardown_prefix host p log) as (n & _ & Hsnd & _).
    destruct (for_each _ _ _) as [[[]|e] [p' log']]; cbn in Hsnd |- *;
      injection Hsnd as -> _.
    + exists (_tmo_ms p), true. destruct p; reflexivity.
    + apply Hsame. reflexivity.
  - apply Hsame. reflexivity.
  - apply Hsame. reflexivity.
  - apply Hsame. reflexivity.
  - (* time_out_set *)
    rewrite time_out_set_unfold. cbv zeta. cbn [snd].
    destruct (for_each_prefix (TimeOutSet ms flags)
                (fun c => call host c (TimeOutSet ms flags))
                (fun log c => backend host log c (TimeOutSet ms flags))
                (fun c p log => call_spec host c (TimeOutSet ms flags) p log)
                (conns p) (set__tmo_ms ms p) log) as (n & _ & Hsnd & _).
    rewrite Hsnd. exists ms, (unregistered p). destruct p; reflexivity.
  - apply Hsame. reflexivity.
  - apply Hsame. reflexivity.
  - rewrite collection_query_unfold, snd_handle_errors. apply Hsame, _query_state.
  - destruct (run_scoped_unfold host op flags) as (parameters & -> & _).
    rewrite snd_handle_errors, _exec_spec. apply Hsame.
    destruct (sys_con_map p !! _); reflexivity.
  - unfold volume_raid_create. rewrite snd_handle_errors. apply Hsame.
    match goal with
    | |- context [match ?d with [] => _ | _ :: _ => _ end] => destruct d
    end; [reflexivity |].
    rewrite _exec_spec. destruct (sys_con_map p !! _); reflexivity.
  - unfold exports. rewrite snd_handle_errors, nfs_forward_spec. apply Hsame.
    destruct (nfs_conn p); reflexivity.
  - unfold export_fs. rewrite snd_handle_errors, nfs_forward_spec. apply Hsame.
    destruct (nfs_conn p); reflexivity.
  - unfold export_remove. rewrite snd_handle_errors, nfs_forward_spec. apply Hsame.
    destruct (nfs_conn p); reflexivity.
  - unfold export_auth. rewrite nfs_forward_spec. apply Hsame.
    destruct (nfs_conn p); reflexivity.
Qed.

(** X9. Once built, the routing state is never changed by anything but
    [plugin_register]: every other public method, whatever its arguments and
    whatever the backends answer, leaves the connection set, the list of
    systems, the routing table and the nfs connection as they are;
    [plugin_unregister] in particular does not empty the connection set. *)
Theorem routing_state_immutable (host : Host) (op : PublicOp) (p : LocalPlugin)
    (log : list Event) :
  is_register op = false ->
  let p' := fst (snd (run_public host op (p, log))) in
  conns p' = conns p /\ syss p' = syss p /\
  sys_con_map p' = sys_con_map p /\ nfs_conn p' = nfs_conn p.
Proof.
  intros Hop. cbv zeta.
  destruct (other_methods_state host op p log Hop) as (ms & b & ->).
  repeat split.
Qed.

Lemma routing_state_immutable_witness :
  is_register (OpPluginUnregister 0) = false /\
  let p' := fst (snd (run_public (scripted_host mixed) (OpPluginUnregister 0)
                        (two_conns, two_conns_log))) in
  conns p' = conns two_conns /\ syss p' = syss two_conns /\
  sys_con_map p' = sys_con_map two_conns /\ nfs_conn p' = nfs_conn two_conns.
Proof.
  split; [reflexivity |].
  apply (routing_state_immutable (scripted_host mixed) (OpPluginUnregister 0)
           two_conns two_conns_log).
  reflexivity.
Defined.

(** ** The references of the router object *)

Lemma last_owner_Some (b : list (conn * System)) (sid : string) (c : conn) :
  last_owner b sid = Some c -> exists s, (c, s) ∈ b /\ sys_id s = sid.
Proof.
  unfold last_owner.
  destruct (last (filter _ b)) as [[c' s]|] eqn:Hlast; [| discriminate].
  intros [= <-]. apply last_Some_elem_of, list_elem_of_filter in Hlast as [Hs Hin].
  exists s. auto.
Qed.

Lemma last_owner_is_Some (b : list (conn * System)) (sid : string) :
  is_Some (last_owner b sid) <-> sid ∈ sys_id <$> (snd <$> b).
Proof.
  unfold last_owner. rewrite fmap_is_Some, last_is_Some. split.
  - intros Hne.
    destruct (filter (fun cs => sys_id (snd cs) = sid) b) as [|x l] eqn:Hf;
      [contradiction |].
    assert (Hx : x ∈ filter (fun cs => sys_id (snd cs) = sid) b)
      by (rewrite Hf; left).
    apply list_elem_of_filter in Hx as [Hs Hin].
    apply list_elem_of_fmap. exists (snd x). split; [auto |].
    apply list_elem_of_fmap. exists x. auto.
  - intros Hin Hnil.
    apply list_elem_of_fmap in Hin as (s & -> & Hin).
    apply list_elem_of_fmap in Hin as (x & -> & Hin).
    apply (filter_nil_not_elem_of _ _ x Hnil); [reflexivity | exact Hin].
Qed.

Lemma routed_marks (p : LocalPlugin) (b : bool) (ms : Z) :
  routed p -> routed (set_unregistered b (set__tmo_ms ms p)).
Proof. intros H. exact H. Qed.

Lemma routed_kept (p p1 : LocalPlugin) (cs : list conn) :
  routed p -> kept p p1 cs -> nfs_kept p p1 cs -> routed p1.
Proof.
  intros (Hmap & Hnfs & Hdom) (Hc & Hs & Hm & _) Hk. unfold routed.
  rewrite Hc, Hs, Hm. split; [| split].
  - intros sid c Hsid. apply elem_of_app. left. eapply Hmap, Hsid.
  - intros c Hc'. apply elem_of_app. destruct Hk as [Hsame | (c' & Hin & Hsome)].
    + left. apply Hnfs. congruence.
    + right. congruence.
  - exact Hdom.
Qed.

Lemma routed_record (p : LocalPlugin) (b : list (conn * System)) :
  routed p -> (forall x, x ∈ b -> fst x ∈ conns p) ->
  routed (record_systems p b).
Proof.
  intros (Hmap & Hnfs & Hdom) Hb. unfold routed.
  destruct (record_systems_fields p b) as (_ & -> & -> & _ & ->).
  split; [| split].
  - intros sid c. rewrite record_systems_lookup.
    destruct (last_owner b sid) as [c'|] eqn:Hlast.
    + intros [= <-]. apply last_owner_Some in Hlast as (s & Hin & _).
      apply (Hb _ Hin).
    + apply Hmap.
  - exact Hnfs.
  - intros sid. rewrite record_systems_lookup, fmap_app, elem_of_app.
    rewrite <- Hdom, <- last_owner_is_Some.
    destruct (last_owner b sid) as [c'|]; split.
    + right. eauto.
    + eauto.
    + intros H. left. exact H.
    + intros [H | [x Hx]]; [exact H | discriminate].
Qed.

Lemma routed_step (host : Host) (op : PublicOp) (s : State) :
  routed (fst s) -> routed (fst (snd (run_public host op s))).
Proof.
  destruct s as [p log]. cbn [fst]. intros Hr.
  destruct (is_register op) eqn:Hop.
  - destruct op; try discriminate Hop. cbn [run_public outcome snd].
    destruct (plugin_register_any host uri password timeout flags p log)
      as (cs & b & n & m & p1 & -> & _ & _ & Hkept & Hnfs & Hb & _).
    cbn [fst]. apply routed_record; [| exact Hb].
    apply (routed_kept (set__tmo_ms timeout p) p1 cs); [exact Hr | exact Hkept | exact Hnfs].
  - destruct (other_methods_state host op p log Hop) as (ms & b & ->).
    apply routed_marks, Hr.
Qed.

(** X10. After any sequence of public method calls on a fresh router,
    whatever the backends answer and whichever calls fail: every identifier
    of the routing table is routed to a connection of the connection set,
    the nfs connection, if any, is one of them, and the routing table knows
    exactly the identifiers of the systems that [systems()] lists. *)
Theorem routing_invariant (host : Host) (ops : list PublicOp) (log : list Event) :
  routed (fst (run_ops host ops (__init__, log))).
Proof.
  unfold run_ops.
  assert (Hinit : routed (fst (__init__, log))).
  { split; [| split].
    - intros sid c H. cbn in H. rewrite lookup_empty in H. discriminate.
    - intros c H. discriminate.
    - intros sid. cbn. rewrite lookup_empty. split.
      + intros [x Hx]. discriminate.
      + intros H. inversion H. }
  revert Hinit. generalize (__init__, log).
  induction ops as [|op ops IH]; intros s Hs; [exact Hs |].
  cbn [foldl]. apply IH, routed_step, Hs.
Qed.

(** ** Only domain errors come out of the decorated methods *)

Lemma decorated_handled (host : Host) (op : PublicOp) :
  decorated op = true ->
  exists (A : Type) (m : M A), run_public host op = outcome (_handle_errors m).
Proof.
  intros Hop. destruct op; try discriminate Hop; cbn [run_public];
    try (eexists _, _; reflexivity).
  - eexists _, _. rewrite collection_query_unfold. reflexivity.
  - destruct (run_scoped_unfold host op flags) as (parameters & -> & _).
    eexists _, _. reflexivity.
Qed.

(** X11. A public method that carries [@_handle_errors], that is every
    public method but [export_auth], raises nothing but [LsmError]: whatever
    a backend or the host throws inside comes out as a domain error. *)
Theorem decorated_raise_LsmError (host : Host) (op : PublicOp) (s : State)
    (e : exn) :
  decorated op = true ->
  fst (run_public host op s) = Some e ->
  is_LsmError e = true.
Proof.
  intros Hop. destruct (decorated_handled host op Hop) as (A & m & ->).
  unfold outcome. cbn [fst].
  destruct (fst (_handle_errors m s)) as [a|e'] eqn:Hrun; [discriminate |].
  intros [= <-]. apply (handle_errors_boundary m s e' Hrun).
Qed.

Lemma decorated_raise_LsmError_witness :
  decorated (OpCollection Disks None None 0) = true /\
  fst (run_public (scripted_host crashing) (OpCollection Disks None None 0)
         (two_conns, two_conns_log)) =
    Some (LsmError PLUGIN_BUG "Got unexpected error list index out of range") /\
  is_LsmError (LsmError PLUGIN_BUG "Got unexpected error list index out of range")
    = true.
Proof.
  split; [reflexivity |]. split; [reflexivity |].
  apply (decorated_raise_LsmError (scripted_host crashing)
           (OpCollection Disks None None 0) (two_conns, two_conns_log)).
  - reflexivity.
  - reflexivity.
Defined.

(** ** Forwarding *)

(** X12. A system-scoped method whose operand names a system of the routing
    table makes exactly one backend call: on the owning connection, of the
    method of the same name, with the operand and the flags among the
    keyword arguments.  The router object is unchanged and the answer is the
    caller's (an exception that is not a domain error rewrapped). *)
Theorem scoped_forwarded (host : Host) (op : ScopedOp) (flags : Z)
    (p : LocalPlugin) (log : list Event) (c : conn) :
  sys_con_map p !! operand_system_id op = Some c ->
  exists parameters,
    scoped_operand op ∈ parameters /\ ("flags", PInt flags) ∈ parameters /\
    run_scoped host op flags (p, log) =
    (rewrap_result (backend host log c (Method (scoped_name op) [] parameters)),
     (p, log ++ [EvCall c (Method (scoped_name op) [] parameters)])).
Proof.
  intros Hown.
  destruct (run_scoped_unfold host op flags) as (parameters & -> & Hop & Hfl).
  exists parameters. split; [exact Hop |]. split; [exact Hfl |].
  rewrite run_handle_errors, _exec_spec, Hown. reflexivity.
Qed.

Lemma scoped_forwarded_witness :
  let op := VolumeDelete (volume_of "v1" "mega-0") in
  sys_con_map two_conns !! operand_system_id op = Some 1%nat /\
  exists parameters,
    scoped_operand op ∈ parameters /\ ("flags", PInt 0) ∈ parameters /\
    run_scoped (scripted_host crashing) op 0 (two_conns, two_conns_log) =
    (rewrap_result
       (backend (scripted_host crashing) two_conns_log 1%nat
          (Method (scoped_name op) [] parameters)),
     (two_conns,
      two_conns_log ++ [EvCall 1%nat (Method (scoped_name op) [] parameters)])).
Proof.
  cbv zeta. split; [reflexivity |].
  exact (scoped_forwarded (scripted_host crashing)
           (VolumeDelete (volume_of "v1" "mega-0")) 0 two_conns two_conns_log
           1%nat eq_refl).
Defined.

(** X13. [volume_raid_create] looks at its disk list before it looks at the
    routing table: an empty list is INVALID_ARGUMENT with no backend call;
    otherwise the first disk alone decides the connection, and the whole
    list is forwarded to it. *)
Theorem volume_raid_create_routing (host : Host) (name : string)
    (raid_type : Z) (disk_list : list LsmObj) (strip_size flags : Z)
    (p : LocalPlugin) (log : list Event) :
  volume_raid_create host name raid_type disk_list strip_size flags (p, log) =
  match disk_list with
  | [] => (Raise (LsmError INVALID_ARGUMENT "No disk defined"), (p, log))
  | disk0 :: _ =>
      match sys_con_map p !! obj_system_id disk0 with
      | None => (Raise (LsmError NOT_FOUND_SYSTEM "System not found"), (p, log))
      | Some c =>
          let k := Method "volume_raid_create" []
                     [("name", PStr name); ("raid_type", PInt raid_type);
                      ("disks", PObjs disk_list); ("strip_size", PInt strip_size);
                      ("flags", PInt flags)] in
          (rewrap_result (backend host log c k), (p, log ++ [EvCall c k]))
      end
  end.
Proof.
  unfold volume_raid_create. rewrite run_handle_errors.
  destruct disk_list as [|disk0 rest]; [reflexivity |].
  rewrite _exec_spec. destruct (sys_con_map p !! _); reflexivity.
Qed.

(** X14. The four export methods go to the nfs connection and nowhere else:
    without one they raise NO_SUPPORT and call no backend; with one they
    make exactly one call, of the method of the same name, on it, with the
    flags passed on, and leave the router object alone.  The answer is the
    caller's; only [export_auth] lets an exception that is not a domain
    error through as it is. *)
Theorem export_routing (host : Host) (op : ExportOp) (flags : Z)
    (p : LocalPlugin) (log : list Event) :
  match nfs_conn p with
  | None =>
      exists msg,
        run_export host op flags (p, log) =
        (Raise (LsmError NO_SUPPORT msg), (p, log))
  | Some c =>
      exists args kwargs,
        (PInt flags ∈ args \/ ("flags", PInt flags) ∈ kwargs) /\
        run_export host op flags (p, log) =
        (match op with
         | ExportAuth => backend host log c (Method (export_name op) args kwargs)
         | _ => rewrap_result
                  (backend host log c (Method (export_name op) args kwargs))
         end,
         (p, log ++ [EvCall c (Method (export_name op) args kwargs)]))
  end.
Proof.
  destruct (nfs_conn p) as [c|] eqn:Hnfs.
  - destruct op; cbn [run_export export_name];
      unfold exports, export_fs, export_remove, export_auth;
      rewrite ?run_handle_errors, nfs_forward_spec, Hnfs;
      eexists _, _; (split; [| reflexivity]).
    + left. repeat (first [left | right]).
    + left. repeat (first [left | right]).
    + left. repeat (first [left | right]).
    + right. left.
  - destruct op; cbn [run_export];
      unfold exports, export_fs, export_remove, export_auth;
      rewrite ?run_handle_errors, nfs_forward_spec, Hnfs;
      eexists; reflexivity.
Qed.

(** ** The nfs connection *)

Lemma nfs_probed (host : Host) :
  "nfs" ∈ probe_plugins host -> "nfsd" ∈ listdir_sys_module host.
Proof.
  unfold probe_plugins. cbv zeta. rewrite elem_of_set_iter, elem_of_list_to_set.
  assert (Hk : "nfs" ∈ probe_kmods (listdir_sys_module host) ->
               "nfsd" ∈ listdir_sys_module host).
  { intros (kmod & Hmap & Hin)%elem_of_probe_kmods.
    apply list_elem_of_In in Hmap. cbn in Hmap.
    destruct Hmap as [H|[H|[H|[H|[]]]]]; try discriminate H.
    injection H as <-. exact Hin. }
  destruct (bool_decide _); [| exact Hk].
  destruct (find_arcconf host), (find_sacli host);
    intros [H | H%list_elem_of_singleton]%elem_of_app;
    first [exact (Hk H) | discriminate H].
Qed.

(** X15. The nfs connection is designated by [plugin_register] only when
    the nfs plugin is activated.  When the URI parses, [only=] does not name
    nfs and the nfsd module is not loaded, a registration of a fresh router,
    successful or not, leaves the router without nfs connection, so that all
    four export methods raise NO_SUPPORT afterwards. *)
Theorem no_nfsd_no_exports (host : Host) (uri : string)
    (password : option string) (timeout flags : Z) (log : list Event)
    (uri_vars : list (string * string)) (op : ExportOp) (flags' : Z) :
  uri_parse host uri = Ok uri_vars ->
  only_of uri_vars ≠ "nfs" ->
  "nfsd" ∉ listdir_sys_module host ->
  let s := snd (plugin_register host uri password timeout flags (__init__, log)) in
  nfs_conn (fst s) = None /\
  exists msg,
    run_export host op flags' s = (Raise (LsmError NO_SUPPORT msg), s).
Proof.
  intros Hparse Honly Hnfsd. cbv zeta.
  destruct (plugin_register_any host uri password timeout flags __init__ log)
    as (cs & b & n & m & p1 & Hsnd & _ & _ & _ & _ & _ & Hno).
  assert (Hnone : nfs_conn (record_systems p1 b) = None).
  { destruct (record_systems_fields p1 b) as (_ & _ & _ & _ & ->).
    rewrite (Hno uri_vars Hparse); [reflexivity |].
    unfold requested_of. destruct (py_bool (only_of uri_vars)).
    - intros H%list_elem_of_singleton. congruence.
    - intros H. apply Hnfsd, nfs_probed, H. }
  rewrite Hsnd. cbn [fst]. split; [exact Hnone |].
  destruct op; cbn [run_export];
    unfold exports, export_fs, export_remove, export_auth;
    rewrite ?run_handle_errors, nfs_forward_spec, Hnone;
    eexists; reflexivity.
Qed.

Lemma no_nfsd_no_exports_witness :
  let host := scripted_host mixed in
  let s := snd (plugin_register host "local://" None 3000 0 (__init__, [])) in
  uri_parse host "local://" = Ok [] /\
  only_of [] ≠ "nfs" /\
  ("nfsd" ∉ listdir_sys_module host) /\
  nfs_conn (fst s) = None /\
  exists msg,
    run_export host (Exports None None) 0 s = (Raise (LsmError NO_SUPPORT msg), s).
Proof.
  cbv zeta.
  assert (Honly : only_of [] ≠ "nfs") by discriminate.
  assert (Hnfsd : "nfsd" ∉ listdir_sys_module (scripted_host mixed)).
  { rewrite list_elem_of_In. cbn. intros [H|[H|[]]]; discriminate. }
  split; [reflexivity |]. split; [exact Honly |]. split; [exact Hnfsd |].
  exact (no_nfsd_no_exports (scripted_host mixed) "local://" None 3000 0 []
           [] (Exports None None) 0 eq_refl Honly Hnfsd).
Defined.

(** ** Timeouts and teardown *)

(** X16. When every connection accepts the new timeout, [time_out_set]
    stores it and pushes it, with the flags, to every connection of the
    connection set, once each and in order. *)
Theorem time_out_set_all (host : Host) (ms flags : Z) (p : LocalPlugin)
    (log : list Event) :
  (forall i c, conns p !! i = Some c ->
     backend host (history_at log (TimeOutSet ms flags) (conns p) i) c
       (TimeOutSet ms flags) = Ok tt) ->
  time_out_set host ms flags (p, log) =
  (Ok tt, (set__tmo_ms ms p,
           log ++ ((fun c => EvCall c (TimeOutSet ms flags)) <$> conns p))).
Proof.
  intros Hall. rewrite time_out_set_unfold.
  rewrite (for_each_all_ok (TimeOutSet ms flags)
             (fun c => call host c (TimeOutSet ms flags))
             (fun log c => backend host log c (TimeOutSet ms flags))
             (fun c p log => call_spec host c (TimeOutSet ms flags) p log)
             (conns p) (set__tmo_ms ms p) log Hall).
  cbv zeta. cbn [fst snd rewrap_result]. rewrite history_at_all. reflexivity.
Qed.

Lemma time_out_set_all_witness :
  time_out_set (scripted_host mixed) 500 0 (two_conns, two_conns_log) =
  (Ok tt, (set__tmo_ms 500 two_conns,
           two_conns_log ++ [EvCall 0%nat (TimeOutSet 500 0);
                             EvCall 1%nat (TimeOutSet 500 0)])).
Proof.
  apply (time_out_set_all (scripted_host mixed) 500 0 two_conns two_conns_log).
  intros [|[|i]] c Hi; [reflexivity | reflexivity | discriminate].
Defined.

(** X17. Teardown is not best effort: when the teardown of the [j]-th
    connection raises, [plugin_unregister] raises that error, the
    connections after it are not torn down and the router is not marked
    unregistered; so the finalizer [__del__] will then start the teardown
    over, from the first connection, and swallow whatever it raises. *)
Theorem unregister_stops_at_failure (host : Host) (flags : Z)
    (p : LocalPlugin) (log : list Event) (j : nat) (c : conn) (e : exn) :
  conns p !! j = Some c ->
  (forall i c', (i < j)%nat -> conns p !! i = Some c' ->
     backend host (history_at log PluginUnregister (conns p) i) c'
       PluginUnregister = Ok tt) ->
  backend host (history_at log PluginUnregister (conns p) j) c PluginUnregister
    = Raise e ->
  let s1 := (p, history_at log PluginUnregister (conns p) (S j)) in
  plugin_unregister host flags (p, log) = (Raise (rewrap e), s1) /\
  (unregistered p = false ->
   exists n,
     (0 < n <= length (conns p))%nat /\
     __del__ host s1 =
     (Ok tt, (fst (snd (__del__ host s1)),
              history_at (snd s1) PluginUnregister (conns p) n))).
Proof.
  intros Hj Hbefore Hraise. cbv zeta. split.
  - rewrite plugin_unregister_unfold. cbv zeta.
    rewrite (for_each_first_raise PluginUnregister
               (fun c => call host c PluginUnregister)
               (fun log c => backend host log c PluginUnregister)
               (fun c p log => call_spec host c PluginUnregister p log)
               (conns p) p log j c e Hj Hbefore Hraise).
    reflexivity.
  - intros Hun. unfold __del__. cbn [fst snd]. rewrite Hun.
    rewrite plugin_unregister_unfold. cbv zeta.
    destruct (teardown_prefix host p
                (history_at log PluginUnregister (conns p) (S j)))
      as (n & Hn & Hsnd & Hpos & _).
    exists n. split.
    + split; [| exact Hn]. apply Hpos. intros Hnil. rewrite Hnil in Hj. discriminate.
    + destruct (for_each _ _ _) as [[[]|e'] [p' log']]; cbn in Hsnd |- *;
        injection Hsnd as -> ->; reflexivity.
Qed.

Lemma unregister_stops_at_failure_witness :
  let s1 := (two_conns, two_conns_log ++ [EvCall 0%nat PluginUnregister]) in
  plugin_unregister (scripted_host crashing) 0 (two_conns, two_conns_log) =
    (Raise (LsmError (OTHER_ERROR 12) "Daemon not running"), s1) /\
  unregistered (fst s1) = false.
Proof.
  cbv zeta. split; [| reflexivity].
  apply (unregister_stops_at_failure (scripted_host crashing) 0 two_conns
           two_conns_log 0 0%nat (LsmError (OTHER_ERROR 12) "Daemon not running")).
  - reflexivity.
  - intros i c' Hi. lia.
  - reflexivity.
Defined.

(** ** NO_SUPPORT in a query by system identifier *)

(** X18. The NO_SUPPORT tolerance is for the fan-out only.  When the owning
    connection answers a query filtered by "system_id" with any error, that
    error is raised, NO_SUPPORT included; the same answer in the unfiltered
    query of a router with that single connection gives the empty list. *)
Theorem query_by_system_id_no_tolerance (host : Host) (kind : CollectionKind)
    (v : string) (flags : Z) (p : LocalPlugin) (log : list Event) (c : conn)
    (e : exn) :
  sys_con_map p !! v = Some c ->
  backend host log c (Query (kind_name kind) flags) = Raise e ->
  fst (collection_query host kind (Some "system_id") (Some v) flags (p, log)) =
    Raise (rewrap e) /\
  (conns p = [c] -> is_NO_SUPPORT e = true ->
   fst (collection_query host kind None None flags (p, log)) = Ok []).
Proof.
  intros Hown Hans. split.
  - rewrite collection_query_unfold, run_handle_errors, _query_system_id.
    cbn. rewrite Hown. cbn. rewrite Hans. reflexivity.
  - intros Hconns Hno.
    rewrite collection_query_unfold, run_handle_errors.
    rewrite (_query_fan_out host _ _ None None p log) by discriminate.
    rewrite Hconns. cbn [_query_loop]. rewrite run_bind, _query_visit_spec.
    rewrite Hans, Hno. reflexivity.
Qed.

Lemma query_by_system_id_no_tolerance_witness :
  sys_con_map mega_only !! "mega-0" = Some 0%nat /\
  fst (collection_query (scripted_host mega_no_batteries) Batteries
         (Some "system_id") (Some "mega-0") 0
         (mega_only, [EvOpen "megaraid://" 3000 0; EvCall 0%nat Systems])) =
    Raise (LsmError NO_SUPPORT "Not supported") /\
  fst (collection_query (scripted_host mega_no_batteries) Batteries None None 0
         (mega_only, [EvOpen "megaraid://" 3000 0; EvCall 0%nat Systems])) = Ok [].
Proof.
  split; [reflexivity |].
  destruct (query_by_system_id_no_tolerance (scripted_host mega_no_batteries)
              Batteries "mega-0" 0 mega_only
              [EvOpen "megaraid://" 3000 0; EvCall 0%nat Systems] 0%nat
              (LsmError NO_SUPPORT "Not supported") eq_refl eq_refl) as [H1 H2].
  split; [exact H1 | exact (H2 eq_refl eq_refl)].
Defined.

(** ** Registration once more *)

(** X19. [plugin_register] does not start from scratch.  When it succeeds
    on a router that already has connections, the new connections are added
    behind the old ones, every connection, old and new, is asked for its
    systems, and all the answers are appended to the systems already listed:
    the systems of the old connections are then listed twice.  A successful
    registration always leaves a routing table that is not empty. *)
Theorem register_again (host : Host) (uri : string)
    (password : option string) (timeout flags : Z) (p : LocalPlugin)
    (log : list Event) (p' : LocalPlugin) (log' : list Event) :
  plugin_register host uri password timeout flags (p, log) = (Ok tt, (p', log')) ->
  exists cs L,
    conns p' = conns p ++ cs /\
    log' = history_at L Systems (conns p') (length (conns p')) /\
    (forall i c, conns p' !! i = Some c ->
       exists l, backend host (history_at L Systems (conns p') i) c Systems = Ok l) /\
    syss p' = syss p ++ concat (reported host L (conns p')) /\
    sys_con_map p' ≠ ∅.
Proof.
  intros Hrun.
  destruct (plugin_register_cases host uri password timeout flags p log)
    as [(uri_vars & _ & Heq) | [_ [e Heq]]]; rewrite Heq in Hrun; [| discriminate].
  clear Heq. rewrite run_handle_errors in Hrun.
  injection Hrun as Hres Hstate. apply rewrap_result_Ok in Hres.
  rewrite run_bind in Hres, Hstate.
  destruct (open_connections_kept host (ignore_init_error_of uri_vars)
              (build_sub_uri_paras host supported_plugins uri_vars) timeout flags
              (requested_of host uri_vars) (set__tmo_ms timeout p) log)
    as (cs & Hconns & Hsyss & _).
  destruct (open_connections _ _ _ _ _ _ _) as [[[]|e] [p1 L]];
    [| discriminate].
  cbn [fst snd set__tmo_ms conns syss] in *.
  rewrite build_routing_table_spec in Hres, Hstate.
  destruct (discover_loop_cases host (conns p1) p1 L)
    as [[Hall Hloop] | (j & c & e & _ & _ & Hraise)].
  2: { destruct (for_each _ _ _) as [[[]|e'] [p2 L2]]; discriminate. }
  rewrite Hloop in Hres, Hstate.
  destruct (record_systems_fields p1 (bindings host L (conns p1)))
    as (_ & Hc & Hs & _).
  case_bool_decide as Hempty; [discriminate |].
  injection Hstate as <- <-. rewrite Hc. exists cs, L.
  split; [exact Hconns |]. split; [reflexivity |]. split; [exact Hall |].
  split; [| exact Hempty].
  rewrite Hs, Hsyss, bindings_reported. reflexivity.
Qed.

Lemma register_again_witness :
  let host := scripted_host mixed in
  let s1 := snd (plugin_register host "local://" None 3000 0 (__init__, [])) in
  let run2 := plugin_register host "local://" None 3000 0 s1 in
  fst run2 = Ok tt /\
  conns (fst s1) = [0; 1]%nat /\
  syss (fst s1) = [sysB; sysA] /\
  conns (fst (snd run2)) = [0; 1; 4; 5]%nat /\
  syss (fst (snd run2)) = [sysB; sysA] ++ [sysB; sysA; sysB; sysA] /\
  exists cs L,
    conns (fst (snd run2)) = conns (fst s1) ++ cs /\
    snd (snd run2) = history_at L Systems (conns (fst (snd run2)))
                       (length (conns (fst (snd run2)))) /\
    (forall i c, conns (fst (snd run2)) !! i = Some c ->
       exists l, backend host (history_at L Systems (conns (fst (snd run2))) i) c
                   Systems = Ok l) /\
    syss (fst (snd run2)) =
      syss (fst s1) ++ concat (reported host L (conns (fst (snd run2)))) /\
    sys_con_map (fst (snd run2)) ≠ ∅.
Proof.
  cbv zeta.
  split; [vm_compute; reflexivity |]. split; [vm_compute; reflexivity |].
  split; [vm_compute; reflexivity |]. split; [vm_compute; reflexivity |].
  split; [vm_compute; reflexivity |].
  apply (register_again (scripted_host mixed) "local://" None 3000 0
           (fst (snd (plugin_register (scripted_host mixed) "local://" None 3000 0
                        (__init__, []))))
           (snd (snd (plugin_register (scripted_host mixed) "local://" None 3000 0
                        (__init__, []))))).
  vm_compute. reflexivity.
Defined.

(** X20. [ignore_init_error] covers domain errors only.  When the first
    open that fails raises an exception that is not an [LsmError], the
    registration of a fresh router is aborted whatever the flag, the caller
    gets a PLUGIN_BUG error with the exception's message, and the
    connections opened before stay in the connection set. *)
Theorem open_crash_aborts (host : Host) (uri : string)
    (password : option string) (timeout flags : Z) (log : list Event)
    (uri_vars : list (string * string)) (j : nat) (u msg : string) :
  reaches_activation host uri uri_vars ->
  let uris := uris_of host uri_vars in
  uris !! j = Some u ->
  (forall i u', (i < j)%nat -> uris !! i = Some u' ->
     client_open host (open_history log timeout flags uris i) u' timeout flags = None) ->
  client_open host (open_history log timeout flags uris j) u timeout flags =
    Some (Exception msg) ->
  let run := plugin_register host uri password timeout flags (__init__, log) in
  fst run = Raise (LsmError PLUGIN_BUG ("Got unexpected error " +:+ msg)) /\
  conns (fst (snd run)) = seq (length log) j /\
  snd (snd run) = open_history log timeout flags uris (S j).
Proof.
  intros Hreach uris Hj Hbefore Hfail run. subst run uris.
  rewrite (plugin_register_run host uri password timeout flags __init__ log
             uri_vars Hreach).
  rewrite run_handle_errors, run_bind. unfold uris_of in *.
  destruct (open_abort host (ignore_init_error_of uri_vars)
              (build_sub_uri_paras host supported_plugins uri_vars) timeout flags
              (requested_of host uri_vars) (set__tmo_ms timeout __init__) log
              j u (Exception msg)) as (p1 & Hrun & Hkept & _).
  - intros name. apply plugin_uri_of_requested. apply Hreach.
  - exact Hj.
  - exact Hbefore.
  - exact Hfail.
  - reflexivity.
  - rewrite Hrun. cbn [fst snd rewrap_result rewrap]. rewrite Hkept.
    repeat split.
Qed.

Lemma open_crash_aborts_witness :
  let vars := [("ignore_init_error", "true")] in
  let host := scripted_host (hpsa_crashes vars) in
  let run := plugin_register host "local://?ignore_init_error=true" None 3000 0
               (__init__, []) in
  reaches_activation host "local://?ignore_init_error=true" vars /\
  ignore_init_error_of vars = true /\
  fst run = Raise (LsmError PLUGIN_BUG
                     "Got unexpected error [Errno 13] Permission denied") /\
  conns (fst (snd run)) = [0%nat] /\
  snd (snd run) = [EvOpen "megaraid://" 3000 0; EvOpen "hpsa://" 3000 0].
Proof.
  cbv zeta.
  assert (Hreach : reaches_activation
                     (scripted_host (hpsa_crashes [("ignore_init_error", "true")]))
                     "local://?ignore_init_error=true"
                     [("ignore_init_error", "true")]).
  { split; [reflexivity |]. split; [reflexivity |].
    split; [left; reflexivity | vm_compute; discriminate]. }
  assert (Huris : uris_of (scripted_host (hpsa_crashes [("ignore_init_error", "true")]))
                    [("ignore_init_error", "true")] = ["megaraid://"; "hpsa://"])
    by (vm_compute; reflexivity).
  split; [exact Hreach |]. split; [reflexivity |].
  pose proof (open_crash_aborts
                (scripted_host (hpsa_crashes [("ignore_init_error", "true")]))
                "local://?ignore_init_error=true" None 3000 0 []
                [("ignore_init_error", "true")] 1 "hpsa://"
                "[Errno 13] Permission denied" Hreach) as H.
  cbv zeta in H. rewrite Huris in H.
  apply H.
  - reflexivity.
  - intros [|i] u' Hi Hu'; [injection Hu' as <-; reflexivity | lia].
  - reflexivity.
Defined.

(** ** A single backend by [only=] *)

(** X21. With [only=<plugin>] naming one of the four plugins, the kernel
    modules play no part: the registration has that plugin's connection
    target as its single target, whatever modules are loaded, also none. *)
Theorem only_selects_one (host : Host) (uri : string)
    (uri_vars : list (string * string)) :
  uri_parse host uri = Ok uri_vars ->
  only_of uri_vars ∈ ["megaraid"; "hpsa"; "arcconf"; "nfs"] ->
  requested_of host uri_vars = [only_of uri_vars] /\
  targets host uri =
    [match omap (sub_para (only_of uri_vars)) uri_vars with
     | [] => only_of uri_vars +:+ "://"
     | paras => only_of uri_vars +:+ "://" +:+ "?" +:+ String.concat "&" paras
     end].
Proof.
  intros Hparse Honly.
  assert (Hset : py_bool (only_of uri_vars) = true).
  { apply py_bool_true. intros Hempty. rewrite Hempty in Honly.
    apply list_elem_of_In in Honly. cbn in Honly.
    destruct Honly as [H|[H|[H|[H|[]]]]]; discriminate. }
  assert (Hreq : requested_of host uri_vars = [only_of uri_vars])
    by (unfold requested_of; rewrite Hset; reflexivity).
  split; [exact Hreq |].
  unfold targets, uris_of. rewrite Hparse, Hreq. cbn [fmap list_fmap].
  unfold plugin_uri_or_empty, plugin_uri_of.
  rewrite build_sub_uri_paras_lookup.
  rewrite decide_True by (apply elem_of_supported_plugins, Honly).
  destruct (omap _ uri_vars); reflexivity.
Qed.

Lemma only_selects_one_witness :
  let host := scripted_host (with_uri_vars hpsa_tuned quiet) in
  uri_parse host "local://?hpsa_sacli=/opt/sacli&only=hpsa&megaraid_x=1&hpsa_b=2"
    = Ok hpsa_tuned /\
  only_of hpsa_tuned ∈ ["megaraid"; "hpsa"; "arcconf"; "nfs"] /\
  listdir_sys_module host = [] /\
  targets host "local://?hpsa_sacli=/opt/sacli&only=hpsa&megaraid_x=1&hpsa_b=2"
    = ["hpsa://?sacli=/opt/sacli&b=2"].
Proof.
  cbv zeta.
  assert (Honly : only_of hpsa_tuned ∈ ["megaraid"; "hpsa"; "arcconf"; "nfs"]).
  { right. left. }
  split; [reflexivity |]. split; [exact Honly |]. split; [reflexivity |].
  exact (proj2 (only_selects_one (scripted_host (with_uri_vars hpsa_tuned quiet))
                  "local://?hpsa_sacli=/opt/sacli&only=hpsa&megaraid_x=1&hpsa_b=2"
                  hpsa_tuned eq_refl Honly)).
Defined.

(** ** Connections without systems *)

(** X22. When a registration of a fresh router opens every target but no
    connection reports a system, [plugin_register] raises NO_SUPPORT "No
    supported systems found", and the connections it has opened stay open,
    in the connection set, with no teardown. *)
Theorem register_no_systems (host : Host) (uri : string)
    (password : option string) (timeout flags : Z) (log : list Event)
    (uri_vars : list (string * string)) :
  reaches_activation host uri uri_vars ->
  let uris := uris_of host uri_vars in
  let cs := seq (length log) (length uris) in
  let L := open_history log timeout flags uris (length uris) in
  (forall i u, uris !! i = Some u ->
     client_open host (open_history log timeout flags uris i) u timeout flags = None) ->
  (forall i c, cs !! i = Some c ->
     backend host (history_at L Systems cs i) c Systems = Ok []) ->
  let run := plugin_register host uri password timeout flags (__init__, log) in
  fst run = Raise (LsmError NO_SUPPORT "No supported systems found") /\
  conns (fst (snd run)) = cs /\
  snd (snd run) = history_at L Systems cs (length cs).
Proof.
  intros Hreach uris cs L Hopen Hnone run. subst run uris cs L.
  rewrite (plugin_register_run host uri password timeout flags __init__ log
             uri_vars Hreach).
  rewrite run_handle_errors, run_bind. unfold uris_of in *.
  rewrite length_fmap in *.
  destruct (open_all_succeed host (ignore_init_error_of uri_vars)
              (build_sub_uri_paras host supported_plugins uri_vars) timeout flags
              (requested_of host uri_vars) (set__tmo_ms timeout __init__) log)
    as (p1 & Hrun & Hconns & _ & Hmap & _).
  - intros name. apply plugin_uri_of_requested. apply Hreach.
  - exact Hopen.
  - rewrite Hrun. cbv beta iota. cbn [fst snd].
    cbn [conns sys_con_map set__tmo_ms __init__ app] in Hconns, Hmap.
    rewrite <- Hconns in *.
    rewrite build_routing_table_spec.
    destruct (discover_loop_cases host (conns p1) p1
                (open_history log timeout flags
                   (plugin_uri_or_empty
                      (build_sub_uri_paras host supported_plugins uri_vars)
                      <$> requested_of host uri_vars)
                   (length (requested_of host uri_vars))))
      as [[_ Hloop] | (i & c & e & Hi & Hraise & _)].
    2: { rewrite (Hnone i c Hi) in Hraise. discriminate. }
    rewrite Hloop.
    assert (Hb : bindings host
                   (open_history log timeout flags
                      (plugin_uri_or_empty
                         (build_sub_uri_paras host supported_plugins uri_vars)
                         <$> requested_of host uri_vars)
                      (length (requested_of host uri_vars))) (conns p1) = []).
    { unfold bindings. apply concat_nil_Forall, Forall_forall.
      intros l Hl. apply list_elem_of_lookup in Hl as [i Hl].
      rewrite list_lookup_imap in Hl.
      destruct (conns p1 !! i) as [c|] eqn:Hc; [| discriminate].
      cbn [fmap option_fmap option_map] in Hl. injection Hl as <-.
      unfold systems_answer. rewrite (Hnone i c Hc). reflexivity. }
    rewrite Hb. cbn [record_systems foldl].
    rewrite bool_decide_eq_true_2 by exact Hmap.
    repeat split.
Qed.

Lemma register_no_systems_witness :
  let host := scripted_host strict_timeout in
  let run := plugin_register host "local://" None 3000 0 (__init__, []) in
  reaches_activation host "local://" [] /\
  fst run = Raise (LsmError NO_SUPPORT "No supported systems found") /\
  conns (fst (snd run)) = [0; 1]%nat /\
  snd (snd run) = [EvOpen "megaraid://" 3000 0; EvOpen "hpsa://" 3000 0;
                   EvCall 0%nat Systems; EvCall 1%nat Systems].
Proof.
  cbv zeta.
  assert (Hreach : reaches_activation (scripted_host strict_timeout) "local://" []).
  { split; [reflexivity |]. split; [reflexivity |].
    split; [left; reflexivity | vm_compute; discriminate]. }
  assert (Huris : uris_of (scripted_host strict_timeout) [] =
                  ["megaraid://"; "hpsa://"]) by (vm_compute; reflexivity).
  split; [exact Hreach |].
  pose proof (register_no_systems (scripted_host strict_timeout) "local://" None
                3000 0 [] [] Hreach) as H.
  cbv zeta in H. rewrite Huris in H. apply H.
  - intros [|[|i]] u Hi; [reflexivity | reflexivity | discriminate].
  - intros [|[|i]] c Hi; [reflexivity | reflexivity | discriminate].
Defined.
